(** * Budget analysis tool: normalisation and derived analytics

    A shallow embedding of the transaction loaders, the pandas
    aggregations of [scripts/analysis.py], the data preparation of
    [scripts/generate_dashboard.py] and the subscription reconciler that
    this script ships to the browser ([getSubscriptions]), followed by the
    properties that the specification states about them.  The other
    reports of [scripts/analysis.py], the grouping of recurring payments
    of the page ([getRecurringPayments]) and the expense extraction of
    [scripts/generate_business_dashboard.py] are embedded as well, with
    further properties read off the code.

    Conventions of the embedding.
    - A pandas float is an [option Q]: [None] is NaN (or, after a division
      by zero, a non finite value: plus or minus infinity), [Some q] a
      finite number.  Binary64 arithmetic is idealised to exact rational
      arithmetic, following the specification's data model ("signed
      decimal currency value").  Comparisons of one amount with a
      constant and counts of rows are the same in both arithmetics;
      sums, quotients and their roundings are not.  The test of the
      reconciler on the amount, where the specification names boundary
      values, is given on doubles as well ([Binary64]); the further
      properties of the reports are stated on counts, rows and orders
      only.
    - A DataFrame is the list of its rows, in index order.
    - A Python or JavaScript exception is a value of [Exception]; code that
      can raise lives in the [Result] monad.
    - A JavaScript object used as a dictionary is the list of its own
      properties in order of creation; a lookup also finds the names
      inherited from [Object.prototype], and the own properties are walked
      with the array indices first ([Js]).
    - The text parsers of pandas ([pd.to_numeric], [pd.to_datetime]) and
      the JavaScript [Date] constructor are an interface ([Externals]);
      every general statement holds for any implementation of it, and a
      small concrete implementation is used to run the code on examples.
    - The columns of a CSV file are present or not, as [columns] says.
      In the frame of the dashboard, a line of a file without
      [Description] or [Category] column has NaN there, as a line with
      an empty cell has; a NaN description is the empty text.
      [Dashboard.load_transactions] and [Dashboard.process_data] are the
      two functions on a frame that has both columns; [Normalizer] has
      them with the [KeyError] of a missing column.
    - The cells of a date column and, in what reaches the page, of the
      [Description] column hold text: pandas reads an empty cell as a
      missing value (NaT, NaN) without raising, and such cells are not
      part of the model (statements about a date that does not parse
      are about a cell that is not empty). *)

From Stdlib Require Import ZArith QArith Qabs Qround Lqa String Ascii List Permutation.
From stdpp Require Import gmap strings list pretty.
From Stdlib Require Import Sorted.
From Stdlib Require Import SpecFloat.

Import ListNotations.
Local Open Scope Z_scope.
Local Open Scope string_scope.

(** ** Exceptions and the result monad *)

Inductive Exception : Type :=
  | KeyError (key : string)
  | ValueError (msg : string)
  | TypeError (msg : string)
  | FileNotFoundError (msg : string).

Inductive Result (A : Type) : Type :=
  | Ok (a : A)
  | Raise (e : Exception).
Arguments Ok {A} a.
Arguments Raise {A} e.

#[global] Instance Result_ret : MRet Result := fun A a => Ok a.

#[global] Instance Result_bind : MBind Result := fun A B k r =>
  match r with
  | Ok a => k a
  | Raise e => Raise e
  end.

(** [for x in xs: f x] for a body that can raise: the first exception
    stops the loop. *)
Fixpoint mapM {A B : Type} (f : A -> Result B) (xs : list A) : Result (list B) :=
  match xs with
  | [] => Ok []
  | x :: xs' => y ← f x; ys ← mapM f xs'; Ok (y :: ys)
  end.

(** ** Numbers *)

Module Num.

Local Open Scope Q_scope.

(** A pandas/NumPy float: [None] is NaN or, after a division by 0, an
    infinity. *)
Definition float : Type := option Q.

(** [a < b] and [a <= b] on finite numbers. *)
Definition Qltb (a b : Q) : bool := if Qlt_le_dec a b then true else false.
Definition Qleb (a b : Q) : bool := if Qlt_le_dec b a then false else true.

(** [a > b] and [a < b] on floats: a comparison with NaN is [False]. *)
Definition gt (a : float) (b : Q) : bool :=
  match a with Some x => Qltb b x | None => false end.
Definition lt (a : float) (b : Q) : bool :=
  match a with Some x => Qltb x b | None => false end.

(** Equality of floats as [duplicated] sees it: by value, and NaN is
    equal to NaN. *)
Definition same (a b : float) : bool :=
  match a, b with
  | Some x, Some y => Qeq_bool x y
  | None, None => true
  | _, _ => false
  end.

(** [Series.sum()]: NaN is skipped, the empty sum is 0. *)
Fixpoint sum (xs : list float) : Q :=
  match xs with
  | [] => 0
  | Some x :: xs' => x + sum xs'
  | None :: xs' => sum xs'
  end.

(** [Series.count()]: the number of values that are not NaN. *)
Fixpoint count (xs : list float) : Z :=
  match xs with
  | [] => 0%Z
  | Some _ :: xs' => (1 + count xs')%Z
  | None :: xs' => count xs'
  end.

(** [Series.mean()]: NaN when no value is left. *)
Definition mean (xs : list float) : float :=
  if (count xs =? 0)%Z then None else Some (sum xs / inject_Z (count xs)).

(** The plain sum of finite numbers. *)
Fixpoint qsum (xs : list Q) : Q :=
  match xs with
  | [] => 0
  | x :: xs' => x + qsum xs'
  end.

(** Round to the nearest integer, ties to the even one ([np.rint],
    Python's [round]). *)
Definition rint (q : Q) : Z :=
  let f := Qfloor q in
  let r := q - inject_Z f in
  if Qlt_le_dec r (1 # 2) then f
  else if Qlt_le_dec (1 # 2) r then (f + 1)%Z
  else if Z.even f then f else (f + 1)%Z.

(** [round(q, n)] for [n] decimal places. *)
Definition round_dp (n : nat) (q : Q) : Q :=
  inject_Z (rint (q * inject_Z (10 ^ Z.of_nat n))) / inject_Z (10 ^ Z.of_nat n).

Definition round_float (n : nat) (x : float) : float :=
  match x with Some q => Some (round_dp n q) | None => None end.

(** JavaScript's [Math.round]: the nearest integer, ties towards
    plus infinity. *)
Definition Math_round (q : Q) : Z := Qfloor (q + (1 # 2)).

(** [Math.round(q * 100) / 100]. *)
Definition js_round2 (q : Q) : Q := inject_Z (Math_round (q * 100)) / 100.

(** Insertion of [x] into a list sorted by [leb], in front of the first
    element that is not smaller: with [sort_by] a stable sort. *)
Fixpoint insert_by {A : Type} (leb : A -> A -> bool) (x : A) (l : list A) : list A :=
  match l with
  | [] => [x]
  | y :: l' => if leb x y then x :: y :: l' else y :: insert_by leb x l'
  end.

Definition sort_by {A : Type} (leb : A -> A -> bool) (l : list A) : list A :=
  fold_right (insert_by leb) [] l.

(** [Series.median()] of finite numbers: NaN for the empty series. *)
Definition median (xs : list Q) : float :=
  let s := sort_by Qleb xs in
  let n := length s in
  match n with
  | O => None
  | _ =>
      if Nat.even n
      then Some ((nth (n / 2 - 1)%nat s 0 + nth (n / 2)%nat s 0) / 2)
      else Some (nth (n / 2)%nat s 0)
  end.

(** The sample variance ([ddof = 1]), the square of what
    [Series.std()] returns: NaN below two values.

    A rational number has no rational square root in general, so the
    model carries the variance and compares squares where the code
    compares standard deviations (see [std_lt]). *)
Definition var (xs : list Q) : float :=
  match xs with
  | [] | [_] => None
  | _ =>
      let n := inject_Z (Z.of_nat (length xs)) in
      let m := qsum xs / n in
      Some (qsum (map (fun x => (x - m) * (x - m)) xs) / (n - 1))
  end.

(** [std.fillna(0) < c] for the standard deviation whose square is
    [v]: since the square root is monotone and not negative, this is
    [0 < c] together with [v < c * c]. *)
Definition std_lt (v : float) (c : Q) : bool :=
  match v with
  | None => Qltb 0 c
  | Some v' => Qltb 0 c && Qltb v' (c * c)
  end.

End Num.

(** ** Strings *)

Module Str.

(** [c.toUpperCase()] on one ASCII character. *)
Definition upper_char (c : ascii) : ascii :=
  let n := nat_of_ascii c in
  if ((97 <=? n)%nat && (n <=? 122)%nat) then ascii_of_nat (n - 32) else c.

(** [s.toUpperCase()] (and Python's [s.upper()]) on ASCII text. *)
Fixpoint toUpperCase (s : string) : string :=
  match s with
  | EmptyString => EmptyString
  | String c s' => String (upper_char c) (toUpperCase s')
  end.

(** [s.includes(p)]: [p] occurs in [s] as a contiguous substring. *)
Fixpoint includes (s p : string) : bool :=
  String.prefix p s ||
  match s with
  | EmptyString => false
  | String _ s' => includes s' p
  end.

(** [s.zfill(width)]: pad on the left with zeros. *)
Fixpoint zeros (n : nat) : string :=
  match n with
  | O => EmptyString
  | S n' => String "0" (zeros n')
  end.

Definition zfill (width : nat) (s : string) : string :=
  zeros (width - String.length s) ++ s.

(** The order of [sorted] and of pandas on strings: by code point. *)
Definition leb (a b : string) : bool := String.leb a b.

End Str.

(** ** Calendar dates *)

Module Dates.

Local Open Scope Z_scope.

Record date : Type := mkdate { year : Z; month : Z; day : Z }.

Definition eqb (a b : date) : bool :=
  (year a =? year b) && (month a =? month b) && (day a =? day b).

(** The number of days since 1970-01-01 in the proleptic Gregorian
    calendar. *)
Definition to_days (d : date) : Z :=
  let y := if month d <=? 2 then year d - 1 else year d in
  let era := y / 400 in
  let yoe := y - era * 400 in
  let mp := (month d + 9) mod 12 in
  let doy := (153 * mp + 2) / 5 + day d - 1 in
  let doe := yoe * 365 + yoe / 4 - yoe / 100 + doy in
  era * 146097 + doe - 719468.

Definition leb (a b : date) : bool := to_days a <=? to_days b.

(** [Series.min()] and [Series.max()] of a date column: NaT when the
    column is empty. *)
Definition min_date (ds : list date) : option date :=
  match ds with
  | [] => None
  | d :: ds' => Some (fold_left (fun m x => if leb x m then x else m) ds' d)
  end.

Definition max_date (ds : list date) : option date :=
  match ds with
  | [] => None
  | d :: ds' => Some (fold_left (fun m x => if leb m x then x else m) ds' d)
  end.

(** [dt.to_period('M')]: the calendar month of a date. *)
Definition period : Type := (Z * Z)%type.

Definition to_period (d : date) : period := (year d, month d).

Definition period_eqb (a b : period) : bool :=
  (fst a =? fst b) && (snd a =? snd b).

Definition period_leb (a b : period) : bool :=
  (fst a <? fst b) || ((fst a =? fst b) && (snd a <=? snd b)).

(** [d.strftime('%m/%d/%Y')]. *)
Definition strftime_mdY (d : date) : string :=
  Str.zfill 2 (pretty (month d)) ++ "/" ++ Str.zfill 2 (pretty (day d))
    ++ "/" ++ Str.zfill 4 (pretty (year d)).

Definition leap (y : Z) : bool :=
  ((y mod 4 =? 0) && negb (y mod 100 =? 0)) || (y mod 400 =? 0).

Definition days_in_month (y m : Z) : Z :=
  if m =? 2 then (if leap y then 29 else 28)
  else if (m =? 4) || (m =? 6) || (m =? 9) || (m =? 11) then 30 else 31.

Definition valid (d : date) : bool :=
  (1 <=? month d) && (month d <=? 12) && (1 <=? day d)
    && (day d <=? days_in_month (year d) (month d)).

End Dates.

(** ** The external parsers *)

(** What the code takes from pandas and from the JavaScript runtime to
    read text:
    - [to_numeric cell] is [pd.to_numeric(cell, errors='coerce')], the
      number read from a cell or NaN;
    - [to_datetime fmt cell] is [pd.to_datetime(cell, format=fmt)], the
      date read from a cell that is not empty, or [None] when pandas
      raises [ValueError] (the code never passes [errors='coerce']
      here);
    - [Date_parse s] is the time value of [new Date(s)], or [None] for an
      invalid date. *)
Class Externals : Type := {
  to_numeric : string -> Num.float;
  to_datetime : string -> string -> option Dates.date;
  Date_parse : string -> option Z
}.

(** ** CSV files and DataFrames *)

(** One line of a CSV file as [pd.read_csv] hands it over: the text of
    the cells of the columns that the code reads.  A field whose column
    is not listed in [columns] of the file is not looked at.  A cell
    that [pd.read_csv] takes for a missing value (an empty cell, or one
    of its markers of a missing value) is the empty text here. *)
Record CsvRow : Type := mkCsvRow {
  c_Date : string;
  c_Transaction_Date : string;
  c_Amount : string;
  c_Debit : string;
  c_Credit : string;
  c_Description : string;
  c_Category : string
}.

Record CsvFile : Type := mkCsvFile {
  stem : string;
  columns : list string;
  rows : list CsvRow
}.

Definition has_column (f : CsvFile) (name : string) : bool :=
  existsb (String.eqb name) (columns f).

(** [df[name]]: [KeyError] when the frame has no such column. *)
Definition column (f : CsvFile) (name : string) (cell : CsvRow -> string)
  : Result (list string) :=
  if has_column f name then Ok (map cell (rows f)) else Raise (KeyError name).

(** A row of the loaded DataFrame.  [Debit], [Credit] and [Source] are
    NaN on the rows of a file without these columns, [Category] is NaN
    where the cell is empty. *)
Record Txn : Type := mkTxn {
  Date : Dates.date;
  Amount : Num.float;
  Description : string;
  Category : option string;
  Debit : Num.float;
  Credit : Num.float;
  Source : option string
}.

Definition DataFrame : Type := list Txn.

(** The cell of the [Category] column of a line. *)
Definition category_cell (r : CsvRow) : option string :=
  if String.eqb (c_Category r) "" then None else Some (c_Category r).

(** The [Description] and the [Category] of a line of the file [f] in
    the concatenated frame of the dashboard: NaN when the file has no
    such column.  For the description, NaN is the empty text, which is
    what [pd.read_csv] makes of an empty cell too. *)
Definition description_of (f : CsvFile) (r : CsvRow) : string :=
  if has_column f "Description" then c_Description r else "".

Definition category_of (f : CsvFile) (r : CsvRow) : option string :=
  if has_column f "Category" then category_cell r else None.

Definition fillna (d : Q) (x : Num.float) : Num.float :=
  match x with Some q => Some q | None => Some d end.

Definition option_eqb {A : Type} (eqb : A -> A -> bool) (a b : option A) : bool :=
  match a, b with
  | Some x, Some y => eqb x y
  | None, None => true
  | _, _ => false
  end.

(** [pd.to_datetime(column, format=fmt)] on one cell of the column: a
    cell that does not parse raises [ValueError] (the wording of the
    message is only indicative). *)
Definition parse_date `{Externals} (fmt cell : string) : Result Dates.date :=
  match to_datetime fmt cell with
  | Some d => Ok d
  | None => Raise (ValueError ("time data " ++ cell ++ " does not match format " ++ fmt))
  end.

(** The derived columns [Year], [Month] and [YearMonth]. *)
Definition Year (t : Txn) : string := pretty (Dates.year (Date t)).
Definition Month (t : Txn) : string := Str.zfill 2 (pretty (Dates.month (Date t))).
Definition YearMonth (t : Txn) : string := Year t ++ "-" ++ Month t.

(** ** pandas: unique values and groupby *)

Module Pandas.

(** [Series.unique()]: the distinct values in order of first
    appearance. *)
Fixpoint unique {K : Type} (eqb : K -> K -> bool) (l : list K) : list K :=
  match l with
  | [] => []
  | k :: l' => k :: List.filter (fun x => negb (eqb k x)) (unique eqb l')
  end.

(** The group keys of [groupby]: the distinct keys that are not NaN,
    sorted. *)
Definition group_keys {A K : Type} (eqb leb : K -> K -> bool)
    (key : A -> option K) (df : list A) : list K :=
  Num.sort_by leb (unique eqb (omap key df)).

(** [df.groupby(key)]: the groups in the order of their keys, each
    with its rows in the order of the frame; rows whose key is NaN
    belong to no group. *)
Definition groupby {A K : Type} (eqb leb : K -> K -> bool)
    (key : A -> option K) (df : list A) : list (K * list A) :=
  map (fun k => (k, List.filter (fun r => option_eqb eqb (key r) (Some k)) df))
      (group_keys eqb leb key df).

End Pandas.

(** ** scripts/analysis.py *)

Module Analysis.

Local Open Scope Q_scope.

Section Loader.
Context `{Externals}.

(** The body of the loop of [load_transactions] on one file; [source]
    is what the [Source] column gets ([f.stem], or nothing when the
    file is read by name). *)
Definition read_file (source : option string) (f : CsvFile) : Result DataFrame :=
  _ ← column f "Date" c_Date;
  dated ← mapM (fun r => d ← parse_date "%m/%d/%Y" (c_Date r); Ok (r, d)) (rows f);
  _ ← column f "Amount" c_Amount;
  Ok (map (fun rd : CsvRow * Dates.date =>
             {| Date := snd rd;
                Amount := to_numeric (c_Amount (fst rd));
                Description := c_Description (fst rd);
                Category := category_cell (fst rd);
                Debit := None;
                Credit := None;
                Source := source |}) dated).

(** [load_transactions(filename)]: one named file, or every file of
    the data directory. *)
Definition load_transactions (filename : option CsvFile) (data_dir : list CsvFile)
  : Result DataFrame :=
  match filename with
  | Some f => read_file None f
  | None =>
      all_data ← mapM (fun f => read_file (Some (stem f)) f) data_dir;
      match all_data with
      | [] => Raise (FileNotFoundError "No CSV files found in data directory")
      | _ => Ok (concat all_data)
      end
  end.

End Loader.

(** The values of the dictionaries that the module returns. *)
Inductive PyVal : Type :=
  | PyFloat (x : Num.float)
  | PyInt (n : Z)
  | PyDateRange (lo hi : option Dates.date).

Definition finite (t : Txn) : list Q :=
  match Amount t with Some q => [q] | None => [] end.

(** [(df['Date'].max() - df['Date'].min()).days]: NaN on an empty
    frame. *)
Definition days_covered (df : DataFrame) : PyVal :=
  match Dates.max_date (map Date df), Dates.min_date (map Date df) with
  | Some hi, Some lo => PyInt (Dates.to_days hi - Dates.to_days lo)
  | _, _ => PyFloat None
  end.

(** The dictionary of [get_summary_stats]; the sums are exact here,
    the three counts are the integers of the code. *)
Definition get_summary_stats (df : DataFrame) : gmap string PyVal :=
  let purchases := List.filter (fun t => Num.gt (Amount t) 0) df in
  let refunds := List.filter (fun t => Num.lt (Amount t) 0) df in
  <[ "gross_spent" := PyFloat (Some (Num.sum (map Amount purchases))) ]>
  (<[ "refunds" := PyFloat (Some (Num.sum (map Amount refunds))) ]>
  (<[ "net_spent" := PyFloat (Some (Num.sum (map Amount df))) ]>
  (<[ "purchase_count" := PyInt (Z.of_nat (length purchases)) ]>
  (<[ "refund_count" := PyInt (Z.of_nat (length refunds)) ]>
  (<[ "transaction_count" := PyInt (Z.of_nat (length df)) ]>
  (<[ "avg_transaction" :=
        if (0 <? length purchases)%nat
        then PyFloat (Num.mean (map Amount purchases)) else PyInt 0 ]>
  (<[ "median_transaction" :=
        if (0 <? length purchases)%nat
        then PyFloat (Num.median (concat (map finite purchases))) else PyInt 0 ]>
  (<[ "date_range" :=
        PyDateRange (Dates.min_date (map Date df)) (Dates.max_date (map Date df)) ]>
  (<[ "days_covered" := days_covered df ]> ∅))))))))).

(** [d[key]] on a dictionary. *)
Definition getitem (d : gmap string PyVal) (key : string) : Result PyVal :=
  match d !! key with
  | Some v => Ok v
  | None => Raise (KeyError key)
  end.

(** The number that a value stands for in arithmetic. *)
Definition as_number (v : PyVal) : Result Num.float :=
  match v with
  | PyFloat x => Ok x
  | PyInt n => Ok (Some (inject_Z n))
  | PyDateRange _ _ => Raise (TypeError "unsupported operand type(s)")
  end.

(** [max(v, 1)]: the second argument is taken only when it is greater,
    so NaN in first place stays. *)
Definition max_1 (v : PyVal) : PyVal :=
  match v with
  | PyInt n => if (n <? 1)%Z then PyInt 1 else PyInt n
  | PyFloat (Some q) => if Num.Qltb q 1 then PyInt 1 else v
  | _ => v
  end.

(** [a / b] and [a * c] on numbers; a zero divisor gives a non finite
    float. *)
Definition truediv (a b : PyVal) : Result Num.float :=
  x ← as_number a;
  y ← as_number b;
  Ok (match x, y with
      | Some p, Some q => if Qeq_bool q 0 then None else Some (p / q)
      | _, _ => None
      end).

Definition times (x : Num.float) (c : Q) : Num.float :=
  match x with Some q => Some (q * c) | None => None end.

Definition spending_velocity (df : DataFrame) : Result (gmap string Num.float) :=
  let stats := get_summary_stats df in
  days_covered ← getitem stats "days_covered";
  let days := max_1 days_covered in
  total1 ← getitem stats "total_spent";
  daily_average ← truediv total1 days;
  total2 ← getitem stats "total_spent";
  daily2 ← truediv total2 days;
  total3 ← getitem stats "total_spent";
  daily3 ← truediv total3 days;
  total4 ← getitem stats "total_spent";
  daily4 ← truediv total4 days;
  Ok (<[ "daily_average" := daily_average ]>
     (<[ "weekly_average" := times daily2 7 ]>
     (<[ "monthly_projection" := times daily3 30.44 ]>
     (<[ "annual_projection" := times daily4 365 ]> ∅)))).

(** One line of the table of [category_breakdown]. *)
Record CategoryRow : Type := mkCategoryRow {
  category : string;
  Total : Q;
  Count : Z;
  Average : Num.float;
  Percent : Num.float
}.

(** The aggregation [{'Amount': ['sum', 'count', 'mean']}] of one
    group, rounded to 2 places. *)
Definition aggregate (g : string * DataFrame) : string * (Q * Z * Num.float) :=
  (fst g,
   (Num.round_dp 2 (Num.sum (map Amount (snd g))),
    Num.count (map Amount (snd g)),
    Num.round_float 2 (Num.mean (map Amount (snd g))))).

(** [breakdown[breakdown['Total'] > 0]['Total'].sum()]. *)
Definition total_positive (totals : list Q) : Q :=
  Num.qsum (List.filter (fun t => Num.Qltb 0 t) totals).

(** [(Total / total_positive * 100).round(1)].  With a denominator of
    0 the quotient is no finite number: NaN for a total of 0, minus
    infinity for a total below 0 (no total is above 0 then). *)
Definition percent (total_positive total : Q) : Num.float :=
  if Qeq_bool total_positive 0 then None
  else Some (Num.round_dp 1 (total / total_positive * 100)).

(** The table of [category_breakdown], largest total first (lines with
    the same total stay in the order of their categories). *)
Definition category_breakdown (df : DataFrame) (purchases_only : bool) : list CategoryRow :=
  let df := if purchases_only then List.filter (fun t => Num.gt (Amount t) 0) df else df in
  let breakdown := map aggregate (Pandas.groupby String.eqb Str.leb Category df) in
  let total_positive := total_positive (map (fun b => fst (fst (snd b))) breakdown) in
  let table :=
    map (fun b : string * (Q * Z * Num.float) =>
           let '(c, (total, count, average)) := b in
           {| category := c; Total := total; Count := count; Average := average;
              Percent := percent total_positive total |}) breakdown in
  Num.sort_by (fun a b => Num.Qleb (Total b) (Total a)) table.

(** One line of the table of [find_recurring_charges].  [Var_Amount]
    is the square of the column [Std_Amount]. *)
Record MerchantRow : Type := mkMerchantRow {
  merchant : string;
  Months_Present : Z;
  Avg_Amount : Q;
  Var_Amount : Num.float
}.

Definition merchant_month_eqb (a b : string * Dates.period) : bool :=
  String.eqb (fst a) (fst b) && Dates.period_eqb (snd a) (snd b).

Definition merchant_month_leb (a b : string * Dates.period) : bool :=
  if String.eqb (fst a) (fst b) then Dates.period_leb (snd a) (snd b)
  else Str.leb (fst a) (fst b).

(** [df.groupby(['Description', 'Month'])['Amount'].sum().reset_index()]. *)
Definition monthly_merchant (df : DataFrame) : list (string * Dates.period * Q) :=
  map (fun g => (fst g, Num.sum (map Amount (snd g))))
      (Pandas.groupby merchant_month_eqb merchant_month_leb
         (fun t => Some (Description t, Dates.to_period (Date t))) df).

(** [monthly_merchant.groupby('Description').agg(...)]. *)
Definition merchant_frequency (df : DataFrame) : list MerchantRow :=
  map (fun g : string * list (string * Dates.period * Q) =>
         let amounts := map snd (snd g) in
         {| merchant := fst g;
            Months_Present := Z.of_nat (length (snd g));
            Avg_Amount := Num.qsum amounts / inject_Z (Z.of_nat (length amounts));
            Var_Amount := Num.var amounts |})
      (Pandas.groupby String.eqb Str.leb
         (fun r : string * Dates.period * Q => Some (fst (fst r)))
         (monthly_merchant df)).

(** The mask of the selection. *)
Definition is_recurring (threshold_months : Z) (m : MerchantRow) : bool :=
  (threshold_months <=? Months_Present m)%Z
    && Num.std_lt (Var_Amount m) (Avg_Amount m * 0.2).

(** The selected merchants, largest average first, rounded to 2 places
    (the variance stays exact: the rounded standard deviation has no
    rational counterpart). *)
Definition find_recurring_charges (df : DataFrame) (threshold_months : Z)
  : list MerchantRow :=
  let recurring :=
    Num.sort_by (fun a b => Num.Qleb (Avg_Amount b) (Avg_Amount a))
      (List.filter (is_recurring threshold_months) (merchant_frequency df)) in
  map (fun m => {| merchant := merchant m;
                   Months_Present := Months_Present m;
                   Avg_Amount := Num.round_dp 2 (Avg_Amount m);
                   Var_Amount := Var_Amount m |}) recurring.

End Analysis.

(** ** JavaScript objects used as dictionaries *)

Module Js.

(** The property names that every object inherits from
    [Object.prototype]; the value found under each of them is an object
    or a function. *)
Definition Object_prototype : list string :=
  [ "constructor"; "hasOwnProperty"; "isPrototypeOf"; "propertyIsEnumerable";
    "toLocaleString"; "toString"; "valueOf"; "__proto__";
    "__defineGetter__"; "__defineSetter__"; "__lookupGetter__"; "__lookupSetter__" ].

Definition inherited (key : string) : bool :=
  existsb (String.eqb key) Object_prototype.

Definition is_digit (c : ascii) : bool :=
  ((48 <=? nat_of_ascii c) && (nat_of_ascii c <=? 57))%nat.

Fixpoint digits (acc : N) (s : string) : option N :=
  match s with
  | EmptyString => Some acc
  | String c s' =>
      if is_digit c then digits (10 * acc + (N.of_nat (nat_of_ascii c) - 48))%N s'
      else None
  end.

(** A property key that is an array index: the canonical decimal
    numeral of an integer below [2^32 - 1]. *)
Definition array_index (key : string) : option N :=
  match key with
  | EmptyString => None
  | String c rest =>
      if Ascii.eqb c "0" && negb (String.eqb rest "") then None
      else match digits 0 key with
           | Some n => if (n <? 4294967295)%N then Some n else None
           | None => None
           end
  end.

(** An object whose own properties were created in the order of the
    list.  [own_properties] is the order in which [Object.keys],
    [Object.values] and [Object.entries] walk them: the array indices in
    ascending order, then the other keys in the order of creation. *)
Definition own_properties {V : Type} (o : list (string * V)) : list (string * V) :=
  let indexed :=
    omap (fun kv : string * V =>
            match array_index (fst kv) with
            | Some n => Some (n, kv)
            | None => None
            end) o in
  app (map snd (Num.sort_by (fun a b : N * (string * V) => (fst a <=? fst b)%N) indexed))
      (List.filter (fun kv : string * V =>
                      match array_index (fst kv) with Some _ => false | None => true end) o).

(** The own property [key] of the object. *)
Fixpoint own {V : Type} (key : string) (o : list (string * V)) : option V :=
  match o with
  | [] => None
  | (k, v) :: o' => if String.eqb k key then Some v else own key o'
  end.

(** Assignment to the fields of the object found under [key]. *)
Fixpoint update {V : Type} (key : string) (f : V -> V) (o : list (string * V))
  : list (string * V) :=
  match o with
  | [] => []
  | (k, v) :: o' => if String.eqb k key then (k, f v) :: o' else (k, v) :: update key f o'
  end.

(** The own properties of the object that an object literal with the
    entries [l] creates, in order of creation: a later entry with the
    key of an earlier one replaces its value, and an entry with the key
    [__proto__] sets the prototype of the object instead of creating a
    property.  (The literals of the page come from [json.dumps] of a
    Python dictionary, whose keys are distinct.) *)
Fixpoint literal_from {V : Type} (o l : list (string * V)) : list (string * V) :=
  match l with
  | [] => o
  | (k, v) :: l' =>
      if String.eqb k "__proto__" then literal_from o l'
      else match own k o with
           | Some _ => literal_from (update k (fun _ => v) o) l'
           | None => literal_from (app o [(k, v)]) l'
           end
  end.

Definition literal {V : Type} (l : list (string * V)) : list (string * V) :=
  literal_from [] l.

(** [Object.entries] of the object of a literal. *)
Definition entries {V : Type} (l : list (string * V)) : list (string * V) :=
  own_properties (literal l).

End Js.

(** ** scripts/generate_dashboard.py *)

Module Dashboard.

Inductive Schema : Type := SchemaB | SchemaA | Unknown.

(** The test of the [if]/[elif] chain on the columns of a file. *)
Definition sniff (f : CsvFile) : Schema :=
  if has_column f "Transaction Date" then SchemaB
  else if has_column f "Date" && has_column f "Amount" then SchemaA
  else Unknown.

Section Loader.
Context `{Externals}.

(** The first branch: [Transaction Date], [Debit], [Credit]. *)
Definition read_schema_B (f : CsvFile) : Result DataFrame :=
  dated ← mapM (fun r => d ← parse_date "%Y-%m-%d" (c_Transaction_Date r); Ok (r, d))
               (rows f);
  _ ← column f "Debit" c_Debit;
  _ ← column f "Credit" c_Credit;
  let df :=
    map (fun rd : CsvRow * Dates.date =>
           let debit := fillna 0 (to_numeric (c_Debit (fst rd))) in
           let credit := fillna 0 (to_numeric (c_Credit (fst rd))) in
           {| Date := snd rd;
              Amount := debit;
              Description := description_of f (fst rd);
              Category := category_of f (fst rd);
              Debit := debit;
              Credit := credit;
              Source := None |}) dated in
  Ok (List.filter (fun t => Num.gt (Debit t) 0) df).

(** The second branch: [Date], [Amount]. *)
Definition read_schema_A (f : CsvFile) : Result DataFrame :=
  mapM (fun r =>
          d ← parse_date "%m/%d/%Y" (c_Date r);
          Ok {| Date := d;
                Amount := to_numeric (c_Amount r);
                Description := description_of f r;
                Category := category_of f r;
                Debit := None;
                Credit := None;
                Source := None |})
       (rows f).

Definition warning (f : CsvFile) : string :=
  "Warning: Unknown CSV format in " ++ stem f ++ ".csv, skipping".

(** The [for csv_path in DATA_DIR.glob('*.csv')] loop: what was
    printed, and [all_dfs] or the exception that ended the loop. *)
Fixpoint read_all (files : list CsvFile) : list string * Result (list DataFrame) :=
  match files with
  | [] => ([], Ok [])
  | f :: fs =>
      match sniff f with
      | Unknown =>
          let '(out, r) := read_all fs in (warning f :: out, r)
      | sch =>
          match (match sch with SchemaB => read_schema_B f | _ => read_schema_A f end) with
          | Raise e => ([], Raise e)
          | Ok df =>
              let '(out, r) := read_all fs in
              (out, all_dfs ← r; Ok (df :: all_dfs))
          end
      end
  end.

(** Two rows agree on the subset [['Date', 'Amount', 'Description']]. *)
Definition same_key (a b : Txn) : bool :=
  Dates.eqb (Date a) (Date b) && Num.same (Amount a) (Amount b)
    && String.eqb (Description a) (Description b).

(** [df.drop_duplicates(subset=[...], keep='first')]. *)
Fixpoint drop_duplicates_from (seen : list Txn) (df : DataFrame) : DataFrame :=
  match df with
  | [] => []
  | t :: df' =>
      if existsb (same_key t) seen then drop_duplicates_from seen df'
      else t :: drop_duplicates_from (t :: seen) df'
  end.

Definition drop_duplicates (df : DataFrame) : DataFrame :=
  drop_duplicates_from [] df.

(** [load_transactions()] when the concatenated frame has a
    [Description] column: the printed warnings and the DataFrame or the
    exception.  [Normalizer.load_transactions] is the function on any
    directory. *)
Definition load_transactions (files : list CsvFile) : list string * Result DataFrame :=
  let '(out, r) := read_all files in
  (out,
   all_dfs ← r;
   match all_dfs with
   | [] => Raise (ValueError "No valid CSV files found in data directory")
   | _ => Ok (drop_duplicates (concat all_dfs))
   end).

End Loader.

Local Open Scope Q_scope.

(** *** process_data *)

(** A transaction as [to_dict('records')] lists it and the page embeds
    it: the date as [MM/DD/YYYY], the amount rounded to 2 places. *)
Record TxnRecord : Type := mkTxnRecord {
  r_Date : string;
  r_Amount : Q;
  r_Description : string
}.

Record CategoryData : Type := mkCategoryData {
  cd_total : Q;
  cd_count : Z;
  cd_transactions : list TxnRecord
}.

Record MonthData : Type := mkMonthData {
  md_total : Q;
  md_categories : list (string * CategoryData)
}.

(** The dictionary that [process_data] returns; the inner dictionaries
    are association lists in insertion order, which is the order in
    which the page walks them. *)
Record Data : Type := mkData {
  years : list string;
  categories : list (option string);
  byMonth : list (string * MonthData)
}.

(** [df[df['Amount'] > 0]]: the rows with their finite amount. *)
Definition spending_rows (df : DataFrame) : list (Txn * Q) :=
  omap (fun t => match Amount t with
                 | Some q => if Num.Qltb 0 q then Some (t, q) else None
                 | None => None
                 end) df.

(** [sorted(spending['Category'].unique().tolist())]: as soon as a NaN
    has to be compared with a string, [sorted] raises. *)
Definition sorted_categories (cats : list (option string)) : Result (list (option string)) :=
  let u := Pandas.unique (option_eqb String.eqb) cats in
  if existsb (fun c => match c with None => true | Some _ => false end) u
     && (1 <? length u)%nat
  then Raise (TypeError "'<' not supported between instances of 'str' and 'float'")
  else Ok (app (map Some (Num.sort_by Str.leb (omap id u)))
               (List.filter (fun c => match c with None => true | _ => false end) u)).

Definition to_record (tq : Txn * Q) : TxnRecord :=
  {| r_Date := Dates.strftime_mdY (Date (fst tq));
     r_Amount := Num.round_dp 2 (snd tq);
     r_Description := Description (fst tq) |}.

Definition month_entry (cats : list (option string)) (month_data : list (Txn * Q))
  : MonthData :=
  {| md_total := Num.round_dp 2 (Num.qsum (map snd month_data));
     md_categories :=
       omap (fun cat : option string =>
               match cat with
               | None => None
               | Some c =>
                   let cat_transactions :=
                     List.filter (fun tq => option_eqb String.eqb (Category (fst tq)) (Some c))
                                 month_data in
                   match cat_transactions with
                   | [] => None
                   | _ => Some (c, {| cd_total := Num.round_dp 2 (Num.qsum (map snd cat_transactions));
                                      cd_count := Z.of_nat (length cat_transactions);
                                      cd_transactions := map to_record cat_transactions |})
                   end
               end) cats |}.

(** [process_data(df)] on a frame with a [Category] column;
    [Normalizer.process_data] is the function on any frame of the
    loader. *)
Definition process_data (df : DataFrame) : Result Data :=
  let spending := spending_rows df in
  let years := Num.sort_by Str.leb (Pandas.unique String.eqb (map (fun tq => Year (fst tq)) spending)) in
  categories ← sorted_categories (map (fun tq => Category (fst tq)) spending);
  let by_month :=
    map (fun ym =>
           (ym, month_entry categories
                  (List.filter (fun tq => String.eqb (YearMonth (fst tq)) ym) spending)))
        (Pandas.unique String.eqb (map (fun tq => YearMonth (fst tq)) spending)) in
  Ok {| years := years; categories := categories; byMonth := by_month |}.

(** *** The page: getSubscriptions *)

(** An entry of the catalogue [SUBSCRIPTIONS]. *)
Record Subscription : Type := mkSubscription {
  name : string;
  patterns : list string;
  category : string;
  amount : Q;
  cycle : string;
  tolerance : Q;
  note : option string
}.

(** The catalogue of the page. *)
Definition SUBSCRIPTIONS : list Subscription :=
  [ mkSubscription "Netflix" ["NETFLIX"] "Streaming" 15.49 "monthly" 2 None;
    mkSubscription "Spotify" ["SPOTIFY"] "Streaming" 10.99 "monthly" 2 None;
    mkSubscription "Hulu" ["HULU"] "Streaming" 7.99 "monthly" 2 None;
    mkSubscription "iCloud" ["ICLOUD"; "APPLE.COM/BILL"] "Software" 2.99 "monthly" 1 None;
    mkSubscription "Google Storage" ["GOOGLE *CLOUD"; "GOOGLE STORAGE"] "Software" 2.99
      "monthly" 1 None;
    mkSubscription "AT&T Wireless" ["AT&T"] "Telecom" 85 "monthly" 10 None;
    mkSubscription "State Farm" ["STATE FARM"] "Insurance" 55 "monthly" 5 None;
    mkSubscription "Gym Membership" ["GYM"; "FITNESS"] "Membership" 40 "monthly" 10 None;
    mkSubscription "Audible" ["AUDIBLE"] "Membership" 14.95 "monthly" 2 None ].

(** A transaction of the page: a record with the category of the
    dictionary it was found in. *)
Record JsTxn : Type := mkJsTxn {
  js_Date : string;
  js_Amount : Q;
  js_Description : string;
  js_category : string
}.

Inductive Status : Type := active | irregular | not_found | inactive.

Record SubscriptionStatus : Type := mkSubscriptionStatus {
  s_name : string;
  s_subCategory : string;
  s_cycle : string;
  s_expectedAmount : Q;
  s_expectedMonthly : Q;
  s_count : nat;
  s_total : Q;
  s_actualMonthly : Q;
  s_status : Status;
  s_note : string;
  s_transactions : list JsTxn
}.

(** The three nested [forEach] that collect [allTransactions]:
    [Object.values(DATA.byMonth)] and [Object.entries(month.categories)]
    walk the own properties of the objects that the literal of [DATA]
    creates, the keys that are array indices first. *)
Definition allTransactions (DATA : Data) : list JsTxn :=
  flat_map (fun month : string * MonthData =>
    flat_map (fun entry : string * CategoryData =>
      map (fun txn => {| js_Date := r_Date txn;
                         js_Amount := r_Amount txn;
                         js_Description := r_Description txn;
                         js_category := fst entry |})
          (cd_transactions (snd entry)))
      (Js.entries (md_categories (snd month))))
    (Js.entries (byMonth DATA)).

(** [sub.patterns.some(pattern => txn.Description.toUpperCase()
    .includes(pattern.toUpperCase()))]. *)
Definition matchesPattern (sub : Subscription) (txn : JsTxn) : bool :=
  existsb (fun pattern =>
             Str.includes (Str.toUpperCase (js_Description txn)) (Str.toUpperCase pattern))
          (patterns sub).

(** The callback of [allTransactions.filter], with the difference and
    the comparison on the exact decimal amounts; [Binary64.is_match] is
    the callback on the doubles of the page. *)
Definition is_match (sub : Subscription) (txn : JsTxn) : bool :=
  if Num.Qleb (js_Amount txn) 0 then false
  else if negb (matchesPattern sub txn) then false
  else
    let diff := Qabs (js_Amount txn - amount sub) in
    Num.Qleb diff (tolerance sub).

Section Page.
Context `{Externals}.

(** The comparison [(a, b) => new Date(b.Date) - new Date(a.Date)] is
    not positive: [a] may stay in front of [b].  With an invalid date
    the difference is NaN, which [sort] takes for 0. *)
Definition newest_first (a b : JsTxn) : bool :=
  match Date_parse (js_Date b), Date_parse (js_Date a) with
  | Some tb, Some ta => (tb - ta <=? 0)%Z
  | _, _ => true
  end.

(** The body of [SUBSCRIPTIONS.forEach]: the entry pushed to
    [results] for one definition. *)
Definition reconcile (transactions : list JsTxn) (sub : Subscription)
  : SubscriptionStatus :=
  if Qeq_bool (amount sub) 0 then
    {| s_name := name sub;
       s_subCategory := category sub;
       s_cycle := cycle sub;
       s_expectedAmount := 0;
       s_expectedMonthly := 0;
       s_count := 0;
       s_total := 0;
       s_actualMonthly := 0;
       s_status := inactive;
       s_note := match note sub with Some n => if String.eqb n "" then "Not active" else n
                                | None => "Not active" end;
       s_transactions := [] |}
  else
    let matches := List.filter (is_match sub) transactions in
    let total := fold_left (fun sum t => sum + js_Amount t) matches 0 in
    let expectedMonthly :=
      if String.eqb (cycle sub) "annual" then amount sub / 12
      else if String.eqb (cycle sub) "biannual" then amount sub / 6
      else amount sub in
    let status :=
      if (length matches =? 0)%nat then not_found
      else if String.eqb (cycle sub) "monthly" && (length matches <? 6)%nat then irregular
      else active in
    {| s_name := name sub;
       s_subCategory := category sub;
       s_cycle := cycle sub;
       s_expectedAmount := amount sub;
       s_expectedMonthly := Num.js_round2 expectedMonthly;
       s_count := length matches;
       s_total := Num.js_round2 total;
       s_actualMonthly := Num.js_round2 (total / 12);
       s_status := status;
       s_note := match note sub with Some n => n | None => "" end;
       s_transactions := Num.sort_by newest_first matches |}.

(** The comparison of the final [results.sort] is not positive. *)
Definition inactive_last (a b : SubscriptionStatus) : bool :=
  match s_status a, s_status b with
  | inactive, inactive => Num.Qleb (s_expectedMonthly b - s_expectedMonthly a) 0
  | inactive, _ => false
  | _, inactive => true
  | _, _ => Num.Qleb (s_expectedMonthly b - s_expectedMonthly a) 0
  end.

Definition getSubscriptions (catalogue : list Subscription) (DATA : Data)
  : list SubscriptionStatus :=
  let allTransactions := allTransactions DATA in
  let results := map (reconcile allTransactions) catalogue in
  Num.sort_by inactive_last results.

End Page.

End Dashboard.

(** ** scripts/generate_dashboard.py on frames that may lack a column

    [Dashboard.load_transactions] and [Dashboard.process_data] are the
    two functions on a frame that has the columns [Description] and
    [Category].  The frame that [pd.concat] builds has a column when one
    of the files that were read has it; here are the two functions with
    the lookups of these columns, which raise [KeyError] on a frame
    without them. *)

Module Normalizer.

(** The concatenated frame has the column [name]. *)
Definition frame_has (name : string) (files : list CsvFile) : bool :=
  existsb (fun f => match Dashboard.sniff f with
                    | Dashboard.Unknown => false
                    | _ => has_column f name
                    end) files.

(** [df.drop_duplicates(subset=['Date', 'Amount', 'Description'],
    keep='first')]: an empty frame is returned as it is; on any other
    frame a column of the subset that is missing raises [KeyError],
    which names the column ([Date] and [Amount] are set by both
    branches of the loader). *)
Definition drop_duplicates (Description_column : bool) (df : DataFrame) : Result DataFrame :=
  match df with
  | [] => Ok []
  | _ =>
      if Description_column then Ok (Dashboard.drop_duplicates df)
      else Raise (KeyError "Description")
  end.

Section Loader.
Context `{Externals}.

(** [load_transactions()]: the printed warnings and the DataFrame or
    the exception. *)
Definition load_transactions (files : list CsvFile) : list string * Result DataFrame :=
  let '(out, r) := Dashboard.read_all files in
  (out,
   all_dfs ← r;
   match all_dfs with
   | [] => Raise (ValueError "No valid CSV files found in data directory")
   | _ => drop_duplicates (frame_has "Description" files) (concat all_dfs)
   end).

End Loader.

(** [process_data(df)] on the frame of the loader:
    [spending['Category']] raises [KeyError] when the frame has no such
    column; [df['Amount']] and [spending['Year']] before it find columns
    that the loader has set, and a frame of the loader that has a row
    has a [Description] column. *)
Definition process_data (Category_column : bool) (df : DataFrame) : Result Dashboard.Data :=
  if Category_column then Dashboard.process_data df
  else Raise (KeyError "Category").

End Normalizer.

(** ** The amounts of the page in binary64

    The page holds every amount as an IEEE 754 double: the double
    nearest to the decimal numeral of the data or of the catalogue.
    [Dashboard.is_match] makes the test on the amount in exact
    arithmetic; here it is as the page computes it. *)

Module Binary64.

Definition prec : Z := 53.
Definition emax : Z := 1024.

Definition double : Type := spec_float.

Definition of_Z (z : Z) : double := binary_normalize prec emax z 0 false.

(** The double nearest to [q], ties to even: [q] is taken in lowest
    terms, and the division of two integers that are doubles themselves
    (below [2^53]) is rounded correctly. *)
Definition of_Q (q : Q) : double :=
  SFdiv prec emax (of_Z (Qnum (Qred q))) (of_Z (Zpos (Qden (Qred q)))).

Definition zero : double := S754_zero false.

Definition minus (a b : double) : double := SFsub prec emax a b.
Definition plus (a b : double) : double := SFadd prec emax a b.

(** The callback of [allTransactions.filter]:
    [if (txn.Amount <= 0) return false;
     if (!matchesPattern) return false;
     const diff = Math.abs(txn.Amount - sub.amount);
     return diff <= sub.tolerance]. *)
Definition is_match (sub : Dashboard.Subscription) (txn : Dashboard.JsTxn) : bool :=
  let Amount := of_Q (Dashboard.js_Amount txn) in
  if SFleb Amount zero then false
  else if negb (Dashboard.matchesPattern sub txn) then false
  else
    let diff := SFabs (minus Amount (of_Q (Dashboard.amount sub))) in
    SFleb diff (of_Q (Dashboard.tolerance sub)).

End Binary64.

(** ** scripts/generate_business_dashboard.py: the loader *)

Module Business.

Section Loader.
Context `{Externals}.

Definition read_file (f : CsvFile) : Result DataFrame :=
  _ ← column f "Amount" c_Amount;
  _ ← column f "Date" c_Date;
  mapM (fun r =>
          d ← parse_date "%m/%d/%Y" (c_Date r);
          Ok {| Date := d;
                Amount := to_numeric (c_Amount r);
                Description := c_Description r;
                Category := category_cell r;
                Debit := None;
                Credit := None;
                Source := None |})
       (rows f).

Definition load_transactions (files : list CsvFile) : Result DataFrame :=
  all_dfs ← mapM read_file files;
  match all_dfs with
  | [] => Raise (ValueError "No valid CSV files found in data directory")
  | _ => Ok (concat all_dfs)
  end.

End Loader.

End Business.

(** ** A concrete reading of cells

    Plain decimal numbers and the two date formats of the loaders: enough
    to run the code on the examples of the specification. *)

Module Concrete.

Local Open Scope Z_scope.

Definition digit (c : ascii) : option Z :=
  let n := Z.of_nat (nat_of_ascii c) in
  if (48 <=? n) && (n <=? 57) then Some (n - 48) else None.

Fixpoint digits_from (acc : Z) (s : string) : option Z :=
  match s with
  | EmptyString => Some acc
  | String c s' =>
      match digit c with
      | Some d => digits_from (10 * acc + d) s'
      | None => None
      end
  end.

(** A non empty run of decimal digits. *)
Definition natural (s : string) : option Z :=
  match s with
  | EmptyString => None
  | _ => digits_from 0 s
  end.

(** The pieces of [s] between the occurrences of [sep]. *)
Fixpoint split (sep : ascii) (s : string) : list string :=
  match s with
  | EmptyString => [EmptyString]
  | String c s' =>
      if Ascii.eqb c sep then EmptyString :: split sep s'
      else match split sep s' with
           | [] => [String c EmptyString]
           | p :: ps => String c p :: ps
           end
  end.

Definition unsigned_decimal (s : string) : option Q :=
  match split "." s with
  | [i] => match natural i with Some n => Some (inject_Z n) | None => None end
  | [i; f] =>
      match natural i, natural f with
      | Some n, Some m =>
          Some (Qred (inject_Z n + inject_Z m / inject_Z (10 ^ Z.of_nat (String.length f))))
      | _, _ => None
      end
  | _ => None
  end.

Definition decimal (s : string) : option Q :=
  match s with
  | String "-" s' =>
      match unsigned_decimal s' with Some q => Some (Qred (- q)) | None => None end
  | _ => unsigned_decimal s
  end.

Definition checked (y m d : string) : option Dates.date :=
  match natural y, natural m, natural d with
  | Some y', Some m', Some d' =>
      let dt := Dates.mkdate y' m' d' in
      if Dates.valid dt then Some dt else None
  | _, _, _ => None
  end.

Definition date_mdY (s : string) : option Dates.date :=
  match split "/" s with
  | [m; d; y] => checked y m d
  | _ => None
  end.

Definition date_Ymd (s : string) : option Dates.date :=
  match split "-" s with
  | [y; m; d] => checked y m d
  | _ => None
  end.

#[global] Instance externals : Externals := {|
  to_numeric := decimal;
  to_datetime := fun fmt cell =>
    if String.eqb fmt "%m/%d/%Y" then date_mdY cell
    else if String.eqb fmt "%Y-%m-%d" then date_Ymd cell
    else None;
  Date_parse := fun s =>
    match date_mdY s with
    | Some d => Some (Dates.to_days d * 86400000)
    | None => None
    end
|}.

End Concrete.

(** ** Groups of rows *)

(** The group of the key [k], and the test that the key of a row is one
    of [ks]. *)
Definition group_of {A K : Type} (eqb : K -> K -> bool) (key : A -> option K)
    (l : list A) (k : K) : list A :=
  List.filter (fun r => option_eqb eqb (key r) (Some k)) l.

Definition keyed_in {A K : Type} (eqb : K -> K -> bool) (key : A -> option K)
    (ks : list K) (r : A) : bool :=
  match key r with
  | Some k => existsb (eqb k) ks
  | None => false
  end.

(** ** scripts/analysis.py: the other reports *)

Module Analytics.

Local Open Scope Q_scope.

(** *** monthly_totals *)

Record MonthRow : Type := mkMonthRow {
  Month : Dates.period;
  Total : Q;
  Count : Z;
  Average : Num.float;
  Change : Num.float;
  Change_Pct : Num.float
}.

(** [df.groupby('Month').agg({'Amount': ['sum', 'count', 'mean']}).round(2)]
    on the purchases or on every row. *)
Definition month_groups (df : DataFrame) (purchases_only : bool)
  : list (Dates.period * (Q * Z * Num.float)) :=
  let df := if purchases_only then List.filter (fun t => Num.gt (Amount t) 0) df else df in
  map (fun g : Dates.period * DataFrame =>
         (fst g,
          (Num.round_dp 2 (Num.sum (map Amount (snd g))),
           Num.count (map Amount (snd g)),
           Num.round_float 2 (Num.mean (map Amount (snd g))))))
      (Pandas.groupby Dates.period_eqb Dates.period_leb
         (fun t => Some (Dates.to_period (Date t))) df).

(** [Total.diff()] and [Total.pct_change() * 100] along the table:
    [prev] is the total of the line above, if there is one.  A previous
    total of 0 makes the percentage non finite. *)
Fixpoint with_changes (prev : option Q)
    (groups : list (Dates.period * (Q * Z * Num.float))) : list MonthRow :=
  match groups with
  | [] => []
  | (m, (total, count, average)) :: rest =>
      {| Month := m; Total := total; Count := count; Average := average;
         Change := match prev with
                   | Some p => Some (total - p)
                   | None => None
                   end;
         Change_Pct := match prev with
                       | Some p => if Qeq_bool p 0 then None
                                   else Some ((total / p - 1) * 100)
                       | None => None
                       end |}
      :: with_changes (Some total) rest
  end.

Definition monthly_totals (df : DataFrame) (purchases_only : bool) : list MonthRow :=
  with_changes None (month_groups df purchases_only).

(** *** top_merchants *)

Record TopRow : Type := mkTopRow {
  Merchant : string;
  Spent : Q;
  Transactions : Z;
  Mean : Num.float
}.

(** [DataFrame.head(n)]: the first [n] lines, or all but the last [-n]
    when [n] is negative. *)
Definition head {A : Type} (n : Z) (l : list A) : list A :=
  if (0 <=? n)%Z then firstn (Z.to_nat n) l
  else firstn (length l - Z.to_nat (- n)) l.

(** The table of every merchant, largest total first (columns [Total],
    [Transactions], [Average]). *)
Definition merchant_table (df : DataFrame) : list TopRow :=
  Num.sort_by (fun a b => Num.Qleb (Spent b) (Spent a))
    (map (fun g : string * DataFrame =>
            {| Merchant := fst g;
               Spent := Num.round_dp 2 (Num.sum (map Amount (snd g)));
               Transactions := Num.count (map Amount (snd g));
               Mean := Num.round_float 2 (Num.mean (map Amount (snd g))) |})
         (Pandas.groupby String.eqb Str.leb (fun t => Some (Description t)) df)).

Definition top_merchants (df : DataFrame) (n : Z) : list TopRow :=
  head n (merchant_table df).

(** *** day_of_week_analysis *)

Definition day_order : list string :=
  ["Monday"; "Tuesday"; "Wednesday"; "Thursday"; "Friday"; "Saturday"; "Sunday"].

(** [dt.day_name()]: 1970-01-01 was a Thursday. *)
Definition day_name (d : Dates.date) : string :=
  nth (Z.to_nat ((Dates.to_days d + 3) mod 7)) day_order "".

(** A line of the table: every column is NaN for a day that [reindex]
    had to add. *)
Record DayRow : Type := mkDayRow {
  DayOfWeek : string;
  DayTotal : Num.float;
  DayCount : option Z;
  DayAverage : Num.float
}.

(** [df.groupby('DayOfWeek')['Amount'].agg(['sum', 'count', 'mean']).round(2)]. *)
Definition day_groups (df : DataFrame) : list (string * (Q * Z * Num.float)) :=
  map (fun g : string * DataFrame =>
         (fst g,
          (Num.round_dp 2 (Num.sum (map Amount (snd g))),
           Num.count (map Amount (snd g)),
           Num.round_float 2 (Num.mean (map Amount (snd g))))))
      (Pandas.groupby String.eqb Str.leb (fun t => Some (day_name (Date t))) df).

(** [dow.reindex(day_order)]: the line of each label, or a line of NaN. *)
Definition reindex (labels : list string) (groups : list (string * (Q * Z * Num.float)))
  : list DayRow :=
  map (fun label =>
         match List.find (fun g => String.eqb (fst g) label) groups with
         | Some (_, (total, count, average)) =>
             {| DayOfWeek := label; DayTotal := Some total; DayCount := Some count;
                DayAverage := average |}
         | None =>
             {| DayOfWeek := label; DayTotal := None; DayCount := None;
                DayAverage := None |}
         end) labels.

Definition day_of_week_analysis (df : DataFrame) : list DayRow :=
  reindex day_order (day_groups df).

(** *** detect_impulse_spending *)

(** The dictionary of [detect_impulse_spending]; the total and the
    percentage are exact here, the two counts are the integers of the
    code. *)
Record ImpulseReport : Type := mkImpulseReport {
  high_frequency_days : Z;
  small_transactions_total : Q;
  small_transactions_percent : Num.float;
  small_transaction_count : Z
}.

Definition day_category_eqb (a b : Dates.date * string) : bool :=
  Dates.eqb (fst a) (fst b) && String.eqb (snd a) (snd b).

Definition date_compare (a b : Dates.date) : comparison :=
  match (Dates.year a ?= Dates.year b)%Z with
  | Eq => match (Dates.month a ?= Dates.month b)%Z with
          | Eq => (Dates.day a ?= Dates.day b)%Z
          | c => c
          end
  | c => c
  end.

Definition day_category_leb (a b : Dates.date * string) : bool :=
  match date_compare (fst a) (fst b) with
  | Lt => true
  | Eq => Str.leb (snd a) (snd b)
  | Gt => false
  end.

(** [df.groupby(['DateOnly', 'Category']).size()]: rows without a
    category belong to no group. *)
Definition daily_counts (df : DataFrame) : list (Dates.date * string * Z) :=
  map (fun g : Dates.date * string * DataFrame => (fst g, Z.of_nat (length (snd g))))
      (Pandas.groupby day_category_eqb day_category_leb
         (fun t => match Category t with
                   | Some c => Some (Date t, c)
                   | None => None
                   end) df).

Definition detect_impulse_spending (df : DataFrame) : ImpulseReport :=
  let high_frequency_days := List.filter (fun g => (3 <=? snd g)%Z) (daily_counts df) in
  let small_trans := List.filter (fun t => Num.lt (Amount t) 20) df in
  let small_total := Num.sum (map Amount small_trans) in
  let total := Num.sum (map Amount df) in
  {| high_frequency_days := Z.of_nat (length high_frequency_days);
     small_transactions_total := small_total;
     small_transactions_percent :=
       if Qeq_bool total 0 then None else Some (small_total / total * 100);
     small_transaction_count := Z.of_nat (length small_trans) |}.

End Analytics.

(** ** scripts/generate_business_dashboard.py: the expenses *)

Module Expenses.

Local Open Scope Q_scope.

(** The table [patterns] of [categorize_business_expense]: keywords,
    service, category. *)
Definition patterns : list (list string * string * string) :=
  [ (["EXAMPLE HOSTING"], "Hosting Provider", "Infrastructure");
    (["EXAMPLE API"], "API Service", "Infrastructure");
    (["EXAMPLE DOMAIN"], "Domain Registrar", "Infrastructure");
    (["EXAMPLE DESIGN"], "Design Tool", "Art/Assets") ].

(** The two nested [for] loops over a table: the first line with a
    keyword that occurs in [desc_upper] decides. *)
Fixpoint first_match (desc_upper : string) (table : list (list string * string * string))
  : option (string * string) :=
  match table with
  | [] => None
  | (keywords, service, category) :: rest =>
      if existsb (fun keyword => Str.includes desc_upper keyword) keywords
      then Some (service, category)
      else first_match desc_upper rest
  end.

(** [categorize_business_expense(description)]: [None] stands for the
    pair [(None, None)]. *)
Definition categorize_business_expense (description : string) : option (string * string) :=
  first_match (Str.toUpperCase description) patterns.

(** [a <= b] and [a >= b] on floats: a comparison with NaN is [False]. *)
Definition le (a : Num.float) (b : Q) : bool :=
  match a with Some x => Num.Qleb x b | None => false end.
Definition ge (a : Num.float) (b : Q) : bool :=
  match a with Some x => Num.Qleb b x | None => false end.

(** An entry of the lists [transactions] and [refunds]. *)
Record Expense : Type := mkExpense {
  e_date : string;
  e_yearMonth : string;
  e_amount : Num.float;
  e_description : string;
  e_service : string;
  e_category : string
}.

(** The body of the two loops of [process_business_data] after the
    test on the amount: the entry appended for a row, if any. *)
Definition entry (row : Txn) : option Expense :=
  match categorize_business_expense (Description row) with
  | Some (service, category) =>
      if String.eqb service "" then None
      else Some {| e_date := Dates.strftime_mdY (Date row);
                   e_yearMonth := YearMonth row;
                   e_amount := Num.round_float 2 (Amount row);
                   e_description := Description row;
                   e_service := service;
                   e_category := category |}
  | None => None
  end.

(** One loop over the rows; [skip] is the test in front of
    [continue]. *)
Definition collect (skip : Num.float -> bool) (df : DataFrame) : list Expense :=
  omap (fun row => if skip (Amount row) then None else entry row) df.

Record BusinessData : Type := mkBusinessData {
  transactions : list Expense;
  refunds : list Expense;
  years : list string
}.

Definition process_business_data (df : DataFrame) : BusinessData :=
  {| transactions := collect (fun a => le a 0) df;
     refunds := collect (fun a => ge a 0) df;
     years := Num.sort_by Str.leb (Pandas.unique String.eqb (map Year df)) |}.

End Expenses.

(** ** The page: getRecurringPayments *)

Module Recurring.

Local Open Scope Q_scope.

(** A value of [byMerchant]. *)
Record Merchant : Type := mkMerchant {
  m_name : string;
  m_category : string;
  m_transactions : list Dashboard.JsTxn;
  m_total : Q
}.

(** An entry of the list that [getRecurringPayments] returns. *)
Record Payment : Type := mkPayment {
  p_name : string;
  p_category : string;
  p_count : nat;
  p_total : Q;
  p_avg : Q;
  p_transactions : list Dashboard.JsTxn
}.

(** The callback of [allTransactions.forEach] on [byMerchant].
    [byMerchant[name]] finds an own property or, failing that, what
    [Object.prototype] has under that name: in the second case nothing
    is created, and [byMerchant[name].transactions] is [undefined], on
    which [push] throws. *)
Definition add (byMerchant : list (string * Merchant)) (txn : Dashboard.JsTxn)
  : Result (list (string * Merchant)) :=
  let name := Dashboard.js_Description txn in
  match Js.own name byMerchant with
  | None =>
      if Js.inherited name
      then Raise (TypeError "Cannot read properties of undefined (reading 'push')")
      else
        let created :=
          app byMerchant
              [(name, {| m_name := name;
                         m_category := Dashboard.js_category txn;
                         m_transactions := [];
                         m_total := 0 |})] in
        Ok (Js.update name
              (fun m => {| m_name := m_name m;
                           m_category := m_category m;
                           m_transactions := app (m_transactions m) [txn];
                           m_total := m_total m + Dashboard.js_Amount txn |})
              created)
  | Some _ =>
      Ok (Js.update name
            (fun m => {| m_name := m_name m;
                         m_category := m_category m;
                         m_transactions := app (m_transactions m) [txn];
                         m_total := m_total m + Dashboard.js_Amount txn |})
            byMerchant)
  end.

Fixpoint group (byMerchant : list (string * Merchant)) (txns : list Dashboard.JsTxn)
  : Result (list (string * Merchant)) :=
  match txns with
  | [] => Ok byMerchant
  | txn :: rest => byMerchant' ← add byMerchant txn; group byMerchant' rest
  end.

(** The comparison [(a, b) => b.total - a.total] is not positive. *)
Definition largest_first (a b : Payment) : bool :=
  Num.Qleb (p_total b - p_total a) 0.

Section Page.
Context `{Externals}.

Definition payment (m : Merchant) : Payment :=
  {| p_name := m_name m;
     p_category := m_category m;
     p_count := length (m_transactions m);
     p_total := Num.js_round2 (m_total m);
     p_avg := Num.js_round2 (m_total m / inject_Z (Z.of_nat (length (m_transactions m))));
     p_transactions := Num.sort_by Dashboard.newest_first (m_transactions m) |}.

Definition getRecurringPayments (DATA : Dashboard.Data) : Result (list Payment) :=
  let allTransactions := Dashboard.allTransactions DATA in
  byMerchant ← group [] allTransactions;
  let recurring :=
    map payment
        (List.filter (fun m => (2 <=? length (m_transactions m))%nat)
                     (map snd (Js.own_properties byMerchant))) in
  Ok (Num.sort_by largest_first recurring).

End Page.

End Recurring.

(** ** Vocabulary of the further properties *)

(** The month [a] is strictly before the month [b]. *)
Definition period_lt (a b : Dates.period) : Prop :=
  fst a < fst b \/ (fst a = fst b /\ snd a < snd b).

(** The sum of a column of integers. *)
Definition zsum (l : list Z) : Z := fold_right Z.add 0 l.

(** The rows that [monthly_totals] and [category_breakdown] work on. *)
Definition selected (df : DataFrame) (purchases_only : bool) : DataFrame :=
  if purchases_only then List.filter (fun t => Num.gt (Amount t) 0) df else df.

(** The rows of the frame that fall on the day of the week [label]. *)
Definition on_day (df : DataFrame) (label : string) : DataFrame :=
  List.filter (fun t => String.eqb (Analytics.day_name (Date t)) label) df.

(** A count in which NaN stands for nothing counted. *)
Definition counted (c : option Z) : Z :=
  match c with Some n => n | None => 0 end.

(** The transactions that a dictionary of [process_data] lists, month
    by month and category by category, each with the category it is
    listed under. *)
Definition listed (data : Dashboard.Data) : list (string * Dashboard.TxnRecord) :=
  flat_map (fun month : string * Dashboard.MonthData =>
    flat_map (fun entry : string * Dashboard.CategoryData =>
                map (fun r => (fst entry, r)) (Dashboard.cd_transactions (snd entry)))
             (Dashboard.md_categories (snd month)))
    (Dashboard.byMonth data).

(** The record of a purchase with its category: of a row whose amount
    is above 0 and whose category is not NaN. *)
Definition purchase_record (t : Txn) : option (string * Dashboard.TxnRecord) :=
  match Amount t, Category t with
  | Some q, Some c =>
      if Num.Qltb 0 q then Some (c, Dashboard.to_record (t, q)) else None
  | _, _ => None
  end.

(** The purchases of the frame: the rows with an amount above 0. *)
Definition purchases (df : DataFrame) : DataFrame :=
  List.filter (fun t => Num.gt (Amount t) 0) df.

(** The transactions of the page that carry the description [name]. *)
Definition charged_by (name : string) (txns : list Dashboard.JsTxn) : list Dashboard.JsTxn :=
  List.filter (fun t => String.eqb (Dashboard.js_Description t) name) txns.

(** A spending row of [process_data] as the dictionary lists it: the
    record with the category; nothing for a row without category. *)
Definition categorised (tq : Txn * Q) : option (string * Dashboard.TxnRecord) :=
  match Category (fst tq) with
  | Some c => Some (c, Dashboard.to_record tq)
  | None => None
  end.

(** The transactions of one month of the dictionary, each with its
    category. *)
Definition listed_in (md : Dashboard.MonthData) : list (string * Dashboard.TxnRecord) :=
  flat_map (fun entry : string * Dashboard.CategoryData =>
              map (fun r => (fst entry, r)) (Dashboard.cd_transactions (snd entry)))
           (Dashboard.md_categories md).

(** The rows of a frame by the sign of the amount; [unreadable] are
    the rows whose amount is NaN. *)
Definition above_zero (df : DataFrame) : DataFrame :=
  List.filter (fun t => Num.gt (Amount t) 0) df.
Definition below_zero (df : DataFrame) : DataFrame :=
  List.filter (fun t => Num.lt (Amount t) 0) df.
Definition unreadable (df : DataFrame) : DataFrame :=
  List.filter (fun t => match Amount t with None => true | Some _ => false end) df.

(** The rows that are neither purchases nor refunds: the amount is 0 or
    NaN. *)
Definition no_sign (df : DataFrame) : DataFrame :=
  List.filter (fun t => match Amount t with None => true | Some q => Qeq_bool q 0 end) df.

(** The total that the page adds up for a list of transactions, from
    left to right. *)
Definition added_up (txns : list Dashboard.JsTxn) : Q :=
  fold_left (fun sum t => (sum + Dashboard.js_Amount t)%Q) txns 0%Q.

(** What [byMerchant] holds once the transactions [seen] have been
    grouped: one entry for each description seen, under a key that is
    not inherited, with the transactions of that description in order,
    their total, and the category of the first of them. *)
Definition grouped (seen : list Dashboard.JsTxn)
    (byMerchant : list (string * Recurring.Merchant)) : Prop :=
  List.NoDup (map fst byMerchant)
  /\ (forall t, In t seen -> In (Dashboard.js_Description t) (map fst byMerchant))
  /\ forall k m, In (k, m) byMerchant ->
       Js.inherited k = false
       /\ Recurring.m_name m = k
       /\ Recurring.m_transactions m = charged_by k seen
       /\ Recurring.m_total m = added_up (charged_by k seen)
       /\ exists first rest,
            charged_by k seen = first :: rest
            /\ Recurring.m_category m = Dashboard.js_category first.

(** ** The vocabulary of the specification *)

(** [desc] contains [pattern] as a substring, case-insensitively: some
    contiguous piece of [desc] differs from [pattern] by case only. *)
Definition contains_nocase (desc pattern : string) : Prop :=
  exists pre w post,
    desc = pre ++ w ++ post /\ Str.toUpperCase w = Str.toUpperCase pattern.

(** The sum that [matches.reduce((sum, t) => sum + t.Amount, 0)] computes
    for a definition over a list of transactions. *)
Definition matched_total (sub : Dashboard.Subscription) (txns : list Dashboard.JsTxn) : Q :=
  fold_left (fun sum t => (sum + Dashboard.js_Amount t)%Q)
            (List.filter (Dashboard.is_match sub) txns) 0%Q.

(** The value of the [Debit] column of a line of the second format, after
    [to_numeric] and [fillna(0)]. *)
Definition debit `{Externals} (r : CsvRow) : Num.float :=
  fillna 0 (to_numeric (c_Debit r)).

(** The date that a cell holds, when it holds one. *)
Definition the_date `{Externals} (fmt cell : string) : Dates.date :=
  match to_datetime fmt cell with
  | Some d => d
  | None => Dates.mkdate 1970 1 1
  end.

(** The date of every line of the file is in the format [fmt]. *)
Definition dates_parse `{Externals} (fmt : string) (cell : CsvRow -> string)
    (f : CsvFile) : Prop :=
  Forall (fun r => to_datetime fmt (cell r) <> None) (rows f).

(** The row that the dashboard loader makes of a line of a file of the
    first format, and of the second. *)
Definition record_A `{Externals} (f : CsvFile) (r : CsvRow) : Txn :=
  {| Date := the_date "%m/%d/%Y" (c_Date r);
     Amount := to_numeric (c_Amount r);
     Description := description_of f r;
     Category := category_of f r;
     Debit := None;
     Credit := None;
     Source := None |}.

Definition record_B `{Externals} (f : CsvFile) (r : CsvRow) : Txn :=
  {| Date := the_date "%Y-%m-%d" (c_Transaction_Date r);
     Amount := debit r;
     Description := description_of f r;
     Category := category_of f r;
     Debit := debit r;
     Credit := fillna 0 (to_numeric (c_Credit r));
     Source := None |}.

(** Two characters are the same letter: equal, or an ASCII capital and
    its small letter. *)
Definition small (c : ascii) : bool :=
  ((97 <=? nat_of_ascii c) && (nat_of_ascii c <=? 122))%nat.

Definition same_letter (a b : ascii) : bool :=
  Ascii.eqb a b
  || (small b && (nat_of_ascii a + 32 =? nat_of_ascii b)%nat)
  || (small a && (nat_of_ascii b + 32 =? nat_of_ascii a)%nat).

(** Two texts are equal up to the case of their letters. *)
Fixpoint same_text (s t : string) : bool :=
  match s, t with
  | EmptyString, EmptyString => true
  | String a s', String b t' => same_letter a b && same_text s' t'
  | _, _ => false
  end.

(** [pattern] occurs in [desc] up to the case of the letters. *)
Definition occurs_nocase (desc pattern : string) : Prop :=
  exists pre w post, desc = pre ++ w ++ post /\ same_text w pattern = true.

(** The 256 characters. *)
Definition all_ascii : list ascii := map ascii_of_nat (seq 0 256).

(** The tests of the page on the doubles of an amount: above 0, and
    within the tolerance of the expected amount. *)
Definition above_zero64 (amount : Q) : Prop :=
  SFleb (Binary64.of_Q amount) Binary64.zero = false.

Definition within64 (amount expected tolerance : Q) : Prop :=
  SFleb (SFabs (Binary64.minus (Binary64.of_Q amount) (Binary64.of_Q expected)))
        (Binary64.of_Q tolerance) = true.

(** The fatal error of the dashboard loader. *)
Definition no_valid_csv : Exception :=
  ValueError "No valid CSV files found in data directory".

(** Two rows are duplicates of each other: same date, same amount (or
    both without one) and same description. *)
Definition duplicates (a b : Txn) : Prop :=
  Date a = Date b
  /\ match Amount a, Amount b with
     | Some x, Some y => (x == y)%Q
     | None, None => True
     | _, _ => False
     end
  /\ Description a = Description b.

(** The lines of a category table whose total is positive. *)
Definition positive_rows (table : list Analysis.CategoryRow) : list Analysis.CategoryRow :=
  List.filter (fun r => Num.Qltb 0 (Analysis.Total r)) table.

(** A line of the category table before the sort, for the denominator
    [P]. *)
Definition table_row (P : Q) (b : string * (Q * Z * Num.float)) : Analysis.CategoryRow :=
  let '(c, (total, count, average)) := b in
  {| Analysis.category := c; Analysis.Total := total; Analysis.Count := count;
     Analysis.Average := average; Analysis.Percent := Analysis.percent P total |}.

(** [months] lists, once each, the calendar months in which the
    merchant [m] has a transaction in [df]: the merchant appears in
    exactly [length months] distinct months. *)
Definition appears_in_months (m : string) (df : DataFrame) (months : list Dates.period)
  : Prop :=
  List.NoDup months
  /\ forall p, In p months
               <-> exists t, In t df /\ Description t = m /\ Dates.to_period (Date t) = p.

(** What the merchant [m] was charged in the month [p]: the sum of the
    amounts of its transactions of that month. *)
Definition monthly_amount (m : string) (p : Dates.period) (df : DataFrame) : Q :=
  Num.sum (map Amount
             (List.filter (fun t => String.eqb (Description t) m
                                    && Dates.period_eqb (Dates.to_period (Date t)) p) df)).

(** The merchants that [find_recurring_charges] flags. *)
Definition flagged (df : DataFrame) (threshold_months : Z) : list string :=
  map Analysis.merchant (Analysis.find_recurring_charges df threshold_months).

(** The (merchant, month) groups of the first [groupby] that belong to
    the merchant [m], and the line that the second [groupby] makes of
    them. *)
Definition merchant_months (m : string) (df : DataFrame) : list (string * Dates.period) :=
  List.filter (fun k => String.eqb (fst k) m)
    (Pandas.group_keys Analysis.merchant_month_eqb Analysis.merchant_month_leb
       (fun t => Some (Description t, Dates.to_period (Date t))) df).

Definition merchant_amounts (m : string) (df : DataFrame) : list Q :=
  map (fun k => monthly_amount (fst k) (snd k) df) (merchant_months m df).

Definition merchant_row (m : string) (df : DataFrame) : Analysis.MerchantRow :=
  {| Analysis.merchant := m;
     Analysis.Months_Present := Z.of_nat (length (merchant_months m df));
     Analysis.Avg_Amount :=
       (Num.qsum (merchant_amounts m df)
        / inject_Z (Z.of_nat (length (merchant_amounts m df))))%Q;
     Analysis.Var_Amount := Num.var (merchant_amounts m df) |}.

(** ** Inputs of the examples *)

Module Examples.

Import Dashboard.

Definition netflix : Subscription :=
  mkSubscription "Netflix" ["NETFLIX"] "Streaming" 15.49 "monthly" 2 None.

(** The two rows of the end-to-end scenario, in a file of the first
    format. *)
Definition netflix_file : CsvFile :=
  mkCsvFile "card" ["Date"; "Amount"; "Description"; "Category"]
    [ mkCsvRow "01/05/2024" "" "45.00" "" "" "NETFLIX.COM" "Entertainment";
      mkCsvRow "02/05/2024" "" "15.49" "" "" "NETFLIX.COM" "Entertainment" ].

(** The whole pipeline on the scenario: load, prepare, reconcile against
    the catalogue of the page, with the concrete reading of cells. *)
Definition netflix_scenario : Result (list SubscriptionStatus) :=
  df ← snd (load_transactions (H := Concrete.externals) [netflix_file]);
  DATA ← process_data df;
  Ok (getSubscriptions SUBSCRIPTIONS DATA).

Definition charge (date : string) (amount : Q) : JsTxn :=
  mkJsTxn date amount "Netflix.com" "Entertainment".

(** A catalogue entry of a cancelled service that still has a pattern
    and a tolerance, and an active one for the same merchant. *)
Definition cancelled_plan : Subscription :=
  mkSubscription "Old plan" ["SHOP"] "Membership" 0 "monthly" 5 None.

Definition current_plan : Subscription :=
  mkSubscription "New plan" ["SHOP"] "Membership" 3 "monthly" 1 None.

Definition family_plan : Subscription :=
  mkSubscription "Family plan" ["shop 4"] "Membership" 4.5 "annual" 2 None.

(** Two exports of the same card that overlap in one purchase. *)
Definition export_january : CsvFile :=
  mkCsvFile "january" ["Date"; "Amount"; "Description"; "Category"]
    [ mkCsvRow "01/31/2024" "" "12.50" "" "" "COFFEE" "Dining" ].

Definition export_quarter : CsvFile :=
  mkCsvFile "quarter" ["Date"; "Amount"; "Description"; "Category"]
    [ mkCsvRow "01/31/2024" "" "12.50" "" "" "COFFEE" "Dining";
      mkCsvRow "02/02/2024" "" "80" "" "" "GROCER" "Grocery" ].

Definition coffee : Txn :=
  mkTxn (Dates.mkdate 2024 1 31) (Some (25 # 2)%Q) "COFFEE" (Some "Dining") None None None.

(** A CSV file that is not a card export. *)
Definition notes_file : CsvFile :=
  mkCsvFile "notes" ["Title"; "Body"; "Description"; "Category"]
    [ mkCsvRow "" "" "" "" "" "budget for march" "Notes" ].

Definition six_charges : list Dashboard.JsTxn :=
  map (fun d => charge d 15.49)
      ["01/05/2024"; "02/05/2024"; "03/05/2024"; "04/05/2024"; "05/05/2024"; "06/05/2024"].

(** A file of the first format with an amount and a date that do not
    parse. *)
Definition bad_amount_file : CsvFile :=
  mkCsvFile "card" ["Date"; "Amount"; "Description"; "Category"]
    [ mkCsvRow "01/05/2024" "" "45.00" "" "" "NETFLIX.COM" "Entertainment";
      mkCsvRow "01/06/2024" "" "pending" "" "" "HOTEL" "Lodging" ].

Definition bad_date_file : CsvFile :=
  mkCsvFile "card" ["Date"; "Amount"; "Description"; "Category"]
    [ mkCsvRow "01/05/2024" "" "45.00" "" "" "NETFLIX.COM" "Entertainment";
      mkCsvRow "2024-01-06" "" "20.00" "" "" "HOTEL" "Lodging" ].

(** Six purchases of 10, each in a category of its own. *)
Definition purchase (c : string) : Txn :=
  mkTxn (Dates.mkdate 2024 1 5) (Some 10%Q) "SHOP" (Some c) None None None.

Definition six_categories : DataFrame :=
  map purchase ["Airfare"; "Dining"; "Grocery"; "Internet"; "Lodging"; "Other"].

(** Transactions of a card, a merchant that refunds 10 in each of two
    months, and a gym that charges 10 in each of two months next to a
    grocer seen in one month. *)
Definition on (y m d : Z) (amount : Q) (description : string) : Txn :=
  mkTxn (Dates.mkdate y m d) (Some amount) description None None None
        (Some "card").

Definition two_refunds : DataFrame :=
  [ on 2024 1 5 (-10) "REFUND CO"; on 2024 2 5 (-10) "REFUND CO" ].

Definition two_charges : DataFrame :=
  [ on 2024 1 5 10 "GYM"; on 2024 2 5 4 "GYM"; on 2024 2 20 6 "GYM";
    on 2024 2 7 30 "GROCER" ].

(** A statement of the second format whose only line is a payment. *)
Definition payment_file : CsvFile :=
  mkCsvFile "statement"
    ["Transaction Date"; "Debit"; "Credit"; "Description"; "Category"]
    [ mkCsvRow "" "2024-03-01" "" "0" "50.00" "PAYMENT RECEIVED" "Payment" ].

(** A statement of the second format with a purchase, a payment and a
    line whose debit is not a number. *)
Definition statement_file : CsvFile :=
  mkCsvFile "statement"
    ["Transaction Date"; "Debit"; "Credit"; "Description"; "Category"]
    [ mkCsvRow "" "2024-03-01" "" "12.50" "" "COFFEE" "Dining";
      mkCsvRow "" "2024-03-02" "" "0" "50.00" "PAYMENT RECEIVED" "Payment";
      mkCsvRow "" "2024-03-03" "" "n/a" "" "ADJUSTMENT" "Other" ].

Definition shop_charge : JsTxn := mkJsTxn "03/01/2024" 3 "SHOP 42" "Merchandise".

(** Prepared data whose only transaction is [shop_charge]. *)
Definition shop_data : Data :=
  mkData ["2024"] [Some "Merchandise"]
    [ ("2024-03",
       mkMonthData 3
         [ ("Merchandise",
            mkCategoryData 3 1 [mkTxnRecord "03/01/2024" 3 "SHOP 42"]) ]) ].

End Examples.

(** ** Inputs of the further examples *)

Module Cases.

Import Dashboard.

(** A card with a gym charged in two months, a cafe, a refund, a line
    whose amount did not parse and a line of amount 0. *)
Definition card : DataFrame :=
  [ mkTxn (Dates.mkdate 2024 1 5) (Some 10%Q) "GYM" (Some "Health") None None None;
    mkTxn (Dates.mkdate 2024 1 9) (Some 5%Q) "CAFE" (Some "Dining") None None None;
    mkTxn (Dates.mkdate 2024 1 12) (Some (-5)%Q) "CAFE" (Some "Dining") None None None;
    mkTxn (Dates.mkdate 2024 2 5) (Some 10%Q) "GYM" (Some "Health") None None None;
    mkTxn (Dates.mkdate 2024 2 6) None "HOTEL" (Some "Lodging") None None None;
    mkTxn (Dates.mkdate 2024 2 7) (Some 0%Q) "BANK" (Some "Fees") None None None ].

(** Refunds only, in two categories. *)
Definition refunds_only : DataFrame :=
  [ mkTxn (Dates.mkdate 2024 1 12) (Some (-5)%Q) "CAFE" (Some "Dining") None None None;
    mkTxn (Dates.mkdate 2024 1 15) (Some (-20)%Q) "HOTEL" (Some "Lodging") None None None ].

(** Lines of a hosting provider: a charge, a refund and a line whose
    amount did not parse, next to a purchase that is no business
    expense. *)
Definition hosting : DataFrame :=
  [ mkTxn (Dates.mkdate 2024 3 1) (Some 12%Q) "Example Hosting Inc" (Some "Software")
          None None None;
    mkTxn (Dates.mkdate 2024 3 2) (Some (-12)%Q) "EXAMPLE HOSTING REFUND" (Some "Software")
          None None None;
    mkTxn (Dates.mkdate 2024 3 3) None "example hosting" (Some "Software") None None None;
    mkTxn (Dates.mkdate 2024 3 4) (Some 5%Q) "CAFE" (Some "Dining") None None None ].

(** The data of a page: a gym charged twice and one visit to a cafe. *)
Definition gym_data : Data :=
  mkData ["2024"] [Some "Dining"; Some "Health"]
    [ ("2024-01",
       mkMonthData 15
         [ ("Dining", mkCategoryData 5 1 [mkTxnRecord "01/09/2024" 5 "CAFE"]);
           ("Health", mkCategoryData 10 1 [mkTxnRecord "01/05/2024" 10 "GYM"]) ]);
      ("2024-02",
       mkMonthData 10
         [ ("Health", mkCategoryData 10 1 [mkTxnRecord "02/05/2024" 10 "GYM"]) ]) ].

(** The same page after two purchases at a shop whose description is
    the word [constructor]. *)
Definition odd_data : Data :=
  mkData ["2024"] [Some "Health"; Some "Other"]
    [ ("2024-01",
       mkMonthData 14
         [ ("Health", mkCategoryData 10 1 [mkTxnRecord "01/05/2024" 10 "GYM"]);
           ("Other",
            mkCategoryData 4 2 [mkTxnRecord "01/06/2024" 2 "constructor";
                                mkTxnRecord "01/07/2024" 2 "constructor"]) ]) ].

(** A directory with a file that has no [Amount] column. *)
Definition no_amount_file : CsvFile :=
  mkCsvFile "other" ["Date"; "Description"; "Category"]
    [ mkCsvRow "01/05/2024" "" "" "" "" "GYM" "Health" ].


(** A statement with just the three columns of the second format. *)
Definition bare_statement : CsvFile :=
  mkCsvFile "bare" ["Transaction Date"; "Debit"; "Credit"]
    [ mkCsvRow "" "2024-03-01" "" "12.50" "" "" "" ].

(** A statement in which a purchase is listed twice. *)
Definition twice_statement : CsvFile :=
  mkCsvFile "twice"
    ["Transaction Date"; "Debit"; "Credit"; "Description"; "Category"]
    [ mkCsvRow "" "2024-03-01" "" "12.50" "" "COFFEE" "Dining";
      mkCsvRow "" "2024-03-01" "" "12.50" "" "COFFEE" "Dining" ].

(** An export of the first format with two lines of the same day and
    merchant whose amounts are not numbers. *)
Definition pending_file : CsvFile :=
  mkCsvFile "card" ["Date"; "Amount"; "Description"; "Category"]
    [ mkCsvRow "01/06/2024" "" "pending" "" "" "HOTEL" "Lodging";
      mkCsvRow "01/06/2024" "" "n/a" "" "" "HOTEL" "Lodging" ].

(** A statement with a [Transaction Date] column and no [Debit]
    column. *)
Definition no_debit_file : CsvFile :=
  mkCsvFile "credits" ["Transaction Date"; "Credit"; "Description"]
    [ mkCsvRow "" "2024-03-02" "" "" "50.00" "PAYMENT RECEIVED" "" ].

(** A storage plan of 1.99 with a tolerance of 1, and a charge of
    2.99. *)
Definition storage_plan : Subscription :=
  mkSubscription "Storage" ["STORAGE"] "Software" 1.99 "monthly" 1 None.

Definition storage_charge (amount : Q) : JsTxn :=
  mkJsTxn "03/01/2024" amount "CLOUD STORAGE" "Software".

(** An export of the first format without a [Category] column. *)
Definition plain_file : CsvFile :=
  mkCsvFile "plain" ["Date"; "Amount"; "Description"]
    [ mkCsvRow "01/05/2024" "" "10.00" "" "" "GYM" "" ].

(** A month whose categories are the numerals 10 and 9. *)
Definition numbered_data : Data :=
  mkData ["2024"] [Some "10"; Some "9"]
    [ ("2024-01",
       mkMonthData 20
         [ ("10", mkCategoryData 10 1 [mkTxnRecord "01/05/2024" 10 "GYM"]);
           ("9", mkCategoryData 10 1 [mkTxnRecord "01/19/2024" 10 "GYM"]) ]) ].

End Cases.

(** * Properties *)

(** ** Comparisons of rationals as booleans *)

Lemma Qltb_true (a b : Q) : Num.Qltb a b = true <-> (a < b)%Q.
Proof.
  unfold Num.Qltb. destruct (Qlt_le_dec a b) as [Hlt | Hle].
  - split; [intros _; exact Hlt | reflexivity].
  - split; [discriminate | intros Hlt; exfalso; exact (Qle_not_lt _ _ Hle Hlt)].
Qed.

Lemma Qltb_false (a b : Q) : Num.Qltb a b = false <-> (b <= a)%Q.
Proof.
  unfold Num.Qltb. destruct (Qlt_le_dec a b) as [Hlt | Hle].
  - split; [discriminate | intros Hle; exfalso; exact (Qle_not_lt _ _ Hle Hlt)].
  - split; [intros _; exact Hle | reflexivity].
Qed.

Lemma Qleb_true (a b : Q) : Num.Qleb a b = true <-> (a <= b)%Q.
Proof.
  unfold Num.Qleb. destruct (Qlt_le_dec b a) as [Hlt | Hle].
  - split; [discriminate | intros Hle; exfalso; exact (Qle_not_lt _ _ Hle Hlt)].
  - split; [intros _; exact Hle | reflexivity].
Qed.

Lemma Qleb_false (a b : Q) : Num.Qleb a b = false <-> (b < a)%Q.
Proof.
  unfold Num.Qleb. destruct (Qlt_le_dec b a) as [Hlt | Hle].
  - split; [intros _; exact Hlt | reflexivity].
  - split; [discriminate | intros Hlt; exfalso; exact (Qle_not_lt _ _ Hle Hlt)].
Qed.

(** ** Spending velocity *)

Lemma summary_has_no_total_spent (df : DataFrame) :
  Analysis.get_summary_stats df !! "total_spent" = None.
Proof.
  unfold Analysis.get_summary_stats.
  repeat (rewrite lookup_insert_ne; [| discriminate]).
  apply lookup_empty.
Qed.

Lemma summary_days_covered (df : DataFrame) :
  Analysis.get_summary_stats df !! "days_covered" = Some (Analysis.days_covered df).
Proof.
  unfold Analysis.get_summary_stats.
  repeat (rewrite lookup_insert_ne; [| discriminate]).
  apply lookup_insert_eq.
Qed.

(** C1.  [spending_velocity] reads the key ['total_spent'], which
    [get_summary_stats] never sets (its totals are ['gross_spent'],
    ['refunds'] and ['net_spent']): on every DataFrame the call ends in
    [KeyError: 'total_spent'] and no record of averages is returned. *)
Theorem spending_velocity_raises_KeyError (df : DataFrame) :
  Analysis.spending_velocity df = Raise (KeyError "total_spent").
Proof.
  unfold Analysis.spending_velocity, Analysis.getitem.
  rewrite summary_days_covered. cbn [mbind Result_bind].
  rewrite summary_has_no_total_spent. reflexivity.
Qed.

(** ** Substrings *)

Lemma append_cons (c : ascii) (a b : string) : String c a ++ b = String c (a ++ b).
Proof. reflexivity. Qed.

Lemma append_empty (b : string) : EmptyString ++ b = b.
Proof. reflexivity. Qed.

Lemma prefix_true (p s : string) :
  String.prefix p s = true <-> exists post, s = p ++ post.
Proof.
  revert s. induction p as [| c p IH]; intros s.
  - split; [intros _; exists s; reflexivity | intros _; destruct s; reflexivity].
  - destruct s as [| d s]; simpl.
    + split; [discriminate | intros [post Hpost]; discriminate].
    + destruct (Ascii.ascii_dec c d) as [-> | Hne].
      * rewrite IH. split; intros [post Hpost]; exists post;
          rewrite append_cons in *; congruence.
      * split; [discriminate |].
        intros [post Hpost]. rewrite append_cons in Hpost. congruence.
Qed.

Lemma includes_true (s p : string) :
  Str.includes s p = true <-> exists pre post, s = pre ++ p ++ post.
Proof.
  induction s as [| c s IH].
  - change (Str.includes EmptyString p) with (String.prefix p EmptyString || false).
    rewrite orb_false_r, prefix_true. split.
    + intros [post Hpost]. exists EmptyString, post. exact Hpost.
    + intros [pre [post Hs]]. destruct pre as [| d pre].
      * exists post. exact Hs.
      * rewrite append_cons in Hs. discriminate.
  - change (Str.includes (String c s) p)
      with (String.prefix p (String c s) || Str.includes s p).
    rewrite orb_true_iff, prefix_true, IH. split.
    + intros [[post Hpost] | [pre [post Hs]]].
      * exists EmptyString, post. exact Hpost.
      * exists (String c pre), post. rewrite append_cons. congruence.
    + intros [pre [post Hs]]. destruct pre as [| d pre].
      * left. exists post. exact Hs.
      * right. exists pre, post. rewrite append_cons in Hs. congruence.
Qed.

Lemma toUpperCase_app (a b : string) :
  Str.toUpperCase (a ++ b) = Str.toUpperCase a ++ Str.toUpperCase b.
Proof.
  induction a as [| c a IH]; [reflexivity |].
  rewrite append_cons. simpl. rewrite IH. reflexivity.
Qed.

Lemma toUpperCase_split (s a b : string) :
  Str.toUpperCase s = a ++ b ->
  exists s1 s2, s = s1 ++ s2 /\ Str.toUpperCase s1 = a /\ Str.toUpperCase s2 = b.
Proof.
  revert s. induction a as [| c a IH]; intros s Hs.
  - exists EmptyString, s. repeat split; assumption.
  - rewrite append_cons in Hs. destruct s as [| d s]; simpl in Hs; [discriminate |].
    injection Hs as Hc Hrest. destruct (IH s Hrest) as (s1 & s2 & -> & H1 & H2).
    exists (String d s1), s2. simpl. repeat split; congruence.
Qed.

Lemma includes_nocase (desc pattern : string) :
  Str.includes (Str.toUpperCase desc) (Str.toUpperCase pattern) = true
  <-> contains_nocase desc pattern.
Proof.
  rewrite includes_true. unfold contains_nocase. split.
  - intros (pre & post & Hs).
    destruct (toUpperCase_split _ _ _ Hs) as (s1 & s2 & -> & H1 & H2).
    destruct (toUpperCase_split _ _ _ H2) as (w & s3 & -> & Hw & H3).
    exists s1, w, s3. split; [reflexivity | exact Hw].
  - intros (pre & w & post & -> & Hw).
    exists (Str.toUpperCase pre), (Str.toUpperCase post).
    rewrite !toUpperCase_app, Hw. reflexivity.
Qed.

Lemma matchesPattern_true (sub : Dashboard.Subscription) (txn : Dashboard.JsTxn) :
  Dashboard.matchesPattern sub txn = true
  <-> exists p, In p (Dashboard.patterns sub)
                /\ contains_nocase (Dashboard.js_Description txn) p.
Proof.
  unfold Dashboard.matchesPattern. rewrite existsb_exists.
  split; intros (p & Hp & Hc); exists p; (split; [exact Hp |]);
    apply includes_nocase; exact Hc.
Qed.

(** ** The subscription reconciler: candidate matches *)

Lemma is_match_true (sub : Dashboard.Subscription) (txn : Dashboard.JsTxn) :
  Dashboard.is_match sub txn = true
  <-> (0 < Dashboard.js_Amount txn)%Q
      /\ (exists p, In p (Dashboard.patterns sub)
                    /\ contains_nocase (Dashboard.js_Description txn) p)
      /\ (Qabs (Dashboard.js_Amount txn - Dashboard.amount sub)
           <= Dashboard.tolerance sub)%Q.
Proof.
  unfold Dashboard.is_match. rewrite <- matchesPattern_true.
  destruct (Num.Qleb (Dashboard.js_Amount txn) 0) eqn:Hpos.
  - apply Qleb_true in Hpos. split; [discriminate |].
    intros (Hlt & _ & _). exfalso. exact (Qle_not_lt _ _ Hpos Hlt).
  - apply Qleb_false in Hpos.
    destruct (Dashboard.matchesPattern sub txn) eqn:Hpat; simpl.
    + rewrite Qleb_true. tauto.
    + split; [discriminate | intros (_ & Hp & _); discriminate].
Qed.

(** *** Letters *)

Lemma all_ascii_complete (a : ascii) : In a all_ascii.
Proof.
  unfold all_ascii. rewrite <- (ascii_nat_embedding a). apply in_map.
  apply in_seq. pose proof (nat_ascii_bounded a). lia.
Qed.

(** [toUpperCase] identifies two characters exactly when they are the
    same letter. *)
Lemma upper_char_same_letter (a b : ascii) :
  Ascii.eqb (Str.upper_char a) (Str.upper_char b) = same_letter a b.
Proof.
  assert (Hall : forallb
                   (fun a => forallb
                               (fun b => Bool.eqb
                                           (Ascii.eqb (Str.upper_char a) (Str.upper_char b))
                                           (same_letter a b))
                               all_ascii)
                   all_ascii = true) by (vm_compute; reflexivity).
  pose proof (proj1 (List.forallb_forall _ _) Hall a (all_ascii_complete a)) as Ha.
  pose proof (proj1 (List.forallb_forall _ _) Ha b (all_ascii_complete b)) as Hab.
  apply Bool.eqb_prop in Hab. exact Hab.
Qed.

Lemma toUpperCase_same_text (s t : string) :
  Str.toUpperCase s = Str.toUpperCase t <-> same_text s t = true.
Proof.
  revert t. induction s as [| a s IH]; intros [| b t]; cbn [Str.toUpperCase same_text].
  - split; reflexivity.
  - split; discriminate.
  - split; discriminate.
  - rewrite andb_true_iff, <- IH, <- upper_char_same_letter, Ascii.eqb_eq.
    split; [intros [= -> ->]; auto | intros [-> ->]; reflexivity].
Qed.

Lemma occurs_nocase_iff (desc pattern : string) :
  contains_nocase desc pattern <-> occurs_nocase desc pattern.
Proof.
  unfold contains_nocase, occurs_nocase.
  split; intros (pre & w & post & Hd & Hw); exists pre, w, post;
    (split; [exact Hd |]); apply toUpperCase_same_text; exact Hw.
Qed.

Lemma matchesPattern_occurs (sub : Dashboard.Subscription) (txn : Dashboard.JsTxn) :
  Dashboard.matchesPattern sub txn = true
  <-> exists p, In p (Dashboard.patterns sub)
                /\ occurs_nocase (Dashboard.js_Description txn) p.
Proof.
  rewrite matchesPattern_true.
  split; intros (p & Hp & Hc); exists p; (split; [exact Hp |]);
    apply occurs_nocase_iff; exact Hc.
Qed.

(** *** The test in binary64 *)

Lemma of_Q_comp (p q : Q) : (p == q)%Q -> Binary64.of_Q p = Binary64.of_Q q.
Proof. intros Hpq. unfold Binary64.of_Q. rewrite (Qred_complete p q Hpq). reflexivity. Qed.

Lemma is_match64_true (sub : Dashboard.Subscription) (txn : Dashboard.JsTxn) :
  Binary64.is_match sub txn = true
  <-> above_zero64 (Dashboard.js_Amount txn)
      /\ Dashboard.matchesPattern sub txn = true
      /\ within64 (Dashboard.js_Amount txn) (Dashboard.amount sub) (Dashboard.tolerance sub).
Proof.
  unfold Binary64.is_match, above_zero64, within64.
  destruct (SFleb (Binary64.of_Q (Dashboard.js_Amount txn)) Binary64.zero).
  - split; [discriminate | intros (Hz & _); discriminate].
  - destruct (Dashboard.matchesPattern sub txn); cbn [negb].
    + tauto.
    + split; [discriminate | intros (_ & Hp & _); discriminate].
Qed.



(** ** Sorting is a permutation *)

Lemma insert_by_Permutation {A : Type} (leb : A -> A -> bool) (x : A) (l : list A) :
  Permutation (Num.insert_by leb x l) (x :: l).
Proof.
  induction l as [| y l IH]; simpl; [reflexivity |].
  destruct (leb x y); [reflexivity |].
  rewrite IH. apply perm_swap.
Qed.

Lemma sort_by_Permutation {A : Type} (leb : A -> A -> bool) (l : list A) :
  Permutation (Num.sort_by leb l) l.
Proof.
  induction l as [| x l IH]; simpl; [reflexivity |].
  rewrite insert_by_Permutation, IH. reflexivity.
Qed.

Lemma sort_by_In {A : Type} (leb : A -> A -> bool) (l : list A) (x : A) :
  In x (Num.sort_by leb l) <-> In x l.
Proof.
  split; apply Permutation_in;
    [apply sort_by_Permutation | symmetry; apply sort_by_Permutation].
Qed.

(** ** The subscription reconciler: status *)

Section Reconciler.
Context `{Externals}.

Lemma reconcile_cancelled (txns : list Dashboard.JsTxn) (sub : Dashboard.Subscription) :
  (Dashboard.amount sub == 0)%Q ->
  Dashboard.s_status (Dashboard.reconcile txns sub) = Dashboard.inactive
  /\ Dashboard.s_transactions (Dashboard.reconcile txns sub) = []
  /\ Dashboard.s_total (Dashboard.reconcile txns sub) = 0%Q.
Proof.
  intros Hz. apply Qeq_bool_iff in Hz. unfold Dashboard.reconcile.
  rewrite Hz. repeat split; reflexivity.
Qed.

Lemma reconcile_live (txns : list Dashboard.JsTxn) (sub : Dashboard.Subscription) :
  ~ (Dashboard.amount sub == 0)%Q ->
  let matches := List.filter (Dashboard.is_match sub) txns in
  Dashboard.s_count (Dashboard.reconcile txns sub) = length matches
  /\ Dashboard.s_transactions (Dashboard.reconcile txns sub)
     = Num.sort_by Dashboard.newest_first matches
  /\ Dashboard.s_total (Dashboard.reconcile txns sub)
     = Num.js_round2 (matched_total sub txns)
  /\ Dashboard.s_status (Dashboard.reconcile txns sub)
     = if (length matches =? 0)%nat then Dashboard.not_found
       else if String.eqb (Dashboard.cycle sub) "monthly" && (length matches <? 6)%nat
            then Dashboard.irregular
            else Dashboard.active.
Proof.
  intros Hnz. unfold Dashboard.reconcile.
  destruct (Qeq_bool (Dashboard.amount sub) 0) eqn:Hz.
  - exfalso. apply Hnz. apply Qeq_bool_iff. exact Hz.
  - repeat split; reflexivity.
Qed.

(** What a definition with an expected amount lists is exactly the
    candidate matches among the transactions. *)
Lemma reconcile_lists_candidates (txns : list Dashboard.JsTxn)
    (sub : Dashboard.Subscription) (txn : Dashboard.JsTxn) :
  ~ (Dashboard.amount sub == 0)%Q ->
  In txn (Dashboard.s_transactions (Dashboard.reconcile txns sub))
  <-> In txn txns /\ Dashboard.is_match sub txn = true.
Proof.
  intros Hnz. destruct (reconcile_live txns sub Hnz) as (_ & -> & _).
  rewrite sort_by_In. apply List.filter_In.
Qed.

End Reconciler.


(** ** The subscription reconciler: one pass per definition *)

Lemma fold_left_sum {A : Type} (f : A -> Q) (l : list A) (a : Q) :
  (fold_left (fun sum t => sum + f t) l a == a + Num.qsum (map f l))%Q.
Proof.
  revert a. induction l as [| x l IH]; intros a; simpl.
  - lra.
  - rewrite IH. lra.
Qed.

Lemma matched_total_qsum (sub : Dashboard.Subscription) (txns : list Dashboard.JsTxn) :
  (matched_total sub txns
   == Num.qsum (map Dashboard.js_Amount (List.filter (Dashboard.is_match sub) txns)))%Q.
Proof. unfold matched_total. rewrite fold_left_sum. lra. Qed.

Lemma qsum_app (l1 l2 : list Q) :
  (Num.qsum (l1 ++ l2)%list == Num.qsum l1 + Num.qsum l2)%Q.
Proof.
  induction l1 as [| x l1 IH]; simpl; [lra | rewrite IH; lra].
Qed.

Lemma matched_total_insert (sub : Dashboard.Subscription)
    (before after : list Dashboard.JsTxn) (txn : Dashboard.JsTxn) :
  Dashboard.is_match sub txn = true ->
  (matched_total sub (before ++ txn :: after)%list
   == Dashboard.js_Amount txn + matched_total sub (before ++ after)%list)%Q.
Proof.
  intros Hm. rewrite !matched_total_qsum, !List.filter_app. simpl. rewrite Hm.
  rewrite !map_app, !qsum_app. simpl. lra.
Qed.

Lemma getSubscriptions_entry `{Externals} (catalogue : list Dashboard.Subscription)
    (DATA : Dashboard.Data) (sub : Dashboard.Subscription) :
  In sub catalogue ->
  In (Dashboard.reconcile (Dashboard.allTransactions DATA) sub)
     (Dashboard.getSubscriptions catalogue DATA).
Proof.
  intros Hin. unfold Dashboard.getSubscriptions.
  apply sort_by_In. apply in_map. exact Hin.
Qed.



(** ** Loops that can raise *)

Lemma mapM_total {A B : Type} (f : A -> Result B) (g : A -> B) (xs : list A) :
  Forall (fun x => f x = Ok (g x)) xs -> mapM f xs = Ok (map g xs).
Proof.
  induction 1 as [| x xs Hx _ IH]; simpl; [reflexivity |].
  rewrite Hx. simpl. rewrite IH. reflexivity.
Qed.

Lemma mapM_Exists_raise {A B : Type} (f : A -> Result B) (xs : list A) :
  Exists (fun x => exists e, f x = Raise e) xs -> exists e, mapM f xs = Raise e.
Proof.
  induction 1 as [x xs [e He] | x xs _ [e IH]]; simpl.
  - rewrite He. exists e. reflexivity.
  - destruct (f x) as [y | e']; simpl; [| exists e'; reflexivity].
    rewrite IH. exists e. reflexivity.
Qed.

Lemma mapM_Raise_inv {A B : Type} (f : A -> Result B) (xs : list A) (e : Exception) :
  mapM f xs = Raise e -> exists x, In x xs /\ f x = Raise e.
Proof.
  induction xs as [| x xs IH]; simpl; [discriminate |].
  destruct (f x) as [y | e'] eqn:Hfx; simpl.
  - destruct (mapM f xs) as [ys | e'']; simpl; [discriminate |].
    intros [= ->]. destruct (IH eq_refl) as (z & Hz & Hfz).
    exists z. split; [right; exact Hz | exact Hfz].
  - intros [= ->]. exists x. split; [left; reflexivity | exact Hfx].
Qed.

Section Reading.
Context `{Externals}.

Lemma parse_date_ok (fmt cell : string) :
  to_datetime fmt cell <> None -> parse_date fmt cell = Ok (the_date fmt cell).
Proof.
  unfold parse_date, the_date. destruct (to_datetime fmt cell); [reflexivity | congruence].
Qed.

Lemma parse_date_raises (fmt cell : string) :
  to_datetime fmt cell = None -> exists m, parse_date fmt cell = Raise (ValueError m).
Proof. unfold parse_date. intros ->. eexists. reflexivity. Qed.

Lemma column_present (f : CsvFile) (name : string) (cell : CsvRow -> string) :
  has_column f name = true -> column f name cell = Ok (map cell (rows f)).
Proof. unfold column. intros ->. reflexivity. Qed.

Lemma filter_map_commute {A B : Type} (h : A -> B) (P : B -> bool) (l : list A) :
  List.filter P (map h l) = map h (List.filter (fun x => P (h x)) l).
Proof.
  induction l as [| x l IH]; simpl; [reflexivity |].
  destruct (P (h x)); simpl; rewrite IH; reflexivity.
Qed.

(** What the first branch of the loader returns on a well formed file
    of the second format. *)
Lemma read_schema_B_ok (f : CsvFile) :
  has_column f "Debit" = true -> has_column f "Credit" = true ->
  dates_parse "%Y-%m-%d" c_Transaction_Date f ->
  Dashboard.read_schema_B f
  = Ok (map (record_B f) (List.filter (fun r => Num.gt (debit r) 0) (rows f))).
Proof.
  intros Hd Hc Hdates. unfold Dashboard.read_schema_B.
  rewrite (mapM_total _ (fun r => (r, the_date "%Y-%m-%d" (c_Transaction_Date r)))).
  2:{ eapply Forall_impl; [exact Hdates |]. intros r Hr. simpl in Hr.
      rewrite (parse_date_ok _ _ Hr). reflexivity. }
  cbn [mbind Result_bind]. rewrite (column_present _ _ _ Hd), (column_present _ _ _ Hc).
  cbn [mbind Result_bind]. f_equal.
  rewrite map_map. cbn [fst snd].
  exact (filter_map_commute (record_B f) (fun t => Num.gt (Debit t) 0) (rows f)).
Qed.

(** A file with the column [Transaction Date] that lacks [Debit] or
    [Credit] cannot be read. *)
Lemma read_schema_B_lacks (f : CsvFile) :
  has_column f "Debit" = false \/ has_column f "Credit" = false ->
  exists e, Dashboard.read_schema_B f = Raise e.
Proof.
  intros Hlack. unfold Dashboard.read_schema_B, column.
  destruct (mapM _ (rows f)) as [dated | e]; cbn [mbind Result_bind];
    [| eexists; reflexivity].
  destruct (has_column f "Debit"); cbn [mbind Result_bind]; [| eexists; reflexivity].
  destruct (has_column f "Credit"); cbn [mbind Result_bind]; [| eexists; reflexivity].
  destruct Hlack; discriminate.
Qed.

Lemma sniff_A_columns (f : CsvFile) :
  Dashboard.sniff f = Dashboard.SchemaA ->
  has_column f "Date" = true /\ has_column f "Amount" = true.
Proof.
  unfold Dashboard.sniff. destruct (has_column f "Transaction Date"); [discriminate |].
  destruct (has_column f "Date"), (has_column f "Amount"); simpl;
    try discriminate. auto.
Qed.

Lemma sniff_B_column (f : CsvFile) :
  Dashboard.sniff f = Dashboard.SchemaB <-> has_column f "Transaction Date" = true.
Proof.
  unfold Dashboard.sniff. destruct (has_column f "Transaction Date").
  - split; reflexivity.
  - split; [| discriminate]. destruct (_ && _); discriminate.
Qed.

(** What the second branch of the loader returns when the dates are in
    format: one row per line, whatever the amount cells hold. *)
Lemma read_schema_A_ok (f : CsvFile) :
  dates_parse "%m/%d/%Y" c_Date f ->
  Dashboard.read_schema_A f = Ok (map (record_A f) (rows f)).
Proof.
  intros Hdates. unfold Dashboard.read_schema_A. apply mapM_total.
  eapply Forall_impl; [exact Hdates |]. intros r Hr. simpl in Hr.
  rewrite (parse_date_ok _ _ Hr). reflexivity.
Qed.

Lemma analysis_read_file_ok (source : option string) (f : CsvFile) :
  has_column f "Date" = true -> has_column f "Amount" = true ->
  dates_parse "%m/%d/%Y" c_Date f ->
  Analysis.read_file source f
  = Ok (map (fun r =>
               {| Date := the_date "%m/%d/%Y" (c_Date r);
                  Amount := to_numeric (c_Amount r);
                  Description := c_Description r;
                  Category := category_cell r;
                  Debit := None;
                  Credit := None;
                  Source := source |}) (rows f)).
Proof.
  intros Hd Ha Hdates. unfold Analysis.read_file.
  rewrite (column_present _ _ _ Hd). cbn [mbind Result_bind].
  rewrite (mapM_total _ (fun r => (r, the_date "%m/%d/%Y" (c_Date r)))).
  2:{ eapply Forall_impl; [exact Hdates |]. intros r Hr. simpl in Hr.
      rewrite (parse_date_ok _ _ Hr). reflexivity. }
  cbn [mbind Result_bind]. rewrite (column_present _ _ _ Ha).
  cbn [mbind Result_bind]. rewrite map_map. reflexivity.
Qed.

(** A date that is not in format ends the reading of the file with the
    [ValueError] of [pd.to_datetime]. *)
Lemma dated_rows_raise {B : Type} (fmt : string) (cell : CsvRow -> string)
    (g : CsvRow -> Dates.date -> B) (l : list CsvRow) :
  Exists (fun r => to_datetime fmt (cell r) = None) l ->
  exists msg,
    mapM (fun r => d ← parse_date fmt (cell r); Ok (g r d)) l = Raise (ValueError msg).
Proof.
  induction l as [| x l IH]; intros Hex; [inversion Hex |].
  cbn [mapM]. destruct (to_datetime fmt (cell x)) eqn:Hx.
  - assert (Hex' : Exists (fun r => to_datetime fmt (cell r) = None) l).
    { inversion Hex as [? ? Hhead | ? ? Htail]; subst; [congruence | exact Htail]. }
    destruct (IH Hex') as [msg Hmsg]. exists msg.
    rewrite parse_date_ok by congruence. cbn [mbind Result_bind].
    rewrite Hmsg. reflexivity.
  - destruct (parse_date_raises _ _ Hx) as [m Hm]. exists m.
    rewrite Hm. reflexivity.
Qed.

Lemma read_schema_A_raises (f : CsvFile) :
  Exists (fun r => to_datetime "%m/%d/%Y" (c_Date r) = None) (rows f) ->
  exists msg, Dashboard.read_schema_A f = Raise (ValueError msg).
Proof. intros Hex. unfold Dashboard.read_schema_A. apply dated_rows_raise. exact Hex. Qed.

Lemma analysis_read_file_raises (source : option string) (f : CsvFile) :
  has_column f "Date" = true ->
  Exists (fun r => to_datetime "%m/%d/%Y" (c_Date r) = None) (rows f) ->
  exists msg, Analysis.read_file source f = Raise (ValueError msg).
Proof.
  intros Hd Hex. unfold Analysis.read_file.
  rewrite (column_present _ _ _ Hd). cbn [mbind Result_bind].
  destruct (dated_rows_raise "%m/%d/%Y" c_Date (fun r d => (r, d)) (rows f) Hex)
    as [msg Hmsg].
  exists msg. rewrite Hmsg. reflexivity.
Qed.

(** The load of a single file that one of the branches has read. *)
Lemma read_all_single (f : CsvFile) (df : DataFrame) :
  Dashboard.sniff f <> Dashboard.Unknown ->
  (match Dashboard.sniff f with
   | Dashboard.SchemaB => Dashboard.read_schema_B f
   | _ => Dashboard.read_schema_A f
   end) = Ok df ->
  Dashboard.read_all [f] = ([], Ok [df]).
Proof.
  intros Hs Hr. simpl. destruct (Dashboard.sniff f); [| | congruence]; rewrite Hr;
    reflexivity.
Qed.

Lemma normalizer_single (f : CsvFile) (df : DataFrame) :
  Dashboard.sniff f <> Dashboard.Unknown ->
  (match Dashboard.sniff f with
   | Dashboard.SchemaB => Dashboard.read_schema_B f
   | _ => Dashboard.read_schema_A f
   end) = Ok df ->
  Normalizer.load_transactions [f]
  = ([], Normalizer.drop_duplicates (has_column f "Description") df).
Proof.
  intros Hs Hr. unfold Normalizer.load_transactions.
  rewrite (read_all_single f df Hs Hr). cbn [mbind Result_bind concat].
  rewrite app_nil_r. unfold Normalizer.frame_has. cbn [existsb].
  rewrite orb_false_r. destruct (Dashboard.sniff f); [| | congruence]; reflexivity.
Qed.

End Reading.

Lemma drop_duplicates_present (df : DataFrame) :
  Normalizer.drop_duplicates true df = Ok (Dashboard.drop_duplicates df).
Proof. destruct df; reflexivity. Qed.

Lemma drop_duplicates_raises (present : bool) (df : DataFrame) (e : Exception) :
  Normalizer.drop_duplicates present df = Raise e -> e = KeyError "Description".
Proof.
  unfold Normalizer.drop_duplicates. destruct df; [discriminate |].
  destruct present; [discriminate |]. intros [= <-]. reflexivity.
Qed.

(** ** The fatal error of the loader *)

Section Fatal.
Context `{Externals}.

Lemma parse_date_not_fatal (fmt cell : string) (e : Exception) :
  parse_date fmt cell = Raise e -> e <> no_valid_csv.
Proof.
  unfold parse_date, no_valid_csv. destruct (to_datetime fmt cell); [discriminate |].
  intros [= <-]. rewrite append_cons. discriminate.
Qed.

Lemma column_not_fatal (f : CsvFile) (name : string) (cell : CsvRow -> string)
    (e : Exception) :
  column f name cell = Raise e -> e <> no_valid_csv.
Proof.
  unfold column. destruct (has_column f name); [discriminate |].
  intros [= <-]. discriminate.
Qed.

Lemma read_schema_A_not_fatal (f : CsvFile) (e : Exception) :
  Dashboard.read_schema_A f = Raise e -> e <> no_valid_csv.
Proof.
  unfold Dashboard.read_schema_A. intros Hr.
  apply mapM_Raise_inv in Hr. destruct Hr as (r & _ & Hr).
  destruct (parse_date "%m/%d/%Y" (c_Date r)) as [d | e'] eqn:Hd;
    simpl in Hr; [discriminate |].
  injection Hr as <-. exact (parse_date_not_fatal _ _ _ Hd).
Qed.

Lemma read_schema_B_not_fatal (f : CsvFile) (e : Exception) :
  Dashboard.read_schema_B f = Raise e -> e <> no_valid_csv.
Proof.
  unfold Dashboard.read_schema_B. intros Hr.
  destruct (mapM _ (rows f)) as [dated | e'] eqn:Hm; simpl in Hr.
  - destruct (column f "Debit" c_Debit) as [? | e1] eqn:H1; simpl in Hr.
    + destruct (column f "Credit" c_Credit) as [? | e2] eqn:H2; simpl in Hr;
        [discriminate |].
      injection Hr as <-. exact (column_not_fatal _ _ _ _ H2).
    + injection Hr as <-. exact (column_not_fatal _ _ _ _ H1).
  - injection Hr as <-. apply mapM_Raise_inv in Hm. destruct Hm as (r & _ & Hr).
    destruct (parse_date "%Y-%m-%d" (c_Transaction_Date r)) as [d | e''] eqn:Hd;
      simpl in Hr; [discriminate |].
    injection Hr as <-. exact (parse_date_not_fatal _ _ _ Hd).
Qed.

Lemma read_all_skip (f : CsvFile) (fs : list CsvFile) :
  Dashboard.sniff f = Dashboard.Unknown ->
  Dashboard.read_all (f :: fs)
  = (Dashboard.warning f :: fst (Dashboard.read_all fs), snd (Dashboard.read_all fs)).
Proof.
  intros Hs. simpl. rewrite Hs. destruct (Dashboard.read_all fs). reflexivity.
Qed.

Lemma read_all_skip_anywhere (before after : list CsvFile) (f : CsvFile) :
  Dashboard.sniff f = Dashboard.Unknown ->
  snd (Dashboard.read_all (before ++ f :: after))
  = snd (Dashboard.read_all (before ++ after)).
Proof.
  intros Hs. induction before as [| g before IH].
  - simpl app. rewrite (read_all_skip _ _ Hs). reflexivity.
  - simpl. destruct (Dashboard.sniff g).
    + destruct (Dashboard.read_schema_B g); [| reflexivity].
      destruct (Dashboard.read_all (before ++ f :: after)),
               (Dashboard.read_all (before ++ after)).
      simpl in *. rewrite IH. reflexivity.
    + destruct (Dashboard.read_schema_A g); [| reflexivity].
      destruct (Dashboard.read_all (before ++ f :: after)),
               (Dashboard.read_all (before ++ after)).
      simpl in *. rewrite IH. reflexivity.
    + destruct (Dashboard.read_all (before ++ f :: after)),
               (Dashboard.read_all (before ++ after)).
      simpl in *. exact IH.
Qed.

Lemma load_transactions_parts (files : list CsvFile) :
  Dashboard.load_transactions files
  = (fst (Dashboard.read_all files),
     all_dfs ← snd (Dashboard.read_all files);
     match all_dfs with
     | [] => Raise no_valid_csv
     | _ => Ok (Dashboard.drop_duplicates (concat all_dfs))
     end).
Proof.
  unfold Dashboard.load_transactions. destruct (Dashboard.read_all files). reflexivity.
Qed.

Lemma normalizer_parts (files : list CsvFile) :
  Normalizer.load_transactions files
  = (fst (Dashboard.read_all files),
     all_dfs ← snd (Dashboard.read_all files);
     match all_dfs with
     | [] => Raise no_valid_csv
     | _ => Normalizer.drop_duplicates (Normalizer.frame_has "Description" files)
                                       (concat all_dfs)
     end).
Proof.
  unfold Normalizer.load_transactions. destruct (Dashboard.read_all files). reflexivity.
Qed.

Lemma frame_has_skip (name : string) (before after : list CsvFile) (f : CsvFile) :
  Dashboard.sniff f = Dashboard.Unknown ->
  Normalizer.frame_has name (before ++ f :: after)
  = Normalizer.frame_has name (before ++ after).
Proof.
  intros Hs. unfold Normalizer.frame_has. rewrite !existsb_app. cbn [existsb].
  rewrite Hs. reflexivity.
Qed.

(** The loop ends with an empty [all_dfs] exactly when it skipped
    every file. *)
Lemma read_all_empty (files : list CsvFile) :
  snd (Dashboard.read_all files) = Ok []
  <-> Forall (fun f => Dashboard.sniff f = Dashboard.Unknown) files.
Proof.
  induction files as [| f fs IH].
  - split; [constructor | reflexivity].
  - split.
    + intros Hr. simpl in Hr. destruct (Dashboard.sniff f) eqn:Hs.
      * destruct (Dashboard.read_schema_B f); [| discriminate].
        destruct (Dashboard.read_all fs) as [out [dfs | e]]; discriminate.
      * destruct (Dashboard.read_schema_A f); [| discriminate].
        destruct (Dashboard.read_all fs) as [out [dfs | e]]; discriminate.
      * constructor; [exact Hs |]. apply IH.
        destruct (Dashboard.read_all fs). exact Hr.
    + intros Hall. inversion Hall as [| ? ? Hs Hrest]; subst.
      rewrite (read_all_skip _ _ Hs). simpl. apply IH. exact Hrest.
Qed.

Lemma read_all_not_fatal (files : list CsvFile) (e : Exception) :
  snd (Dashboard.read_all files) = Raise e -> e <> no_valid_csv.
Proof.
  induction files as [| f fs IH]; simpl; [discriminate |].
  destruct (Dashboard.sniff f).
  - destruct (Dashboard.read_schema_B f) as [df | e'] eqn:Hr.
    + destruct (Dashboard.read_all fs) as [out [dfs | e'']]; simpl in *;
        [discriminate | intros [= <-]; apply IH; reflexivity].
    + simpl. intros [= <-]. exact (read_schema_B_not_fatal _ _ Hr).
  - destruct (Dashboard.read_schema_A f) as [df | e'] eqn:Hr.
    + destruct (Dashboard.read_all fs) as [out [dfs | e'']]; simpl in *;
        [discriminate | intros [= <-]; apply IH; reflexivity].
    + simpl. intros [= <-]. exact (read_schema_A_not_fatal _ _ Hr).
  - destruct (Dashboard.read_all fs) as [out r]. simpl in *. exact IH.
Qed.

(** A file that one of the branches cannot read ends the loop, wherever
    it stands among the files. *)
Lemma read_all_raises (files : list CsvFile) (f : CsvFile) :
  In f files ->
  Dashboard.sniff f <> Dashboard.Unknown ->
  (exists e, (match Dashboard.sniff f with
              | Dashboard.SchemaB => Dashboard.read_schema_B f
              | _ => Dashboard.read_schema_A f
              end) = Raise e) ->
  exists e, snd (Dashboard.read_all files) = Raise e.
Proof.
  intros Hin Hs [e He]. induction files as [| g gs IH]; [contradiction |].
  destruct Hin as [-> | Hin].
  - simpl. destruct (Dashboard.sniff f); [| | congruence]; rewrite He;
      eexists; reflexivity.
  - destruct (IH Hin) as [e' He']. simpl. destruct (Dashboard.sniff g).
    + destruct (Dashboard.read_schema_B g); [| eexists; reflexivity].
      destruct (Dashboard.read_all gs) as [out r]. simpl in *. rewrite He'.
      eexists. reflexivity.
    + destruct (Dashboard.read_schema_A g); [| eexists; reflexivity].
      destruct (Dashboard.read_all gs) as [out r]. simpl in *. rewrite He'.
      eexists. reflexivity.
    + destruct (Dashboard.read_all gs) as [out r]. simpl in *. exists e'. exact He'.
Qed.

End Fatal.

(** C4 (as amended).  The dashboard loader ends in its fatal error
    exactly when it has skipped every file, that is when no file has the
    column [Transaction Date] or the two columns [Date] and [Amount]; a
    file without them is skipped with a warning and the outcome of the
    load is the same as without it.  A file that has the column
    [Transaction Date] is not skipped, whatever its other columns: when
    it lacks [Debit] or [Credit] the load of all files ends in an error
    that is not the fatal error of the loader. *)
Theorem fatal_iff_every_file_skipped `{Externals} (files : list CsvFile) :
  (snd (Normalizer.load_transactions files) = Raise no_valid_csv
   <-> Forall (fun f => Dashboard.sniff f = Dashboard.Unknown) files)
  /\ (forall before f after,
        files = (before ++ f :: after)%list ->
        Dashboard.sniff f = Dashboard.Unknown ->
        snd (Normalizer.load_transactions files)
        = snd (Normalizer.load_transactions (before ++ after)))
  /\ (forall f rest,
        files = f :: rest ->
        Dashboard.sniff f = Dashboard.Unknown ->
        fst (Normalizer.load_transactions files)
        = Dashboard.warning f :: fst (Normalizer.load_transactions rest))
  /\ (forall f,
        In f files ->
        has_column f "Transaction Date" = true ->
        has_column f "Debit" = false \/ has_column f "Credit" = false ->
        Dashboard.sniff f = Dashboard.SchemaB
        /\ exists e, snd (Normalizer.load_transactions files) = Raise e
                     /\ e <> no_valid_csv).
Proof.
  split; [| split; [| split]].
  - rewrite normalizer_parts. cbn [snd]. rewrite <- read_all_empty.
    destruct (snd (Dashboard.read_all files)) as [[| df dfs] | e] eqn:Hr;
      cbn [mbind Result_bind].
    + split; reflexivity.
    + split; [| discriminate]. intros Hfatal.
      apply drop_duplicates_raises in Hfatal. discriminate.
    + split; [| discriminate]. intros [= ->].
      exfalso. exact (read_all_not_fatal _ _ Hr eq_refl).
  - intros before f after -> Hs. rewrite !normalizer_parts. cbn [snd].
    rewrite (read_all_skip_anywhere _ _ _ Hs), (frame_has_skip _ _ _ _ Hs). reflexivity.
  - intros f rest -> Hs. rewrite !normalizer_parts. cbn [fst].
    rewrite (read_all_skip _ _ Hs). reflexivity.
  - intros f Hin Hdate Hlack. apply sniff_B_column in Hdate. split; [exact Hdate |].
    destruct (read_all_raises files f Hin) as [e He].
    + rewrite Hdate. discriminate.
    + rewrite Hdate. exact (read_schema_B_lacks f Hlack).
    + exists e. rewrite normalizer_parts. cbn [snd]. rewrite He.
      split; [reflexivity | exact (read_all_not_fatal _ _ He)].
Qed.

(** C4, the statement as it stands fails: a statement whose only line is
    a payment leaves no record at all, and the load still succeeds, with
    an empty frame. *)
Lemma no_record_and_no_error :
  Normalizer.load_transactions [Examples.payment_file] = ([], Ok []).
Proof. vm_compute. reflexivity. Qed.

(** ** Duplicate elimination *)

Lemma dates_eqb_true (a b : Dates.date) : Dates.eqb a b = true <-> a = b.
Proof.
  unfold Dates.eqb. rewrite !andb_true_iff, !Z.eqb_eq.
  destruct a, b; simpl. split; [intros [[-> ->] ->]; reflexivity |].
  intros [= -> -> ->]. auto.
Qed.

Lemma same_key_true (a b : Txn) : Dashboard.same_key a b = true <-> duplicates a b.
Proof.
  unfold Dashboard.same_key, duplicates, Num.same.
  rewrite !andb_true_iff, dates_eqb_true, String.eqb_eq.
  destruct (Amount a), (Amount b); rewrite ?Qeq_bool_iff; intuition discriminate.
Qed.

Lemma duplicates_refl (a : Txn) : duplicates a a.
Proof. unfold duplicates. destruct (Amount a); repeat split; reflexivity. Qed.

Lemma duplicates_sym (a b : Txn) : duplicates a b -> duplicates b a.
Proof.
  unfold duplicates. intros (Hd & Ha & Hs).
  destruct (Amount a), (Amount b); repeat split; try easy; symmetry; assumption.
Qed.

Lemma duplicates_trans (a b c : Txn) : duplicates a b -> duplicates b c -> duplicates a c.
Proof.
  unfold duplicates. intros (Hd & Ha & Hs) (Hd' & Ha' & Hs').
  destruct (Amount a), (Amount b), (Amount c); repeat split; try easy;
    try congruence. rewrite Ha. exact Ha'.
Qed.

Lemma seen_duplicate (a b : Txn) (seen : list Txn) :
  Dashboard.same_key a b = true ->
  existsb (Dashboard.same_key a) seen = existsb (Dashboard.same_key b) seen.
Proof.
  intros Hab. apply same_key_true in Hab.
  induction seen as [| s seen IH]; simpl; [reflexivity |].
  rewrite IH. f_equal.
  destruct (Dashboard.same_key a s) eqn:Has, (Dashboard.same_key b s) eqn:Hbs;
    try reflexivity.
  - apply same_key_true in Has. assert (Hd : duplicates b s).
    { eapply duplicates_trans; [apply duplicates_sym; exact Hab | exact Has]. }
    apply same_key_true in Hd. congruence.
  - apply same_key_true in Hbs. assert (Hd : duplicates a s).
    { eapply duplicates_trans; [exact Hab | exact Hbs]. }
    apply same_key_true in Hd. congruence.
Qed.

Lemma same_key_sym (a b : Txn) : Dashboard.same_key a b = Dashboard.same_key b a.
Proof.
  destruct (Dashboard.same_key a b) eqn:Hab, (Dashboard.same_key b a) eqn:Hba;
    try reflexivity.
  - apply same_key_true, duplicates_sym, same_key_true in Hab. congruence.
  - apply same_key_true, duplicates_sym, same_key_true in Hba. congruence.
Qed.

(** How many rows with the key of [r] are left. *)
Lemma drop_duplicates_from_count (r : Txn) (df seen : list Txn) :
  length (List.filter (Dashboard.same_key r) (Dashboard.drop_duplicates_from seen df))
  = if existsb (Dashboard.same_key r) seen then 0%nat
    else if existsb (Dashboard.same_key r) df then 1%nat else 0%nat.
Proof.
  revert seen. induction df as [| t df IH]; intros seen; simpl.
  - destruct (existsb (Dashboard.same_key r) seen); reflexivity.
  - destruct (existsb (Dashboard.same_key t) seen) eqn:Hseen.
    + rewrite IH. destruct (existsb (Dashboard.same_key r) seen) eqn:Hr; [reflexivity |].
      destruct (Dashboard.same_key r t) eqn:Hrt; [| reflexivity].
      rewrite (seen_duplicate _ _ _ Hrt) in Hr. congruence.
    + simpl. destruct (Dashboard.same_key r t) eqn:Hrt; simpl; rewrite IH; simpl;
        rewrite Hrt; simpl.
      * rewrite (seen_duplicate _ _ _ Hrt), Hseen. reflexivity.
      * reflexivity.
Qed.

(** The row that is left is the first one of the frame. *)
Lemma drop_duplicates_from_find (r : Txn) (df seen : list Txn) :
  existsb (Dashboard.same_key r) seen = false ->
  List.find (Dashboard.same_key r) (Dashboard.drop_duplicates_from seen df)
  = List.find (Dashboard.same_key r) df.
Proof.
  revert seen. induction df as [| t df IH]; intros seen Hr; simpl; [reflexivity |].
  destruct (existsb (Dashboard.same_key t) seen) eqn:Hseen.
  - destruct (Dashboard.same_key r t) eqn:Hrt.
    + rewrite (seen_duplicate _ _ _ Hrt) in Hr. congruence.
    + apply IH. exact Hr.
  - simpl. destruct (Dashboard.same_key r t) eqn:Hrt; [reflexivity |].
    apply IH. simpl. rewrite Hrt, Hr. reflexivity.
Qed.

Lemma drop_duplicates_from_sublist (df seen : list Txn) :
  sublist (Dashboard.drop_duplicates_from seen df) df.
Proof.
  revert seen. induction df as [| t df IH]; intros seen; simpl; [constructor |].
  destruct (existsb (Dashboard.same_key t) seen).
  - apply sublist_cons. apply IH.
  - apply sublist_skip. apply IH.
Qed.

Lemma existsb_same_key_In (r : Txn) (df : list Txn) :
  In r df -> existsb (Dashboard.same_key r) df = true.
Proof.
  intros Hin. apply existsb_exists. exists r. split; [exact Hin |].
  apply same_key_true. apply duplicates_refl.
Qed.

(** After the duplicate elimination every row of the frame is there
    exactly once by its key, as the first row that has this key. *)
Lemma drop_duplicates_once (df : DataFrame) (r : Txn) :
  In r df ->
  length (List.filter (Dashboard.same_key r) (Dashboard.drop_duplicates df)) = 1%nat
  /\ List.find (Dashboard.same_key r) (Dashboard.drop_duplicates df)
     = List.find (Dashboard.same_key r) df.
Proof.
  intros Hr. unfold Dashboard.drop_duplicates. split.
  - rewrite drop_duplicates_from_count. simpl.
    rewrite (existsb_same_key_In _ _ Hr). reflexivity.
  - apply drop_duplicates_from_find. reflexivity.
Qed.



(** When one of the files that are read has the column [Description],
    the load is the one of [Dashboard.load_transactions]. *)
Lemma normalizer_described `{Externals} (files : list CsvFile) :
  Normalizer.frame_has "Description" files = true ->
  Normalizer.load_transactions files = Dashboard.load_transactions files.
Proof.
  intros Hd. unfold Normalizer.load_transactions, Dashboard.load_transactions.
  destruct (Dashboard.read_all files) as [out [all_dfs | e]]; [| reflexivity].
  cbn [mbind Result_bind]. destruct all_dfs; [reflexivity |].
  rewrite Hd, drop_duplicates_present. reflexivity.
Qed.

(** ** The second format keeps debits only *)

Lemma same_positive (a b : Num.float) : Num.same a b = true -> Num.gt a 0 = Num.gt b 0.
Proof.
  destruct a as [x |], b as [y |]; simpl; try discriminate; [| reflexivity].
  intros E. apply Qeq_bool_iff in E.
  destruct (Num.Qltb 0 x) eqn:Hx, (Num.Qltb 0 y) eqn:Hy; try reflexivity; exfalso.
  - apply Qltb_true in Hx. apply Qltb_false in Hy. lra.
  - apply Qltb_false in Hx. apply Qltb_true in Hy. lra.
Qed.

Lemma same_key_amount (a b : Txn) :
  Dashboard.same_key a b = true -> Num.same (Amount a) (Amount b) = true.
Proof.
  unfold Dashboard.same_key. rewrite !andb_true_iff. tauto.
Qed.

Lemma sublist_In {A : Type} (l1 l2 : list A) (x : A) : sublist l1 l2 -> In x l1 -> In x l2.
Proof.
  induction 1 as [| y l1 l2 _ IH | y l1 l2 _ IH]; simpl; [tauto | | ].
  - intros [-> | Hx]; [left; reflexivity | right; exact (IH Hx)].
  - intros Hx. right. exact (IH Hx).
Qed.

(** C8 (as amended).  On a file of the second format (the three columns
    are there and the transaction dates are in format) that has a
    [Description] column, the frame that the loader returns holds the
    lines whose debit is above 0 and no other line, in the order of the
    file, with the debit as amount: every line with a debit above 0 is
    there exactly once by its key (date, amount, description), a line
    that repeats an earlier one being dropped as its duplicate, and a
    line whose debit is 0 or not a number is not there.  No row of the
    frame has an amount that is not positive, and a file without a
    debit above 0, such as a single payment line, loads as an empty
    frame.  Without a [Description] column a line with a debit above 0
    makes the load raise [KeyError]. *)
Theorem schema_B_keeps_positive_debits `{Externals} (f : CsvFile) :
  Dashboard.sniff f = Dashboard.SchemaB ->
  has_column f "Debit" = true -> has_column f "Credit" = true ->
  dates_parse "%Y-%m-%d" c_Transaction_Date f ->
  let kept := List.filter (fun r => Num.gt (debit r) 0) (rows f) in
  (has_column f "Description" = true \/ kept = [] ->
   exists df,
     Normalizer.load_transactions [f] = ([], Ok df)
     /\ sublist df (map (record_B f) kept)
     /\ (forall r, In r (rows f) ->
           length (List.filter (Dashboard.same_key (record_B f r)) df)
           = if Num.gt (debit r) 0 then 1%nat else 0%nat)
     /\ Forall (fun t => Amount t = Debit t /\ Num.gt (Amount t) 0 = true) df
     /\ (kept = [] -> df = []))
  /\ (has_column f "Description" = false -> kept <> [] ->
      Normalizer.load_transactions [f] = ([], Raise (KeyError "Description"))).
Proof.
  intros Hs Hd Hc Hdates kept.
  pose proof (read_schema_B_ok f Hd Hc Hdates) as Hread. fold kept in Hread.
  assert (Hload : Normalizer.load_transactions [f]
                  = ([], Normalizer.drop_duplicates (has_column f "Description")
                           (map (record_B f) kept))).
  { apply normalizer_single; rewrite Hs; [discriminate | exact Hread]. }
  assert (Hrows : forall t, In t (map (record_B f) kept) ->
                    Amount t = Debit t /\ Num.gt (Amount t) 0 = true).
  { intros t Ht. apply in_map_iff in Ht. destruct Ht as (r & <- & Hr).
    apply List.filter_In in Hr. split; [reflexivity | exact (proj2 Hr)]. }
  split.
  - intros Hcase. exists (Dashboard.drop_duplicates (map (record_B f) kept)).
    assert (Hsub : sublist (Dashboard.drop_duplicates (map (record_B f) kept))
                           (map (record_B f) kept))
      by apply drop_duplicates_from_sublist.
    split; [| split; [exact Hsub | split; [| split]]].
    + rewrite Hload. destruct Hcase as [-> | ->];
        [rewrite drop_duplicates_present |]; reflexivity.
    + intros r Hr. unfold Dashboard.drop_duplicates.
      rewrite drop_duplicates_from_count. cbn [existsb].
      destruct (Num.gt (debit r) 0) eqn:Hpos.
      * rewrite existsb_same_key_In; [reflexivity |].
        apply in_map. apply List.filter_In. auto.
      * destruct (existsb _ (map (record_B f) kept)) eqn:Hex; [| reflexivity].
        exfalso. apply existsb_exists in Hex. destruct Hex as (t & Ht & Hkey).
        apply same_key_amount, same_positive in Hkey.
        destruct (Hrows t Ht) as [_ Hgt]. cbn [record_B Amount] in Hkey. congruence.
    + apply List.Forall_forall. intros t Ht. apply Hrows.
      exact (sublist_In _ _ _ Hsub Ht).
    + intros ->. reflexivity.
  - intros Hnone Hne. rewrite Hload, Hnone.
    destruct (map (record_B f) kept) eqn:Hm; [| reflexivity].
    apply map_eq_nil in Hm. congruence.
Qed.

(** C8, the statement as it stands fails: a statement with just the
    three columns of the second format and a debit above 0 is not turned
    into a transaction, the load raises [KeyError]; and of two equal
    lines with a debit above 0 one is kept. *)
Lemma positive_debit_without_description :
  Dashboard.sniff Cases.bare_statement = Dashboard.SchemaB
  /\ map debit (rows Cases.bare_statement) = [Some (25 # 2)%Q]
  /\ Normalizer.load_transactions [Cases.bare_statement]
     = ([], Raise (KeyError "Description"))
  /\ map debit (rows Cases.twice_statement) = [Some (25 # 2)%Q; Some (25 # 2)%Q]
  /\ (exists df, Normalizer.load_transactions [Cases.twice_statement] = ([], Ok df)
                 /\ map Amount df = [Some (25 # 2)%Q]).
Proof.
  split; [reflexivity |]. split; [reflexivity |]. split; [vm_compute; reflexivity |].
  split; [reflexivity |]. eexists. split; [vm_compute; reflexivity | reflexivity].
Qed.

(** ** Cells that do not parse *)

Lemma sum_skips_NaN {A : Type} (g : A -> Num.float) (l : list A) :
  (Num.sum (map g l) == Num.qsum (omap g l))%Q.
Proof.
  induction l as [| x l IH]; simpl; [reflexivity |].
  destruct (g x); simpl; rewrite IH; reflexivity.
Qed.

(** C3 (as amended).  In a file of the first format whose date cells
    are in format, an amount cell that does not parse becomes NaN and
    the sums run over the amounts that did parse.  [analysis.py] keeps
    every row.  The dashboard loader keeps every row but the duplicates:
    of the rows that agree on date, amount and description it keeps the
    first, and two amounts that did not parse count as the same amount.
    A date cell that is not empty and not in format is not nulled: it
    raises [ValueError], which ends the load of the dashboard and of
    [analysis.py] alike. *)
Theorem bad_amount_is_nulled_bad_date_raises `{Externals} (f : CsvFile) :
  Dashboard.sniff f = Dashboard.SchemaA ->
  (dates_parse "%m/%d/%Y" c_Date f ->
   let read := map (record_A f) (rows f) in
   Dashboard.read_schema_A f = Ok read
   /\ map Amount read = map (fun r => to_numeric (c_Amount r)) (rows f)
   /\ (Num.sum (map Amount read)
       == Num.qsum (omap (fun r => to_numeric (c_Amount r)) (rows f)))%Q
   /\ (exists df,
         Analysis.load_transactions (Some f) [] = Ok df
         /\ map Amount df = map Amount read)
   /\ (has_column f "Description" = true ->
       exists df,
         Normalizer.load_transactions [f] = ([], Ok df)
         /\ sublist df read
         /\ forall t, In t read ->
              length (List.filter (Dashboard.same_key t) df) = 1%nat
              /\ List.find (Dashboard.same_key t) df
                 = List.find (Dashboard.same_key t) read))
  /\ (Exists (fun r => c_Date r <> "" /\ to_datetime "%m/%d/%Y" (c_Date r) = None)
             (rows f) ->
      forall rest,
        (exists msg,
           snd (Normalizer.load_transactions (f :: rest)) = Raise (ValueError msg))
        /\ (exists msg,
             Analysis.load_transactions None (f :: rest) = Raise (ValueError msg))).
Proof.
  intros Hs. destruct (sniff_A_columns f Hs) as [Hd Ha]. split.
  - intros Hdates read. pose proof (read_schema_A_ok f Hdates) as Hread.
    split; [exact Hread |].
    split; [unfold read; rewrite map_map; reflexivity |].
    split; [unfold read; rewrite map_map; cbn [record_A Amount]; apply sum_skips_NaN |].
    split.
    + eexists. split; [exact (analysis_read_file_ok None f Hd Ha Hdates) |].
      unfold read. rewrite !map_map. reflexivity.
    + intros Hdesc. exists (Dashboard.drop_duplicates read). split; [| split].
      * rewrite (normalizer_single f read); [| rewrite Hs; discriminate
                                             | rewrite Hs; exact Hread].
        rewrite Hdesc, drop_duplicates_present. reflexivity.
      * apply drop_duplicates_from_sublist.
      * intros t Ht. exact (drop_duplicates_once read t Ht).
  - intros Hex rest.
    assert (Hex' : Exists (fun r => to_datetime "%m/%d/%Y" (c_Date r) = None) (rows f)).
    { eapply List.Exists_impl; [| exact Hex]. intros r [_ Hr]. exact Hr. }
    split.
    + destruct (read_schema_A_raises f Hex') as [msg Hmsg]. exists msg.
      unfold Normalizer.load_transactions. simpl. rewrite Hs, Hmsg. reflexivity.
    + destruct (analysis_read_file_raises (Some (stem f)) f Hd Hex') as [msg Hmsg].
      exists msg. unfold Analysis.load_transactions. simpl. rewrite Hmsg. reflexivity.
Qed.

(** C3, the statement as it stands fails: a date that is not in format
    does abort the run, in both loaders; in the second format a debit
    that is not a number is turned into 0, which drops the line with the
    payments (only the purchase is left of three lines); and of two
    lines of the same day and merchant whose amounts did not parse, the
    dashboard loader retains one. *)
Lemma field_failure_can_abort_or_drop :
  to_datetime "%m/%d/%Y" "2024-01-06" = None
  /\ (exists msg, snd (Normalizer.load_transactions [Examples.bad_date_file])
                  = Raise (ValueError msg))
  /\ (exists msg, Analysis.load_transactions None [Examples.bad_date_file]
                  = Raise (ValueError msg))
  /\ to_numeric "n/a" = None
  /\ (exists df, snd (Normalizer.load_transactions [Examples.statement_file]) = Ok df
                 /\ map Description df = ["COFFEE"])
  /\ length (rows Cases.pending_file) = 2%nat
  /\ (exists df, snd (Normalizer.load_transactions [Cases.pending_file]) = Ok df
                 /\ map Amount df = [None]).
Proof.
  split; [reflexivity |]. split; [eexists; vm_compute; reflexivity |].
  split; [eexists; vm_compute; reflexivity |]. split; [reflexivity |].
  split; [eexists; split; [vm_compute; reflexivity | reflexivity] |].
  split; [reflexivity |].
  eexists. split; [vm_compute; reflexivity | reflexivity].
Qed.

(** ** Rounding *)

Lemma rint_error (q : Q) :
  (- (1 # 2) <= inject_Z (Num.rint q) - q <= 1 # 2)%Q.
Proof.
  unfold Num.rint.
  pose proof (Qfloor_le q) as Hlo. pose proof (Qlt_floor q) as Hhi.
  rewrite inject_Z_plus in Hhi. change (inject_Z 1) with 1%Q in Hhi.
  destruct (Qlt_le_dec (q - inject_Z (Qfloor q)) (1 # 2)) as [Hlt | Hge];
    [lra |].
  destruct (Qlt_le_dec (1 # 2) (q - inject_Z (Qfloor q))) as [Hgt | Hle];
    [| destruct (Z.even (Qfloor q))];
    rewrite ?inject_Z_plus; change (inject_Z 1) with 1%Q; lra.
Qed.

Lemma rint_comp (p q : Q) : (p == q)%Q -> Num.rint p = Num.rint q.
Proof.
  intros Hpq. unfold Num.rint. rewrite (Qfloor_comp _ _ Hpq).
  destruct (Qlt_le_dec (p - inject_Z (Qfloor q)) (1 # 2)) as [H1 | H1],
           (Qlt_le_dec (q - inject_Z (Qfloor q)) (1 # 2)) as [H2 | H2];
    try reflexivity; try lra.
  destruct (Qlt_le_dec (1 # 2) (p - inject_Z (Qfloor q))) as [H3 | H3],
           (Qlt_le_dec (1 # 2) (q - inject_Z (Qfloor q))) as [H4 | H4];
    try reflexivity; lra.
Qed.

Lemma round_dp_comp (n : nat) (p q : Q) :
  (p == q)%Q -> (Num.round_dp n p == Num.round_dp n q)%Q.
Proof.
  intros Hpq. unfold Num.round_dp.
  rewrite (rint_comp (p * inject_Z (10 ^ Z.of_nat n)) (q * inject_Z (10 ^ Z.of_nat n))).
  - reflexivity.
  - rewrite Hpq. reflexivity.
Qed.

(** Rounding to one decimal place moves a number by at most 0.05. *)
Lemma round_1_error (q : Q) :
  (- (1 # 20) <= Num.round_dp 1 q - q <= 1 # 20)%Q.
Proof.
  unfold Num.round_dp. change (inject_Z (10 ^ Z.of_nat 1)) with 10%Q.
  pose proof (rint_error (q * 10)) as Hr.
  set (z := inject_Z (Num.rint (q * 10))) in *.
  assert (Hdiv : (z / 10 == z * (1 # 10))%Q) by (unfold Qdiv; reflexivity).
  rewrite Hdiv. lra.
Qed.

(** ** The category table *)

Lemma qsum_Permutation (l l' : list Q) :
  Permutation l l' -> (Num.qsum l == Num.qsum l')%Q.
Proof.
  induction 1 as [| x l l' _ IH | x y l | l l' l'' _ IH1 _ IH2]; simpl.
  - reflexivity.
  - rewrite IH. reflexivity.
  - lra.
  - rewrite IH1. exact IH2.
Qed.

Lemma filter_Permutation {A : Type} (P : A -> bool) (l l' : list A) :
  Permutation l l' -> Permutation (List.filter P l) (List.filter P l').
Proof.
  induction 1 as [| x l l' _ IH | x y l | l l' l'' _ IH1 _ IH2]; simpl.
  - reflexivity.
  - destruct (P x); [apply perm_skip |]; exact IH.
  - destruct (P x), (P y); try reflexivity. apply perm_swap.
  - rewrite IH1. exact IH2.
Qed.

Lemma qsum_positive (l : list Q) :
  l <> [] -> Forall (fun x => (0 < x)%Q) l -> (0 < Num.qsum l)%Q.
Proof.
  intros Hne Hall. destruct l as [| x l]; [congruence |].
  inversion Hall as [| ? ? Hx Hrest]; subst. simpl.
  assert (Hge : (0 <= Num.qsum l)%Q).
  { clear Hne Hall Hx. induction Hrest as [| y l Hy _ IH]; simpl; lra. }
  lra.
Qed.

Lemma table_row_Total (P : Q) (b : string * (Q * Z * Num.float)) :
  Analysis.Total (table_row P b) = fst (fst (snd b))
  /\ Analysis.Percent (table_row P b) = Analysis.percent P (fst (fst (snd b))).
Proof. destruct b as [c [[total count] average]]. split; reflexivity. Qed.

(** The table is the sort of the lines built from the groups. *)
Lemma category_breakdown_rows (df : DataFrame) (purchases_only : bool) :
  exists bd : list (string * (Q * Z * Num.float)),
    Analysis.category_breakdown df purchases_only
    = Num.sort_by (fun a b => Num.Qleb (Analysis.Total b) (Analysis.Total a))
        (map (table_row (Analysis.total_positive (map (fun b => fst (fst (snd b))) bd))) bd).
Proof. eexists. unfold Analysis.category_breakdown. reflexivity. Qed.

Lemma positive_rows_total (P : Q) (bd : list (string * (Q * Z * Num.float))) :
  map Analysis.Total (positive_rows (map (table_row P) bd))
  = List.filter (fun t => Num.Qltb 0 t) (map (fun b => fst (fst (snd b))) bd).
Proof.
  unfold positive_rows. induction bd as [| b bd IH]; simpl; [reflexivity |].
  rewrite (proj1 (table_row_Total P b)).
  destruct (Num.Qltb 0 (fst (fst (snd b)))); simpl; rewrite IH;
    [rewrite (proj1 (table_row_Total P b)) |]; reflexivity.
Qed.

(** The percents of lines that all use the denominator [P] add up to the
    exact percentage of their totals, up to 0.05 per line. *)
Lemma percent_sum_error (P : Q) (l : list Analysis.CategoryRow) :
  (0 < P)%Q ->
  Forall (fun r => Analysis.Percent r = Analysis.percent P (Analysis.Total r)) l ->
  (- ((1 # 20) * inject_Z (Z.of_nat (length l)))
   <= Num.sum (map Analysis.Percent l) - Num.qsum (map Analysis.Total l) / P * 100
   <= (1 # 20) * inject_Z (Z.of_nat (length l)))%Q.
Proof.
  intros HP Hall. induction Hall as [| r l Hr _ IH].
  - cbn [map length Num.qsum Num.sum]. change (inject_Z (Z.of_nat 0)) with 0%Q.
    assert (H0 : (0 / P * 100 == 0)%Q) by (unfold Qdiv; ring).
    rewrite H0. lra.
  - cbn [map length Num.qsum]. rewrite Hr. unfold Analysis.percent.
    destruct (Qeq_bool P 0) eqn:HP0.
    { apply Qeq_bool_iff in HP0. lra. }
    cbn [Num.sum]. rewrite Nat2Z.inj_succ, <- Z.add_1_r, inject_Z_plus.
    change (inject_Z 1) with 1%Q.
    pose proof (round_1_error (Analysis.Total r / P * 100)) as Hround.
    assert (Hsplit :
      ((Analysis.Total r + Num.qsum (map Analysis.Total l)) / P * 100
       == Analysis.Total r / P * 100 + Num.qsum (map Analysis.Total l) / P * 100)%Q).
    { unfold Qdiv. ring. }
    rewrite Hsplit.
    set (x := (Analysis.Total r / P * 100)%Q) in *.
    set (y := (Num.qsum (map Analysis.Total l) / P * 100)%Q) in *.
    lra.
Qed.

(** C9 (as amended).  In a category table with at least one positive
    total, every percent is the total divided by the sum of the positive
    totals only, times 100 and rounded to one decimal place; the percents
    of the positive lines therefore add up to 100 within 0.05 times the
    number of positive lines (not within 0.1 in general). *)
Theorem percents_add_up_to_100 (df : DataFrame) (purchases_only : bool) :
  let table := Analysis.category_breakdown df purchases_only in
  let positive := positive_rows table in
  positive <> [] ->
  (0 < Num.qsum (map Analysis.Total positive))%Q
  /\ (forall r, In r table ->
        exists p, Analysis.Percent r = Some p
                  /\ (p == Num.round_dp 1
                              (Analysis.Total r
                               / Num.qsum (map Analysis.Total positive) * 100))%Q)
  /\ (Qabs (Num.sum (map Analysis.Percent positive) - 100)
      <= 0.05 * inject_Z (Z.of_nat (length positive)))%Q.
Proof.
  intros table positive Hne.
  destruct (category_breakdown_rows df purchases_only) as [bd Hbd].
  fold table in Hbd.
  set (P := Analysis.total_positive (map (fun b => fst (fst (snd b))) bd)) in *.
  set (U := map (table_row P) bd) in *.
  assert (Hperm : Permutation table U) by (rewrite Hbd; apply sort_by_Permutation).
  assert (Hpos : Permutation positive (positive_rows U))
    by (apply filter_Permutation; exact Hperm).
  assert (Hsum : (Num.qsum (map Analysis.Total positive) == P)%Q).
  { rewrite (qsum_Permutation _ _ (Permutation_map Analysis.Total Hpos)).
    unfold U. rewrite positive_rows_total. reflexivity. }
  assert (Hgt : (0 < Num.qsum (map Analysis.Total positive))%Q).
  { apply qsum_positive.
    - destruct positive; [congruence | discriminate].
    - apply List.Forall_forall. intros x Hx. apply in_map_iff in Hx.
      destruct Hx as (r & <- & Hr). apply List.filter_In in Hr.
      apply Qltb_true. exact (proj2 Hr). }
  assert (HP : (0 < P)%Q) by (rewrite <- Hsum; exact Hgt).
  assert (Hrows : forall r, In r table ->
            Analysis.Percent r = Analysis.percent P (Analysis.Total r)).
  { intros r Hr. apply (Permutation_in _ Hperm) in Hr. unfold U in Hr.
    apply in_map_iff in Hr. destruct Hr as (b & <- & _).
    destruct (table_row_Total P b) as [-> ->]. reflexivity. }
  assert (HP0 : Qeq_bool P 0 = false).
  { destruct (Qeq_bool P 0) eqn:E; [| reflexivity].
    apply Qeq_bool_iff in E. lra. }
  split; [exact Hgt |]. split.
  - intros r Hr. rewrite (Hrows r Hr). unfold Analysis.percent. rewrite HP0.
    eexists. split; [reflexivity |]. apply round_dp_comp. rewrite Hsum. reflexivity.
  - assert (Hall : Forall (fun r => Analysis.Percent r
                                    = Analysis.percent P (Analysis.Total r)) positive).
    { apply List.Forall_forall. intros r Hr. apply Hrows.
      apply List.filter_In in Hr. exact (proj1 Hr). }
    pose proof (percent_sum_error P positive HP Hall) as Herr.
    assert (H100 : (Num.qsum (map Analysis.Total positive) / P * 100 == 100)%Q).
    { rewrite Hsum. field. lra. }
    rewrite H100 in Herr. apply Qabs_Qle_condition.
    set (n := inject_Z (Z.of_nat (length positive))) in *.
    set (total := Num.sum (map Analysis.Percent positive)) in *.
    lra.
Qed.

(** C9, the statement as it stands fails: six categories with the same
    total get 16.7 percent each, which adds up to 100.2. *)
Lemma six_equal_categories_exceed_tolerance :
  let positive := positive_rows (Analysis.category_breakdown Examples.six_categories true) in
  map Analysis.Percent positive
  = [Some 16.7%Q; Some 16.7%Q; Some 16.7%Q; Some 16.7%Q; Some 16.7%Q; Some 16.7%Q]
  /\ (Num.sum (map Analysis.Percent positive) == 100.2)%Q
  /\ ~ (Qabs (Num.sum (map Analysis.Percent positive) - 100) <= 0.1)%Q.
Proof.
  split; [vm_compute; reflexivity |]. split; [vm_compute; reflexivity |].
  vm_compute. intros Hle. apply Hle. reflexivity.
Qed.

(** ** Group keys *)

Section Keys.
Context {K : Type} (eqb : K -> K -> bool).
Hypothesis eqb_eq : forall a b, eqb a b = true <-> a = b.

Lemma unique_In (l : list K) (x : K) : In x (Pandas.unique eqb l) <-> In x l.
Proof.
  induction l as [| k l IH]; simpl; [reflexivity |].
  rewrite List.filter_In, IH. split.
  - intros [-> | [Hx _]]; auto.
  - intros [-> | Hx]; [left; reflexivity |].
    destruct (eqb k x) eqn:E.
    + left. apply eqb_eq. exact E.
    + right. split; [exact Hx | reflexivity].
Qed.

Lemma NoDup_filter {A : Type} (P : A -> bool) (l : list A) :
  List.NoDup l -> List.NoDup (List.filter P l).
Proof.
  induction 1 as [| x l Hx _ IH]; simpl; [constructor |].
  destruct (P x); [| exact IH]. constructor; [| exact IH].
  intros Hin. apply Hx. apply List.filter_In in Hin. exact (proj1 Hin).
Qed.

Lemma unique_NoDup (l : list K) : List.NoDup (Pandas.unique eqb l).
Proof.
  induction l as [| k l IH]; simpl; [constructor |].
  constructor; [| apply NoDup_filter; exact IH].
  intros Hin. apply List.filter_In in Hin. destruct Hin as [_ Hk].
  assert (E : eqb k k = true) by (apply eqb_eq; reflexivity).
  rewrite E in Hk. discriminate.
Qed.

Lemma omap_In {A : Type} (key : A -> option K) (l : list A) (k : K) :
  In k (omap key l) <-> exists r, In r l /\ key r = Some k.
Proof.
  induction l as [| x l IH]; simpl.
  - split; [intros [] | intros (r & [] & _)].
  - destruct (key x) as [k' |] eqn:Hx; simpl; rewrite IH; split.
    + intros [-> | (r & Hr & Hk)]; [exists x; auto | exists r; auto].
    + intros (r & [-> | Hr] & Hk); [left; congruence | right; exists r; auto].
    + intros (r & Hr & Hk). exists r. auto.
    + intros (r & [-> | Hr] & Hk); [congruence | exists r; auto].
Qed.

Lemma group_keys_In {A : Type} (leb : K -> K -> bool) (key : A -> option K)
    (l : list A) (k : K) :
  In k (Pandas.group_keys eqb leb key l) <-> exists r, In r l /\ key r = Some k.
Proof. unfold Pandas.group_keys. rewrite sort_by_In, unique_In. apply omap_In. Qed.

Lemma group_keys_NoDup {A : Type} (leb : K -> K -> bool) (key : A -> option K)
    (l : list A) :
  List.NoDup (Pandas.group_keys eqb leb key l).
Proof.
  unfold Pandas.group_keys.
  eapply Permutation_NoDup; [symmetry; apply sort_by_Permutation | apply unique_NoDup].
Qed.

End Keys.

Lemma period_eqb_eq (a b : Dates.period) : Dates.period_eqb a b = true <-> a = b.
Proof.
  unfold Dates.period_eqb. rewrite andb_true_iff, !Z.eqb_eq.
  destruct a, b; simpl. split; [intros [-> ->]; reflexivity | intros [= -> ->]; auto].
Qed.

Lemma merchant_month_eqb_eq (a b : string * Dates.period) :
  Analysis.merchant_month_eqb a b = true <-> a = b.
Proof.
  unfold Analysis.merchant_month_eqb.
  rewrite andb_true_iff, String.eqb_eq, period_eqb_eq.
  destruct a, b; simpl. split; [intros [-> ->]; reflexivity | intros [= -> ->]; auto].
Qed.

(** ** The table of merchants *)

Lemma monthly_merchant_groups (df : DataFrame) :
  Analysis.monthly_merchant df
  = map (fun k => (k, monthly_amount (fst k) (snd k) df))
        (Pandas.group_keys Analysis.merchant_month_eqb Analysis.merchant_month_leb
           (fun t => Some (Description t, Dates.to_period (Date t))) df).
Proof.
  unfold Analysis.monthly_merchant, Pandas.groupby. rewrite map_map.
  apply map_ext. intros [m p]. reflexivity.
Qed.

Lemma merchant_group (m : string) (df : DataFrame) :
  List.filter (fun r : string * Dates.period * Q =>
                 option_eqb String.eqb (Some (fst (fst r))) (Some m))
              (Analysis.monthly_merchant df)
  = map (fun k => (k, monthly_amount (fst k) (snd k) df)) (merchant_months m df).
Proof. rewrite monthly_merchant_groups, filter_map_commute. reflexivity. Qed.

(** The lines of [merchant_frequency]: one per merchant of the frame. *)
Lemma merchant_frequency_rows (df : DataFrame) (row : Analysis.MerchantRow) :
  In row (Analysis.merchant_frequency df)
  <-> exists m, (exists t, In t df /\ Description t = m) /\ row = merchant_row m df.
Proof.
  unfold Analysis.merchant_frequency, Pandas.groupby. rewrite map_map, in_map_iff.
  split.
  - intros (m & <- & Hm). exists m. split.
    + apply (group_keys_In String.eqb String.eqb_eq) in Hm.
      destruct Hm as (r & Hr & Hk). injection Hk as Hk.
      rewrite monthly_merchant_groups in Hr. apply in_map_iff in Hr.
      destruct Hr as (k & <- & Hin).
      apply (group_keys_In _ merchant_month_eqb_eq) in Hin.
      destruct Hin as (t & Ht & Hkt). injection Hkt as <-.
      exists t. split; [exact Ht | exact Hk].
    + cbn [fst snd]. rewrite merchant_group. unfold merchant_row, merchant_amounts.
      rewrite !map_map, !length_map. reflexivity.
  - intros (m & (t & Ht & Hd) & ->). exists m. split.
    + cbn [fst snd]. rewrite merchant_group. unfold merchant_row, merchant_amounts.
      rewrite !map_map, !length_map. reflexivity.
    + apply (group_keys_In String.eqb String.eqb_eq).
      exists (Description t, Dates.to_period (Date t), monthly_amount (Description t)
                (Dates.to_period (Date t)) df).
      split; [| cbn [fst]; rewrite Hd; reflexivity].
      rewrite monthly_merchant_groups.
      apply (in_map (fun k => (k, monthly_amount (fst k) (snd k) df))
                    _ (Description t, Dates.to_period (Date t))).
      apply (group_keys_In _ merchant_month_eqb_eq). exists t. auto.
Qed.

Lemma merchant_months_In (m : string) (df : DataFrame) (k : string * Dates.period) :
  In k (merchant_months m df)
  <-> fst k = m /\ exists t, In t df /\ Description t = m
                             /\ Dates.to_period (Date t) = snd k.
Proof.
  unfold merchant_months.
  rewrite List.filter_In, (group_keys_In _ merchant_month_eqb_eq), String.eqb_eq.
  destruct k as [m' p]. cbn [fst snd]. split.
  - intros [(t & Ht & Hk) ->]. injection Hk as Hd Hp. split; [reflexivity |].
    exists t. auto.
  - intros [-> (t & Ht & Hd & Hp)]. split; [| reflexivity].
    exists t. split; [exact Ht |]. rewrite Hd, Hp. reflexivity.
Qed.

Lemma NoDup_map_snd {A B : Type} (a : A) (l : list (A * B)) :
  List.NoDup l -> (forall k, In k l -> fst k = a) -> List.NoDup (map snd l).
Proof.
  induction 1 as [| k l Hk _ IH]; intros Hfst; simpl; [constructor |].
  constructor.
  - intros Hin. apply in_map_iff in Hin. destruct Hin as (k' & Hs & Hk').
    apply Hk. replace k with k'; [exact Hk' |].
    destruct k as [x y], k' as [x' y']. simpl in Hs. subst y'.
    f_equal. transitivity a; [apply (Hfst (x', y)); right; exact Hk' |].
    symmetry. apply (Hfst (x, y)). left. reflexivity.
  - apply IH. intros k' Hk'. apply Hfst. right. exact Hk'.
Qed.

(** The number of groups of a merchant is the number of distinct months
    in which it appears. *)
Lemma merchant_months_count (m : string) (df : DataFrame) (months : list Dates.period) :
  appears_in_months m df months ->
  Permutation (map snd (merchant_months m df)) months.
Proof.
  intros [Hnd Hmonths]. apply Permutation.NoDup_Permutation; [| exact Hnd |].
  - apply (NoDup_map_snd m).
    + apply NoDup_filter. apply (group_keys_NoDup _ merchant_month_eqb_eq).
    + intros k Hk. apply merchant_months_In in Hk. exact (proj1 Hk).
  - intros p. rewrite Hmonths, in_map_iff. split.
    + intros (k & <- & Hk). apply merchant_months_In in Hk. exact (proj2 Hk).
    + intros Ht. exists (m, p). split; [reflexivity |].
      apply merchant_months_In. split; [reflexivity | exact Ht].
Qed.

(** ** Constant monthly amounts *)

Lemma qsum_constant (a : Q) (l : list Q) :
  Forall (fun x => (x == a)%Q) l ->
  (Num.qsum l == inject_Z (Z.of_nat (length l)) * a)%Q.
Proof.
  induction 1 as [| x l Hx _ IH].
  - cbn [Num.qsum length]. change (inject_Z (Z.of_nat 0)) with 0%Q. ring.
  - cbn [Num.qsum length]. rewrite Nat2Z.inj_succ, <- Z.add_1_r, inject_Z_plus.
    change (inject_Z 1) with 1%Q. rewrite IH, Hx. ring.
Qed.

Lemma mean_constant (a : Q) (l : list Q) :
  l <> [] -> Forall (fun x => (x == a)%Q) l ->
  (Num.qsum l / inject_Z (Z.of_nat (length l)) == a)%Q.
Proof.
  intros Hne Hall. rewrite (qsum_constant a l Hall). field.
  destruct l as [| x l]; [congruence |]. cbn [length].
  rewrite Nat2Z.inj_succ, <- Z.add_1_r, inject_Z_plus. change (inject_Z 1) with 1%Q.
  assert (Hn : (0 <= inject_Z (Z.of_nat (length l)))%Q).
  { change 0%Q with (inject_Z 0). rewrite <- Zle_Qle. lia. }
  lra.
Qed.

Lemma deviations_constant (a mu : Q) (l : list Q) :
  (mu == a)%Q -> Forall (fun x => (x == a)%Q) l ->
  (Num.qsum (map (fun x => (x - mu) * (x - mu)) l) == 0)%Q.
Proof.
  intros Hmu. induction 1 as [| x l Hx _ IH]; cbn [map Num.qsum]; [reflexivity |].
  rewrite IH, Hx, Hmu. ring.
Qed.

(** Equal amounts have no spread: the variance is 0 where it is
    defined. *)
Lemma var_constant (a : Q) (l : list Q) :
  Forall (fun x => (x == a)%Q) l ->
  match Num.var l with
  | Some v => (v == 0)%Q
  | None => True
  end.
Proof.
  intros Hall. destruct l as [| x [| y l]]; [exact I | exact I |].
  unfold Num.var.
  rewrite (deviations_constant a); [unfold Qdiv; ring | | exact Hall].
  apply mean_constant; [discriminate | exact Hall].
Qed.

Lemma std_lt_constant (a avg : Q) (l : list Q) :
  Forall (fun x => (x == a)%Q) l -> (avg == a)%Q -> (0 < a)%Q ->
  Num.std_lt (Num.var l) (avg * 0.2) = true.
Proof.
  intros Hall Havg Ha. pose proof (var_constant a l Hall) as Hv.
  assert (Hc : (0 < avg * 0.2)%Q) by lra.
  unfold Num.std_lt. destruct (Num.var l) as [v |].
  - apply andb_true_iff. split; apply Qltb_true; [exact Hc |].
    rewrite Hv. apply Qmult_lt_0_compat; exact Hc.
  - apply Qltb_true. exact Hc.
Qed.

(** ** The recurring-charge detector *)

Lemma flagged_rows (df : DataFrame) (threshold_months : Z) (m : string) :
  In m (flagged df threshold_months)
  <-> exists row, In row (Analysis.merchant_frequency df)
                  /\ Analysis.merchant row = m
                  /\ Analysis.is_recurring threshold_months row = true.
Proof.
  unfold flagged, Analysis.find_recurring_charges. rewrite map_map. cbn [Analysis.merchant].
  rewrite in_map_iff. split.
  - intros (row & Hm & Hin). apply sort_by_In, List.filter_In in Hin.
    exists row. tauto.
  - intros (row & Hin & Hm & Hrec). exists row. split; [exact Hm |].
    apply sort_by_In, List.filter_In. tauto.
Qed.

Lemma merchant_amounts_constant (m : string) (df : DataFrame)
    (months : list Dates.period) (a : Q) :
  appears_in_months m df months ->
  (forall p, In p months -> (monthly_amount m p df == a)%Q) ->
  Forall (fun x => (x == a)%Q) (merchant_amounts m df).
Proof.
  intros Happ Hall. apply List.Forall_forall. intros x Hx.
  unfold merchant_amounts in Hx. apply in_map_iff in Hx.
  destruct Hx as (k & <- & Hk).
  assert (Hp : In (snd k) months).
  { apply (Permutation_in _ (merchant_months_count m df months Happ)).
    apply in_map. exact Hk. }
  apply merchant_months_In in Hk. destruct Hk as [-> _]. apply Hall. exact Hp.
Qed.

(** The boundary of the detector for any threshold of at least one
    month. *)
Lemma detector_boundary_any_threshold (df : DataFrame) (m : string)
    (months : list Dates.period) (threshold_months : Z) :
  appears_in_months m df months ->
  (Z.of_nat (length months) = threshold_months - 1 ->
   ~ In m (flagged df threshold_months))
  /\ (Z.of_nat (length months) = threshold_months -> 1 <= threshold_months ->
      forall a, (forall p, In p months -> (monthly_amount m p df == a)%Q) ->
                (0 < a)%Q ->
                In m (flagged df threshold_months)).
Proof.
  intros Happ.
  assert (Hlen : length (merchant_months m df) = length months).
  { rewrite <- (Permutation_length (merchant_months_count m df months Happ)).
    symmetry. apply length_map. }
  split.
  - intros Hn Hin. apply flagged_rows in Hin. destruct Hin as (row & Hrow & Hm & Hrec).
    apply merchant_frequency_rows in Hrow. destruct Hrow as (m' & _ & ->).
    cbn [merchant_row Analysis.merchant] in Hm. subst m'.
    unfold Analysis.is_recurring in Hrec. apply andb_true_iff in Hrec.
    destruct Hrec as [Hge _]. apply Z.leb_le in Hge.
    cbn [merchant_row Analysis.Months_Present] in Hge. rewrite Hlen in Hge. lia.
  - intros Hn H1 a Hall Ha. apply flagged_rows. exists (merchant_row m df).
    assert (Hne : months <> []) by (destruct months; [simpl in Hn; lia | discriminate]).
    split; [| split; [reflexivity |]].
    + apply merchant_frequency_rows. exists m. split; [| reflexivity].
      destruct months as [| p months']; [congruence |].
      destruct (proj1 (proj2 Happ p) (or_introl eq_refl)) as (t & Ht & Hd & _).
      exists t. auto.
    + unfold Analysis.is_recurring. apply andb_true_iff. split.
      * apply Z.leb_le. cbn [merchant_row Analysis.Months_Present]. rewrite Hlen. lia.
      * cbn [merchant_row Analysis.Var_Amount Analysis.Avg_Amount].
        pose proof (merchant_amounts_constant m df months a Happ Hall) as Hconst.
        apply (std_lt_constant a); [exact Hconst | | exact Ha].
        apply mean_constant; [| exact Hconst].
        unfold merchant_amounts. intros Hnil. apply map_eq_nil in Hnil.
        rewrite Hnil in Hlen. destruct months; [congruence | discriminate].
Qed.



(** * The statements at work on the examples *)




Lemma schema_B_witness :
  (exists df,
     Normalizer.load_transactions [Examples.statement_file] = ([], Ok df)
     /\ Forall (fun t => Amount t = Debit t /\ Num.gt (Amount t) 0 = true) df
     /\ length (List.filter
                  (Dashboard.same_key
                     (record_B Examples.statement_file
                        (mkCsvRow "" "2024-03-01" "" "12.50" "" "COFFEE" "Dining")))
                  df) = 1%nat
     /\ length (List.filter
                  (Dashboard.same_key
                     (record_B Examples.statement_file
                        (mkCsvRow "" "2024-03-02" "" "0" "50.00" "PAYMENT RECEIVED" "Payment")))
                  df) = 0%nat)
  /\ Normalizer.load_transactions [Examples.payment_file] = ([], Ok [])
  /\ Normalizer.load_transactions [Cases.bare_statement]
     = ([], Raise (KeyError "Description")).
Proof.
  split; [| split].
  - assert (Hdates : dates_parse "%Y-%m-%d" c_Transaction_Date Examples.statement_file)
      by (repeat constructor; vm_compute; discriminate).
    pose proof (schema_B_keeps_positive_debits Examples.statement_file
                  eq_refl eq_refl eq_refl Hdates) as Hthm.
    cbv zeta in Hthm. destruct Hthm as [Hkept _].
    destruct Hkept as (df & Hload & _ & Hcount & Hall & _); [left; reflexivity |].
    exists df. split; [exact Hload |]. split; [exact Hall |]. split.
    + apply (Hcount (mkCsvRow "" "2024-03-01" "" "12.50" "" "COFFEE" "Dining")).
      left. reflexivity.
    + apply (Hcount (mkCsvRow "" "2024-03-02" "" "0" "50.00" "PAYMENT RECEIVED" "Payment")).
      right. left. reflexivity.
  - assert (Hdates : dates_parse "%Y-%m-%d" c_Transaction_Date Examples.payment_file)
      by (repeat constructor; vm_compute; discriminate).
    pose proof (schema_B_keeps_positive_debits Examples.payment_file
                  eq_refl eq_refl eq_refl Hdates) as Hthm.
    cbv zeta in Hthm. destruct Hthm as [Hkept _].
    destruct Hkept as (df & Hload & _ & _ & _ & Hempty); [right; reflexivity |].
    rewrite Hload, (Hempty eq_refl). reflexivity.
  - assert (Hdates : dates_parse "%Y-%m-%d" c_Transaction_Date Cases.bare_statement)
      by (repeat constructor; vm_compute; discriminate).
    pose proof (schema_B_keeps_positive_debits Cases.bare_statement
                  eq_refl eq_refl eq_refl Hdates) as Hthm.
    cbv zeta in Hthm. destruct Hthm as [_ Hbare].
    apply Hbare; [reflexivity | discriminate].
Defined.

Lemma fatal_witness :
  snd (Normalizer.load_transactions [Examples.notes_file]) = Raise no_valid_csv
  /\ snd (Normalizer.load_transactions [Examples.notes_file; Examples.netflix_file])
     = snd (Normalizer.load_transactions [Examples.netflix_file])
  /\ fst (Normalizer.load_transactions [Examples.notes_file; Examples.netflix_file])
     = ["Warning: Unknown CSV format in notes.csv, skipping"]
  /\ exists e,
       snd (Normalizer.load_transactions [Examples.netflix_file; Cases.no_debit_file])
       = Raise e
       /\ e <> no_valid_csv.
Proof.
  split; [| split; [| split]].
  - apply (proj1 (fatal_iff_every_file_skipped [Examples.notes_file])).
    repeat constructor.
  - apply (proj1 (proj2 (fatal_iff_every_file_skipped
                           [Examples.notes_file; Examples.netflix_file]))
             [] Examples.notes_file [Examples.netflix_file]); reflexivity.
  - rewrite (proj1 (proj2 (proj2 (fatal_iff_every_file_skipped
                                    [Examples.notes_file; Examples.netflix_file])))
               Examples.notes_file [Examples.netflix_file] eq_refl eq_refl).
    vm_compute. reflexivity.
  - apply (proj2 (proj2 (proj2 (fatal_iff_every_file_skipped
                                  [Examples.netflix_file; Cases.no_debit_file])))
             Cases.no_debit_file).
    + right. left. reflexivity.
    + reflexivity.
    + left. reflexivity.
Defined.


Lemma bad_amount_is_nulled_witness :
  (exists df,
     Normalizer.load_transactions [Examples.bad_amount_file] = ([], Ok df)
     /\ map Amount df = [Some 45%Q; None])
  /\ (exists df,
       Normalizer.load_transactions [Cases.pending_file] = ([], Ok df)
       /\ map Amount df = [None])
  /\ (exists df,
       Analysis.load_transactions (Some Cases.pending_file) [] = Ok df
       /\ map Amount df = [None; None])
  /\ (exists msg,
       snd (Normalizer.load_transactions [Examples.bad_date_file])
       = Raise (ValueError msg)).
Proof.
  split; [| split; [| split]].
  - destruct (bad_amount_is_nulled_bad_date_raises Examples.bad_amount_file eq_refl)
      as [Hgood _].
    destruct Hgood as (_ & _ & _ & _ & Hload).
    + repeat constructor; vm_compute; discriminate.
    + destruct (Hload eq_refl) as (df & Hdf & _). exists df. split; [exact Hdf |].
      rewrite (normalizer_described (H := Concrete.externals) [Examples.bad_amount_file]
                 eq_refl) in Hdf.
      vm_compute in Hdf. injection Hdf as <-. reflexivity.
  - destruct (bad_amount_is_nulled_bad_date_raises Cases.pending_file eq_refl)
      as [Hgood _].
    destruct Hgood as (_ & _ & _ & _ & Hload).
    + repeat constructor; vm_compute; discriminate.
    + destruct (Hload eq_refl) as (df & Hdf & _). exists df. split; [exact Hdf |].
      rewrite (normalizer_described (H := Concrete.externals) [Cases.pending_file]
                 eq_refl) in Hdf.
      vm_compute in Hdf. injection Hdf as <-. reflexivity.
  - destruct (bad_amount_is_nulled_bad_date_raises Cases.pending_file eq_refl)
      as [Hgood _].
    destruct Hgood as (_ & _ & _ & (df & Hdf & Hamounts) & _).
    + repeat constructor; vm_compute; discriminate.
    + exists df. split; [exact Hdf |]. rewrite Hamounts. reflexivity.
  - destruct (bad_amount_is_nulled_bad_date_raises Examples.bad_date_file eq_refl)
      as [_ Hbad].
    destruct (Hbad ltac:(right; left; split; [discriminate | reflexivity]) [])
      as [Hraise _].
    exact Hraise.
Defined.

Lemma percents_witness :
  let positive :=
    positive_rows (Analysis.category_breakdown Examples.six_categories true) in
  (Qabs (Num.sum (map Analysis.Percent positive) - 100)
   <= 0.05 * inject_Z (Z.of_nat (length positive)))%Q.
Proof.
  intros positive.
  apply (percents_add_up_to_100 Examples.six_categories true).
  vm_compute. discriminate.
Defined.


(** * Further properties of the code *)

(** ** Sorting and grouping in general *)

Section Sorting.
Context {A : Type} (leb : A -> A -> bool).
Hypothesis leb_total : forall a b, leb a b = true \/ leb b a = true.
Hypothesis leb_trans : forall a b c, leb a b = true -> leb b c = true -> leb a c = true.

Lemma insert_by_sorted (x : A) (l : list A) :
  StronglySorted (fun a b => leb a b = true) l ->
  StronglySorted (fun a b => leb a b = true) (Num.insert_by leb x l).
Proof.
  induction 1 as [| y l Hs IH Hy]; simpl.
  - constructor; constructor.
  - destruct (leb x y) eqn:Hxy.
    + constructor; [constructor; assumption |].
      constructor; [exact Hxy |].
      eapply List.Forall_impl; [| exact Hy]. intros z Hz. exact (leb_trans _ _ _ Hxy Hz).
    + constructor; [exact IH |].
      assert (Hyx : leb y x = true) by (destruct (leb_total x y); congruence).
      apply List.Forall_forall. intros z Hz.
      apply (Permutation_in _ (insert_by_Permutation leb x l)) in Hz.
      destruct Hz as [<- | Hz]; [exact Hyx |].
      exact (proj1 (List.Forall_forall _ _) Hy z Hz).
Qed.

Lemma sort_by_sorted (l : list A) :
  StronglySorted (fun a b => leb a b = true) (Num.sort_by leb l).
Proof.
  induction l as [| x l IH]; simpl; [constructor |].
  apply insert_by_sorted. exact IH.
Qed.

End Sorting.

Lemma filter_disjoint_Permutation {A : Type} (p q : A -> bool) (l : list A) :
  (forall x, In x l -> p x && q x = false) ->
  Permutation (List.filter (fun x => p x || q x) l) (List.filter p l ++ List.filter q l).
Proof.
  induction l as [| x l IH]; intros Hdis; simpl; [reflexivity |].
  assert (IH' := IH (fun y Hy => Hdis y (or_intror Hy))).
  pose proof (Hdis x (or_introl eq_refl)) as Hx.
  destruct (p x), (q x); simpl in *; try discriminate.
  - apply perm_skip. exact IH'.
  - rewrite IH'. apply Permutation_middle.
  - exact IH'.
Qed.

Section Partition.
Context {A K : Type} (eqb : K -> K -> bool).
Hypothesis eqb_eq : forall a b, eqb a b = true <-> a = b.

Lemma groups_Permutation (key : A -> option K) (ks : list K) (l : list A) :
  List.NoDup ks ->
  Permutation (concat (map (group_of eqb key l) ks)) (List.filter (keyed_in eqb key ks) l).
Proof.
  induction 1 as [| k ks Hk _ IH]; simpl.
  - unfold keyed_in. induction l as [| r l IHl]; simpl; [reflexivity |].
    destruct (key r); exact IHl.
  - rewrite IH. unfold group_of. symmetry.
    rewrite <- (filter_disjoint_Permutation
                  (fun r => option_eqb eqb (key r) (Some k)) (keyed_in eqb key ks)).
    + apply Permutation_refl'. apply filter_ext. intros r. unfold keyed_in.
      destruct (key r) as [k' |]; reflexivity.
    + intros r _. unfold keyed_in. destruct (key r) as [k' |]; simpl; [| reflexivity].
      destruct (eqb k' k) eqn:E; [| reflexivity]. apply eqb_eq in E. subst k'.
      destruct (existsb (eqb k) ks) eqn:Ex; [| reflexivity].
      exfalso. apply Hk. apply existsb_exists in Ex. destruct Ex as (k' & Hin & E').
      apply eqb_eq in E'. subst. exact Hin.
Qed.

(** The groups of [groupby] are a partition of the rows that have a
    key: nothing is lost, nothing is counted twice. *)
Lemma groupby_Permutation (leb : K -> K -> bool) (key : A -> option K) (l : list A) :
  Permutation (concat (map snd (Pandas.groupby eqb leb key l)))
              (List.filter (fun r => match key r with Some _ => true | None => false end) l).
Proof.
  unfold Pandas.groupby. rewrite map_map. cbn [snd].
  change (fun k => List.filter (fun r => option_eqb eqb (key r) (Some k)) l)
    with (group_of eqb key l).
  rewrite (groups_Permutation key _ l (group_keys_NoDup eqb eqb_eq leb key l)).
  apply Permutation_refl'. apply filter_ext_in. intros r Hr. unfold keyed_in.
  destruct (key r) as [k |] eqn:Hk; [| reflexivity].
  apply existsb_exists. exists k. split; [| apply eqb_eq; reflexivity].
  apply (group_keys_In eqb eqb_eq). exists r. auto.
Qed.

End Partition.

(** ** Summary statistics *)

(** Reads one key of the dictionary of [get_summary_stats]. *)
Ltac read_stats :=
  unfold Analysis.get_summary_stats;
  repeat (rewrite lookup_insert_ne; [| discriminate]);
  apply lookup_insert_eq.

Lemma rows_by_sign (df : DataFrame) :
  Permutation df (above_zero df ++ below_zero df ++ no_sign df).
Proof.
  unfold above_zero, below_zero, no_sign.
  induction df as [| t df IH]; [reflexivity |].
  cbn [List.filter]. unfold Num.gt, Num.lt. destruct (Amount t) as [q |].
  - destruct (Num.Qltb 0 q) eqn:Hpos, (Num.Qltb q 0) eqn:Hneg,
             (Qeq_bool q 0) eqn:Hzero;
      rewrite ?Qltb_true, ?Qltb_false in *;
      first [apply Qeq_bool_iff in Hzero | apply Qeq_bool_neq in Hzero];
      try lra.
    + cbn [app]. constructor. exact IH.
    + apply Permutation_cons_app. exact IH.
    + rewrite app_assoc. apply Permutation_cons_app. rewrite <- app_assoc. exact IH.
  - rewrite app_assoc. apply Permutation_cons_app. rewrite <- app_assoc. exact IH.
Qed.

(** X1.  In the dictionary of [get_summary_stats], [purchase_count] is
    the number of rows with an amount above 0, [refund_count] the number
    of rows with an amount below 0 and [transaction_count] the number of
    all rows; the rows that are neither (amount 0 or NaN) make up
    the difference.  Without a purchase, [avg_transaction] and
    [median_transaction] are the integer 0. *)
Theorem summary_counts_add_up (df : DataFrame) :
  let stats := Analysis.get_summary_stats df in
  let rows_of (l : DataFrame) := Some (Analysis.PyInt (Z.of_nat (length l))) in
  stats !! "purchase_count" = rows_of (above_zero df)
  /\ stats !! "refund_count" = rows_of (below_zero df)
  /\ stats !! "transaction_count" = rows_of df
  /\ Permutation df (above_zero df ++ below_zero df ++ no_sign df)
  /\ (length (above_zero df) + length (below_zero df) + length (no_sign df)
      = length df)%nat
  /\ (above_zero df = [] ->
      stats !! "avg_transaction" = Some (Analysis.PyInt 0)
      /\ stats !! "median_transaction" = Some (Analysis.PyInt 0)).
Proof.
  intros stats rows_of. unfold stats, rows_of.
  split; [read_stats |]. split; [read_stats |]. split; [read_stats |].
  split; [apply rows_by_sign |]. split.
  - pose proof (Permutation_length (rows_by_sign df)) as Hlen.
    rewrite !length_app in Hlen. lia.
  - intros Hnone. unfold above_zero in Hnone.
    split; unfold Analysis.get_summary_stats; rewrite Hnone;
      repeat (rewrite lookup_insert_ne; [| discriminate]);
      apply lookup_insert_eq.
Qed.

(** ** The span of the dates *)

Lemma max_date_bound (ds : list Dates.date) (hi : Dates.date) :
  Dates.max_date ds = Some hi ->
  In hi ds /\ forall d, In d ds -> Dates.to_days d <= Dates.to_days hi.
Proof.
  destruct ds as [| d0 ds]; [discriminate |]. simpl. intros [= <-].
  assert (Hgen : forall l m,
            (In (fold_left (fun m x => if Dates.leb m x then x else m) l m) (m :: l))
            /\ Dates.to_days m
               <= Dates.to_days (fold_left (fun m x => if Dates.leb m x then x else m) l m)
            /\ forall d, In d l ->
                 Dates.to_days d
                 <= Dates.to_days (fold_left (fun m x => if Dates.leb m x then x else m) l m)).
  { induction l as [| x l IH]; intros m; simpl.
    - split; [left; reflexivity | split; [lia | intros d []]].
    - destruct (IH (if Dates.leb m x then x else m)) as (Hin & Hm & Hall).
      unfold Dates.leb in *. destruct (Z.leb_spec (Dates.to_days m) (Dates.to_days x)).
      + split; [right; exact Hin |]. split; [lia |].
        intros d [<- | Hd]; [exact Hm | exact (Hall d Hd)].
      + split; [destruct Hin as [<- | Hin]; [left; reflexivity | right; right; exact Hin] |].
        split; [exact Hm |].
        intros d [<- | Hd]; [lia | exact (Hall d Hd)]. }
  destruct (Hgen ds d0) as (Hin & Hm & Hall). split; [exact Hin |].
  intros d [<- | Hd]; [exact Hm | exact (Hall d Hd)].
Qed.

Lemma min_date_bound (ds : list Dates.date) (lo : Dates.date) :
  Dates.min_date ds = Some lo ->
  In lo ds /\ forall d, In d ds -> Dates.to_days lo <= Dates.to_days d.
Proof.
  destruct ds as [| d0 ds]; [discriminate |]. simpl. intros [= <-].
  assert (Hgen : forall l m,
            (In (fold_left (fun m x => if Dates.leb x m then x else m) l m) (m :: l))
            /\ Dates.to_days (fold_left (fun m x => if Dates.leb x m then x else m) l m)
               <= Dates.to_days m
            /\ forall d, In d l ->
                 Dates.to_days (fold_left (fun m x => if Dates.leb x m then x else m) l m)
                 <= Dates.to_days d).
  { induction l as [| x l IH]; intros m; simpl.
    - split; [left; reflexivity | split; [lia | intros d []]].
    - destruct (IH (if Dates.leb x m then x else m)) as (Hin & Hm & Hall).
      unfold Dates.leb in *. destruct (Z.leb_spec (Dates.to_days x) (Dates.to_days m)).
      + split; [right; exact Hin |]. split; [lia |].
        intros d [<- | Hd]; [exact Hm | exact (Hall d Hd)].
      + split; [destruct Hin as [<- | Hin]; [left; reflexivity | right; right; exact Hin] |].
        split; [exact Hm |].
        intros d [<- | Hd]; [lia | exact (Hall d Hd)]. }
  destruct (Hgen ds d0) as (Hin & Hm & Hall). split; [exact Hin |].
  intros d [<- | Hd]; [exact Hm | exact (Hall d Hd)].
Qed.

(** X2.  [days_covered] is NaN exactly on the empty frame; otherwise it
    is the number of days between two dates of the frame, it is not
    negative, and no two dates of the frame are further apart.  A frame
    whose rows all carry the same date covers 0 days. *)
Theorem days_covered_is_the_span (df : DataFrame) :
  (Analysis.days_covered df = Analysis.PyFloat None <-> df = [])
  /\ (df <> [] ->
      exists first last,
        In first df /\ In last df
        /\ Analysis.days_covered df
           = Analysis.PyInt (Dates.to_days (Date last) - Dates.to_days (Date first))
        /\ 0 <= Dates.to_days (Date last) - Dates.to_days (Date first)
        /\ forall a b, In a df -> In b df ->
             Dates.to_days (Date b) - Dates.to_days (Date a)
             <= Dates.to_days (Date last) - Dates.to_days (Date first)).
Proof.
  unfold Analysis.days_covered. destruct df as [| t df].
  - split; [split; reflexivity | congruence].
  - destruct (Dates.max_date (map Date (t :: df))) as [hi |] eqn:Hhi; [| discriminate].
    destruct (Dates.min_date (map Date (t :: df))) as [lo |] eqn:Hlo; [| discriminate].
    split; [split; discriminate |]. intros _.
    destruct (max_date_bound _ _ Hhi) as (Hin_hi & Hmax).
    destruct (min_date_bound _ _ Hlo) as (Hin_lo & Hmin).
    apply in_map_iff in Hin_hi. destruct Hin_hi as (last & <- & Hlast).
    apply in_map_iff in Hin_lo. destruct Hin_lo as (first & <- & Hfirst).
    exists first, last. split; [exact Hfirst |]. split; [exact Hlast |].
    split; [reflexivity |]. split.
    + pose proof (Hmin _ (in_map Date _ _ Hlast)). lia.
    + intros a b Ha Hb.
      pose proof (Hmin _ (in_map Date _ _ Ha)). pose proof (Hmax _ (in_map Date _ _ Hb)). lia.
Qed.

(** ** Monthly totals *)

Lemma period_leb_total (a b : Dates.period) :
  Dates.period_leb a b = true \/ Dates.period_leb b a = true.
Proof.
  unfold Dates.period_leb. destruct a as [y m], b as [y' m']. cbn [fst snd].
  destruct (Z.ltb_spec y y'), (Z.ltb_spec y' y), (Z.eqb_spec y y'), (Z.eqb_spec y' y),
    (Z.leb_spec m m'), (Z.leb_spec m' m); simpl; auto; lia.
Qed.

Lemma period_leb_trans (a b c : Dates.period) :
  Dates.period_leb a b = true -> Dates.period_leb b c = true ->
  Dates.period_leb a c = true.
Proof.
  unfold Dates.period_leb. destruct a as [y m], b as [y' m'], c as [y'' m'']. cbn [fst snd].
  rewrite !orb_true_iff, !andb_true_iff, !Z.ltb_lt, !Z.eqb_eq, !Z.leb_le. lia.
Qed.

Lemma period_leb_lt (a b : Dates.period) :
  Dates.period_leb a b = true -> a <> b -> period_lt a b.
Proof.
  unfold Dates.period_leb, period_lt. destruct a as [y m], b as [y' m']. cbn [fst snd].
  rewrite orb_true_iff, andb_true_iff, Z.ltb_lt, Z.eqb_eq, Z.leb_le.
  intros [Hlt | [-> Hle]] Hne; [left; exact Hlt | right].
  split; [reflexivity |]. destruct (Z.eq_dec m m') as [-> | Hm]; [congruence | lia].
Qed.

Lemma sorted_NoDup_strict {A : Type} (leb : A -> A -> bool) (lt : A -> A -> Prop)
    (l : list A) :
  (forall a b, leb a b = true -> a <> b -> lt a b) ->
  StronglySorted (fun a b => leb a b = true) l -> List.NoDup l ->
  StronglySorted lt l.
Proof.
  intros Hlt. induction 1 as [| x l Hs IH Hx]; intros Hnd; [constructor |].
  inversion Hnd as [| ? ? Hnotin Hnd']; subst.
  constructor; [apply IH; exact Hnd' |].
  apply List.Forall_forall. intros y Hy. apply Hlt.
  - exact (proj1 (List.Forall_forall _ _) Hx y Hy).
  - intros ->. exact (Hnotin Hy).
Qed.

Lemma with_changes_months (prev : option Q)
    (groups : list (Dates.period * (Q * Z * Num.float))) :
  map Analytics.Month (Analytics.with_changes prev groups) = map fst groups.
Proof.
  revert prev. induction groups as [| [m [[total count] average]] groups IH]; intros prev;
    simpl; [reflexivity |]. rewrite IH. reflexivity.
Qed.

Lemma month_groups_keys (df : DataFrame) (purchases_only : bool) :
  map fst (Analytics.month_groups df purchases_only)
  = Pandas.group_keys Dates.period_eqb Dates.period_leb
      (fun t => Some (Dates.to_period (Date t))) (selected df purchases_only).
Proof.
  unfold Analytics.month_groups, Pandas.groupby, selected. rewrite !map_map.
  cbn [fst]. apply map_id.
Qed.

(** X3.  The table of [monthly_totals] has one line for every calendar
    month in which a selected row falls and no other line, in strictly
    chronological order: a month without rows is not filled in, so a
    change is always measured against the previous month that has rows. *)
Theorem monthly_totals_months (df : DataFrame) (purchases_only : bool) :
  let months := map Analytics.Month (Analytics.monthly_totals df purchases_only) in
  StronglySorted period_lt months
  /\ forall m, In m months
               <-> exists t, In t (selected df purchases_only)
                             /\ Dates.to_period (Date t) = m.
Proof.
  intros months. unfold months, Analytics.monthly_totals.
  rewrite with_changes_months, month_groups_keys. split.
  - apply (sorted_NoDup_strict Dates.period_leb).
    + exact period_leb_lt.
    + apply sort_by_sorted; [exact period_leb_total | exact period_leb_trans].
    + apply (group_keys_NoDup _ period_eqb_eq).
  - intros m. rewrite (group_keys_In _ period_eqb_eq). split.
    + intros (t & Ht & [= <-]). exists t. auto.
    + intros (t & Ht & <-). exists t. auto.
Qed.

Lemma with_changes_adjacent (prev : option Q)
    (groups : list (Dates.period * (Q * Z * Num.float)))
    (above : list Analytics.MonthRow) (a b : Analytics.MonthRow)
    (below : list Analytics.MonthRow) :
  Analytics.with_changes prev groups = (above ++ a :: b :: below)%list ->
  Analytics.Change b = Some (Analytics.Total b - Analytics.Total a)%Q
  /\ Analytics.Change_Pct b
     = if Qeq_bool (Analytics.Total a) 0 then None
       else Some ((Analytics.Total b / Analytics.Total a - 1) * 100)%Q.
Proof.
  revert prev above.
  induction groups as [| [m [[total count] average]] groups IH]; intros prev above Heq.
  - destruct above; discriminate.
  - simpl in Heq. destruct above as [| r above].
    + simpl in Heq. injection Heq as <- Hrest.
      destruct groups as [| [m' [[total' count'] average']] groups]; [discriminate |].
      simpl in Hrest. injection Hrest as <- _. simpl. split; reflexivity.
    + simpl in Heq. injection Heq as _ Hrest. exact (IH _ _ Hrest).
Qed.


(** ** Counts over groups *)

Lemma count_app (l1 l2 : list Num.float) :
  Num.count (l1 ++ l2) = Num.count l1 + Num.count l2.
Proof.
  induction l1 as [| [q |] l1 IH]; simpl; rewrite ?IH; lia.
Qed.

Lemma count_Permutation (l l' : list Num.float) :
  Permutation l l' -> Num.count l = Num.count l'.
Proof.
  induction 1 as [| x l l' _ IH | x y l | l l' l'' _ IH1 _ IH2]; simpl.
  - reflexivity.
  - destruct x; rewrite IH; reflexivity.
  - destruct x, y; lia.
  - congruence.
Qed.

Lemma count_concat (groups : list DataFrame) :
  zsum (map (fun g => Num.count (map Amount g)) groups)
  = Num.count (map Amount (concat groups)).
Proof.
  induction groups as [| g groups IH]; simpl; [reflexivity |].
  rewrite map_app, count_app, IH. reflexivity.
Qed.

(** The counts of the groups of a [groupby] add up to the count of the
    rows that have a key. *)
Lemma groupby_count {K : Type} (eqb leb : K -> K -> bool)
    (eqb_eq : forall a b, eqb a b = true <-> a = b)
    (key : Txn -> option K) (df : DataFrame) :
  zsum (map (fun g : K * DataFrame => Num.count (map Amount (snd g)))
            (Pandas.groupby eqb leb key df))
  = Num.count (map Amount
                 (List.filter (fun r => match key r with Some _ => true | None => false end)
                              df)).
Proof.
  rewrite <- (count_Permutation _ _
                (Permutation_map Amount (groupby_Permutation eqb eqb_eq leb key df))).
  rewrite <- count_concat, map_map. reflexivity.
Qed.

Lemma filter_all {A : Type} (l : list A) : List.filter (fun _ => true) l = l.
Proof. induction l as [| x l IH]; simpl; [reflexivity | rewrite IH; reflexivity]. Qed.

Lemma count_purchases (df : DataFrame) :
  Num.count (map Amount (List.filter (fun t => Num.gt (Amount t) 0) df))
  = Z.of_nat (length (List.filter (fun t => Num.gt (Amount t) 0) df)).
Proof.
  induction df as [| t df IH]; simpl; [reflexivity |].
  destruct (Num.gt (Amount t) 0) eqn:Hg; [| exact IH].
  cbn [map length Num.count]. unfold Num.gt in Hg.
  destruct (Amount t); [| discriminate]. rewrite IH. lia.
Qed.

Lemma with_changes_counts (prev : option Q)
    (groups : list (Dates.period * (Q * Z * Num.float))) :
  map Analytics.Count (Analytics.with_changes prev groups)
  = map (fun g => snd (fst (snd g))) groups.
Proof.
  revert prev. induction groups as [| [m [[total count] average]] groups IH]; intros prev;
    simpl; [reflexivity |]. rewrite IH. reflexivity.
Qed.

(** X5.  The [Count] column of [monthly_totals] adds up to the number of
    selected rows that have an amount; for the purchases this is the
    [purchase_count] of [get_summary_stats]: every purchase is counted in
    exactly one month. *)
Theorem monthly_counts_add_up (df : DataFrame) (purchases_only : bool) :
  zsum (map Analytics.Count (Analytics.monthly_totals df purchases_only))
  = Num.count (map Amount (selected df purchases_only))
  /\ Analysis.get_summary_stats df !! "purchase_count"
     = Some (Analysis.PyInt (zsum (map Analytics.Count (Analytics.monthly_totals df true)))).
Proof.
  assert (Hsum : forall po,
            zsum (map Analytics.Count (Analytics.monthly_totals df po))
            = Num.count (map Amount (selected df po))).
  { intros po. unfold Analytics.monthly_totals. rewrite with_changes_counts.
    unfold Analytics.month_groups. fold (selected df po). rewrite map_map. cbn [fst snd].
    rewrite (groupby_count _ _ period_eqb_eq). rewrite filter_all. reflexivity. }
  split; [apply Hsum |].
  rewrite Hsum. unfold selected. rewrite count_purchases. read_stats.
Qed.

(** ** Top merchants *)

Lemma StronglySorted_app {A : Type} (R : A -> A -> Prop) (l1 l2 : list A) :
  StronglySorted R (l1 ++ l2) ->
  StronglySorted R l1 /\ forall a b, In a l1 -> In b l2 -> R a b.
Proof.
  induction l1 as [| x l1 IH]; simpl; intros Hs.
  - split; [constructor | intros a b []].
  - inversion Hs as [| ? ? Hs' Hx]; subst. destruct (IH Hs') as [Hs1 Hcross].
    split.
    + constructor; [exact Hs1 |]. apply List.Forall_forall. intros y Hy.
      apply (proj1 (List.Forall_forall _ _) Hx). apply in_or_app. left. exact Hy.
    + intros a b [<- | Ha] Hb; [| exact (Hcross a b Ha Hb)].
      apply (proj1 (List.Forall_forall _ _) Hx). apply in_or_app. right. exact Hb.
Qed.

Lemma StronglySorted_weaken {A : Type} (R R' : A -> A -> Prop) (l : list A) :
  (forall a b, R a b -> R' a b) -> StronglySorted R l -> StronglySorted R' l.
Proof.
  intros HR. induction 1 as [| x l _ IH Hx]; constructor; [exact IH |].
  eapply List.Forall_impl; [| exact Hx]. intros y. apply HR.
Qed.

Lemma merchant_table_sorted (df : DataFrame) :
  StronglySorted (fun a b => (Analytics.Spent b <= Analytics.Spent a)%Q)
                 (Analytics.merchant_table df).
Proof.
  unfold Analytics.merchant_table.
  eapply StronglySorted_weaken;
    [| apply (sort_by_sorted (fun a b => Num.Qleb (Analytics.Spent b) (Analytics.Spent a)))].
  - intros a b Hab. apply Qleb_true. exact Hab.
  - intros a b. rewrite !Qleb_true.
    destruct (Qlt_le_dec (Analytics.Spent a) (Analytics.Spent b)); [right | left]; lra.
  - intros a b c. rewrite !Qleb_true. lra.
Qed.

Lemma merchant_table_names (df : DataFrame) :
  Permutation (map Analytics.Merchant (Analytics.merchant_table df))
              (Pandas.group_keys String.eqb Str.leb (fun t => Some (Description t)) df).
Proof.
  unfold Analytics.merchant_table.
  rewrite (Permutation_map _ (sort_by_Permutation _ _)).
  unfold Pandas.groupby. rewrite !map_map. cbn [Analytics.Merchant fst]. rewrite map_id.
  reflexivity.
Qed.


(** ** Days of the week *)

Lemma day_name_in_order (d : Dates.date) : In (Analytics.day_name d) Analytics.day_order.
Proof.
  unfold Analytics.day_name.
  pose proof (Z.mod_pos_bound (Dates.to_days d + 3) 7 ltac:(lia)) as Hb.
  apply nth_In. simpl. lia.
Qed.

Lemma find_by_label {V : Type} (f : string -> V) (ks : list string) (label : string) :
  List.find (fun g : string * V => String.eqb (fst g) label) (map (fun k => (k, f k)) ks)
  = if existsb (String.eqb label) ks then Some (label, f label) else None.
Proof.
  induction ks as [| k ks IH]; [reflexivity |].
  cbn [map List.find existsb fst]. rewrite (String.eqb_sym label k).
  destruct (String.eqb_spec k label) as [-> | Hne]; [reflexivity | exact IH].
Qed.

Lemma day_groups_find (df : DataFrame) (label : string) :
  List.find (fun g : string * (Q * Z * Num.float) => String.eqb (fst g) label)
            (Analytics.day_groups df)
  = match on_day df label with
    | [] => None
    | rows => Some (label, (Num.round_dp 2 (Num.sum (map Amount rows)),
                            Num.count (map Amount rows),
                            Num.round_float 2 (Num.mean (map Amount rows))))
    end.
Proof.
  unfold Analytics.day_groups, Pandas.groupby. rewrite map_map. cbn [fst snd].
  change (fun k => List.filter
            (fun r => option_eqb String.eqb (Some (Analytics.day_name (Date r))) (Some k)) df)
    with (on_day df).
  rewrite (find_by_label
             (fun k => (Num.round_dp 2 (Num.sum (map Amount (on_day df k))),
                        Num.count (map Amount (on_day df k)),
                        Num.round_float 2 (Num.mean (map Amount (on_day df k)))))).
  pose proof (group_keys_In String.eqb String.eqb_eq Str.leb
                (fun t : Txn => Some (Analytics.day_name (Date t))) df label) as Hkeys.
  destruct (existsb (String.eqb label) _) eqn:Hex.
  - destruct (on_day df label) as [| t rows] eqn:Hrows; [| reflexivity].
    exfalso. apply existsb_exists in Hex. destruct Hex as (k & Hk & Hkl).
    apply String.eqb_eq in Hkl. subst k. apply Hkeys in Hk.
    destruct Hk as (t & Ht & [= Hday]).
    assert (Hin : In t (on_day df label)).
    { apply List.filter_In. split; [exact Ht | apply String.eqb_eq; exact Hday]. }
    rewrite Hrows in Hin. exact Hin.
  - destruct (on_day df label) as [| t rows] eqn:Hrows; [reflexivity |].
    exfalso. assert (Hin : In t (on_day df label)) by (rewrite Hrows; left; reflexivity).
    apply List.filter_In in Hin. destruct Hin as [Ht Hday]. apply String.eqb_eq in Hday.
    assert (Hk : In label (Pandas.group_keys String.eqb Str.leb
                             (fun t : Txn => Some (Analytics.day_name (Date t))) df)).
    { apply Hkeys. exists t. split; [exact Ht | congruence]. }
    assert (Hex' : existsb (String.eqb label)
                     (Pandas.group_keys String.eqb Str.leb
                        (fun t : Txn => Some (Analytics.day_name (Date t))) df) = true).
    { apply existsb_exists. exists label. split; [exact Hk | apply String.eqb_refl]. }
    congruence.
Qed.

(** The line of one day. *)
Lemma day_row (df : DataFrame) (label : string) :
  Analytics.reindex [label] (Analytics.day_groups df)
  = [ match on_day df label with
      | [] => Analytics.mkDayRow label None None None
      | rows => Analytics.mkDayRow label
                  (Some (Num.round_dp 2 (Num.sum (map Amount rows))))
                  (Some (Num.count (map Amount rows)))
                  (Num.round_float 2 (Num.mean (map Amount rows)))
      end ].
Proof.
  unfold Analytics.reindex. cbn [map]. rewrite day_groups_find.
  destruct (on_day df label); reflexivity.
Qed.

Lemma reindex_rows (df : DataFrame) (labels : list string) :
  Analytics.reindex labels (Analytics.day_groups df)
  = concat (map (fun label => Analytics.reindex [label] (Analytics.day_groups df)) labels).
Proof.
  induction labels as [| label labels IH]; [reflexivity |].
  cbn [map concat]. rewrite <- IH. reflexivity.
Qed.

Lemma day_order_NoDup : List.NoDup Analytics.day_order.
Proof. repeat constructor; simpl; intuition discriminate. Qed.

(** X7.  [day_of_week_analysis] always returns seven lines, Monday to
    Sunday.  A day on which no row of the frame falls has NaN in every
    column (not 0); any other day has the rounded sum, the count and the
    rounded mean of the amounts of its rows.  Every row of the frame is
    counted on exactly one of the seven lines. *)
Theorem day_of_week_table (df : DataFrame) :
  let table := Analytics.day_of_week_analysis df in
  map Analytics.DayOfWeek table = Analytics.day_order
  /\ (forall row, In row table ->
        let rows := on_day df (Analytics.DayOfWeek row) in
        (rows = [] ->
         Analytics.DayTotal row = None /\ Analytics.DayCount row = None
         /\ Analytics.DayAverage row = None)
        /\ (rows <> [] ->
            Analytics.DayTotal row = Some (Num.round_dp 2 (Num.sum (map Amount rows)))
            /\ Analytics.DayCount row = Some (Num.count (map Amount rows))
            /\ Analytics.DayAverage row = Num.round_float 2 (Num.mean (map Amount rows))))
  /\ zsum (map (fun row => counted (Analytics.DayCount row)) table)
     = Num.count (map Amount df).
Proof.
  intros table.
  assert (Hrow : forall row, In row table ->
            row = match on_day df (Analytics.DayOfWeek row) with
                  | [] => Analytics.mkDayRow (Analytics.DayOfWeek row) None None None
                  | rows => Analytics.mkDayRow (Analytics.DayOfWeek row)
                              (Some (Num.round_dp 2 (Num.sum (map Amount rows))))
                              (Some (Num.count (map Amount rows)))
                              (Num.round_float 2 (Num.mean (map Amount rows)))
                  end).
  { intros row Hin. unfold table, Analytics.day_of_week_analysis in Hin.
    rewrite reindex_rows in Hin. apply in_concat in Hin.
    destruct Hin as (one & Hone & Hin). apply in_map_iff in Hone.
    destruct Hone as (label & <- & _). rewrite day_row in Hin.
    destruct Hin as [<- | []]. destruct (on_day df label) eqn:Hrows; cbn [Analytics.DayOfWeek];
      rewrite Hrows; reflexivity. }
  split; [| split].
  - unfold table, Analytics.day_of_week_analysis, Analytics.reindex. rewrite map_map.
    erewrite map_ext; [apply map_id |]. intros label. cbn beta.
    destruct (List.find _ _) as [[? [[? ?] ?]] |]; reflexivity.
  - intros row Hin rows. specialize (Hrow row Hin). fold rows in Hrow. split.
    + intros Hnil. rewrite Hnil in Hrow. rewrite Hrow. repeat split; reflexivity.
    + intros Hne. destruct rows as [| t rows'] eqn:E; [congruence |].
      rewrite Hrow. repeat split; reflexivity.
  - transitivity (zsum (map (fun label => Num.count (map Amount (on_day df label)))
                            Analytics.day_order)).
    + unfold table, Analytics.day_of_week_analysis.
      induction Analytics.day_order as [| label labels IH]; [reflexivity |].
      change (Analytics.reindex (label :: labels) (Analytics.day_groups df))
        with (Analytics.reindex [label] (Analytics.day_groups df)
              ++ Analytics.reindex labels (Analytics.day_groups df))%list.
      rewrite day_row. cbn [app map zsum fold_right]. fold (zsum
        (map (fun row => counted (Analytics.DayCount row))
             (Analytics.reindex labels (Analytics.day_groups df)))).
      rewrite IH. f_equal. destruct (on_day df label); reflexivity.
    + rewrite (count_concat (map (on_day df) Analytics.day_order)) at 1.
      * change (on_day df)
          with (group_of String.eqb (fun t : Txn => Some (Analytics.day_name (Date t))) df).
        rewrite (count_Permutation _ _
                   (Permutation_map Amount
                      (groups_Permutation String.eqb String.eqb_eq _ _ df day_order_NoDup))).
        f_equal. f_equal. erewrite filter_ext_in; [apply filter_all |].
        intros t _. unfold keyed_in. apply existsb_exists.
        exists (Analytics.day_name (Date t)).
        split; [apply day_name_in_order | apply String.eqb_refl].
Qed.

(** ** Impulse spending *)

Lemma zsum_cons (x : Z) (l : list Z) : zsum (x :: l) = x + zsum l.
Proof. reflexivity. Qed.

Lemma length_concat_sum {A : Type} (groups : list (list A)) :
  zsum (map (fun g => Z.of_nat (length g)) groups) = Z.of_nat (length (concat groups)).
Proof.
  induction groups as [| g groups IH]; [reflexivity |].
  cbn [map concat]. rewrite zsum_cons, length_app, IH. lia.
Qed.

Lemma group_sizes_sum {K A : Type} (groups : list (K * list A)) :
  zsum (map (fun g => Z.of_nat (length (snd g))) groups)
  = Z.of_nat (length (concat (map snd groups))).
Proof. rewrite <- length_concat_sum, map_map. reflexivity. Qed.

Lemma busy_groups_bound {K : Type} (l : list (K * Z)) :
  Forall (fun g => 0 <= snd g) l ->
  3 * Z.of_nat (length (List.filter (fun g => (3 <=? snd g)%Z) l)) <= zsum (map snd l).
Proof.
  induction 1 as [| g l Hg _ IH]; [cbn; lia |].
  cbn [map List.filter]. rewrite zsum_cons.
  destruct (Z.leb_spec 3 (snd g)); cbn [length]; lia.
Qed.

Lemma day_category_eqb_eq (a b : Dates.date * string) :
  Analytics.day_category_eqb a b = true <-> a = b.
Proof.
  unfold Analytics.day_category_eqb.
  rewrite andb_true_iff, dates_eqb_true, String.eqb_eq.
  destruct a, b; simpl. split; [intros [-> ->]; reflexivity | intros [= -> ->]; auto].
Qed.

(** X8.  Every (day, category) pair that [detect_impulse_spending]
    counts as a high frequency day stands for at least three rows of
    its own: three times the count is at most the number of rows that
    have a category.  Rows without a category are never counted. *)
Theorem high_frequency_days_bound (df : DataFrame) :
  0 <= Analytics.high_frequency_days (Analytics.detect_impulse_spending df)
  /\ 3 * Analytics.high_frequency_days (Analytics.detect_impulse_spending df)
     <= Z.of_nat (length (List.filter
                            (fun t => match Category t with Some _ => true | None => false end)
                            df)).
Proof.
  cbn [Analytics.detect_impulse_spending Analytics.high_frequency_days]. split; [lia |].
  etransitivity; [apply busy_groups_bound |].
  - unfold Analytics.daily_counts. apply List.Forall_forall. intros g Hg.
    apply in_map_iff in Hg. destruct Hg as (g' & <- & _). cbn [snd]. lia.
  - unfold Analytics.daily_counts. rewrite map_map. cbn [snd].
    rewrite (group_sizes_sum (K := Dates.date * string) (A := Txn)).
    rewrite (Permutation_length
               (groupby_Permutation _ day_category_eqb_eq _ _ df)).
    apply Z.eq_le_incl. f_equal. f_equal. apply filter_ext. intros t.
    destruct (Category t); reflexivity.
Qed.

Lemma filter_length_compare {A : Type} (p q : A -> bool) (l : list A) :
  (forall x, p x = true -> q x = true) ->
  (length (List.filter p l) <= length (List.filter q l))%nat
  /\ (length (List.filter p l) = length (List.filter q l)
      <-> forall x, In x l -> q x = true -> p x = true).
Proof.
  intros Hpq. induction l as [| a l [IHle IHeq]]; cbn [List.filter].
  - split; [lia |]. split; [intros _ x [] | reflexivity].
  - destruct (p a) eqn:Hp, (q a) eqn:Hq; cbn [length].
    + split; [lia |]. split.
      * intros Hlen x [<- | Hin] Hx; [exact Hp |]. apply IHeq; [lia | exact Hin | exact Hx].
      * intros Hall. f_equal. apply IHeq. intros x Hin. apply Hall. right. exact Hin.
    + rewrite (Hpq a Hp) in Hq. discriminate.
    + split; [lia |]. split; [lia |].
      intros Hall. specialize (Hall a (or_introl eq_refl) Hq). congruence.
    + split; [exact IHle |]. split.
      * intros Hlen x [<- | Hin] Hx; [congruence |]. apply IHeq; assumption.
      * intros Hall. apply IHeq. intros x Hin. apply Hall. right. exact Hin.
Qed.

(** X9.  [detect_impulse_spending] takes every amount below 20 for a
    small transaction, refunds included: the count of small transactions
    lies between the [refund_count] and the [transaction_count] of
    [get_summary_stats]; it is the [transaction_count] exactly when
    every row has an amount and that amount is below 20, and the
    [refund_count] exactly when no amount of the frame lies from 0 up
    to 20. *)
Theorem small_transactions (df : DataFrame) :
  let report := Analytics.detect_impulse_spending df in
  exists refunded all,
    Analysis.get_summary_stats df !! "refund_count" = Some (Analysis.PyInt refunded)
    /\ Analysis.get_summary_stats df !! "transaction_count" = Some (Analysis.PyInt all)
    /\ refunded <= Analytics.small_transaction_count report <= all
    /\ (Analytics.small_transaction_count report = all
        <-> forall t, In t df -> exists q, Amount t = Some q /\ (q < 20)%Q)
    /\ (Analytics.small_transaction_count report = refunded
        <-> forall t q, In t df -> Amount t = Some q -> (q < 20)%Q -> (q < 0)%Q).
Proof.
  intros report. do 2 eexists. split; [read_stats |]. split; [read_stats |].
  cbn [report Analytics.detect_impulse_spending Analytics.small_transaction_count].
  destruct (filter_length_compare (fun t : Txn => Num.lt (Amount t) 0)
              (fun t : Txn => Num.lt (Amount t) 20) df) as [Hle1 Heq1].
  { intros t. unfold Num.lt. destruct (Amount t) as [q |]; [| discriminate].
    rewrite !Qltb_true. lra. }
  destruct (filter_length_compare (fun t : Txn => Num.lt (Amount t) 20)
              (fun _ : Txn => true) df) as [Hle2 Heq2]; [reflexivity |].
  rewrite filter_all in Hle2, Heq2.
  split; [lia |]. split.
  - rewrite Nat2Z.inj_iff, Heq2. split.
    + intros Hall t Hin. specialize (Hall t Hin eq_refl). unfold Num.lt in Hall.
      destruct (Amount t) as [q |]; [| discriminate].
      exists q. split; [reflexivity |]. apply Qltb_true. exact Hall.
    + intros Hall t Hin _. destruct (Hall t Hin) as (q & -> & Hq).
      apply Qltb_true. exact Hq.
  - rewrite Nat2Z.inj_iff. split.
    + intros Hlen t q Hin Ha Hq. symmetry in Hlen.
      pose proof (proj1 Heq1 Hlen t Hin) as Ht. unfold Num.lt in Ht. rewrite Ha in Ht.
      apply Qltb_true, Ht, Qltb_true. exact Hq.
    + intros Hall. symmetry. apply Heq1. intros t Hin. unfold Num.lt.
      destruct (Amount t) as [q |] eqn:Ha; [| discriminate].
      rewrite !Qltb_true. apply (Hall t q Hin Ha).
Qed.

(** ** The loader of the analysis module *)

Section Directory.
Context `{Externals}.

Lemma analysis_read_file_error (source : option string) (f : CsvFile) (e : Exception) :
  Analysis.read_file source f = Raise e ->
  (exists name, e = KeyError name) \/ (exists msg, e = ValueError msg).
Proof.
  unfold Analysis.read_file, column.
  destruct (has_column f "Date"); cbn [mbind Result_bind];
    [| intros [= <-]; left; eexists; reflexivity].
  destruct (mapM _ (rows f)) as [dated | e'] eqn:Hm; cbn [mbind Result_bind].
  - destruct (has_column f "Amount"); cbn [mbind Result_bind];
      [discriminate | intros [= <-]; left; eexists; reflexivity].
  - intros [= <-]. apply mapM_Raise_inv in Hm. destruct Hm as (r & _ & Hr).
    unfold parse_date in Hr. destruct (to_datetime "%m/%d/%Y" (c_Date r));
      cbn [mbind Result_bind] in Hr; [discriminate |].
    injection Hr as <-. right. eexists. reflexivity.
Qed.

Lemma analysis_read_file_unreadable (source : option string) (f : CsvFile) :
  has_column f "Date" = false \/ has_column f "Amount" = false
  \/ Exists (fun r => to_datetime "%m/%d/%Y" (c_Date r) = None) (rows f) ->
  exists e, Analysis.read_file source f = Raise e.
Proof.
  intros Hbad. destruct (has_column f "Date") eqn:Hd.
  - destruct (List.Exists_dec (fun r => to_datetime "%m/%d/%Y" (c_Date r) = None) (rows f))
      as [Hex | Hall].
    { intros r. destruct (to_datetime "%m/%d/%Y" (c_Date r)); [right | left]; congruence. }
    + destruct (analysis_read_file_raises source f Hd Hex) as [msg Hmsg].
      eexists. exact Hmsg.
    + destruct Hbad as [Hbad | [Ha | Hex]]; [discriminate | | contradiction].
      unfold Analysis.read_file, column. rewrite Hd, Ha. cbn [mbind Result_bind].
      destruct (mapM _ (rows f)); cbn [mbind Result_bind]; eexists; reflexivity.
  - unfold Analysis.read_file, column. rewrite Hd. eexists. reflexivity.
Qed.

End Directory.


(** ** The dictionary of the dashboard *)

Lemma option_string_eqb_eq (a b : option string) :
  option_eqb String.eqb a b = true <-> a = b.
Proof.
  destruct a as [a |], b as [b |]; simpl; rewrite ?String.eqb_eq;
    split; congruence.
Qed.

Lemma spending_rows_In (df : DataFrame) (t : Txn) (q : Q) :
  In (t, q) (Dashboard.spending_rows df)
  <-> In t df /\ Amount t = Some q /\ (0 < q)%Q.
Proof.
  unfold Dashboard.spending_rows. rewrite omap_In. split.
  - intros (r & Hr & Hrec). destruct (Amount r) as [x |] eqn:Ha; [| discriminate].
    destruct (Num.Qltb 0 x) eqn:Hx; [| discriminate].
    injection Hrec as <- <-. apply Qltb_true in Hx. auto.
  - intros (Hin & Ha & Hq). exists t. split; [exact Hin |].
    rewrite Ha. apply Qltb_true in Hq. rewrite Hq. reflexivity.
Qed.

Lemma spending_rows_purchases (df : DataFrame) :
  map fst (Dashboard.spending_rows df) = purchases df.
Proof.
  unfold Dashboard.spending_rows, purchases, Num.gt.
  induction df as [| t df IH]; simpl; [reflexivity |].
  destruct (Amount t) as [x |]; simpl; [| exact IH].
  unfold Num.Qltb in *. destruct (Qlt_le_dec 0 x); simpl; [f_equal |]; exact IH.
Qed.

Lemma spending_rows_amounts (df : DataFrame) :
  Forall (fun tq : Txn * Q => Amount (fst tq) = Some (snd tq)) (Dashboard.spending_rows df).
Proof.
  apply List.Forall_forall. intros [t q] Hin. apply spending_rows_In in Hin. tauto.
Qed.

Lemma categorised_purchase_record (df : DataFrame) :
  omap categorised (Dashboard.spending_rows df) = omap purchase_record df.
Proof.
  unfold Dashboard.spending_rows, categorised, purchase_record.
  induction df as [| t df IH]; simpl; [reflexivity |].
  destruct (Amount t) as [x |]; simpl.
  - unfold Num.Qltb in *. destruct (Qlt_le_dec 0 x); simpl.
    + destruct (Category t); simpl; [f_equal |]; exact IH.
    + destruct (Category t); exact IH.
  - exact IH.
Qed.

(** *** The sorted categories *)

Lemma NoDup_two {A : Type} (l : list A) (x y : A) :
  In x l -> In y l -> x <> y -> (2 <= length l)%nat.
Proof.
  destruct l as [| a [| b l]]; simpl; try lia; try tauto.
  intros [<- | []] [<- | []] Hne. congruence.
Qed.

Lemma two_elements {A : Type} (l : list A) :
  List.NoDup l -> (2 <= length l)%nat -> forall x, In x l -> exists y, In y l /\ y <> x.
Proof.
  intros Hnd Hlen x Hx. destruct l as [| a [| b l]]; simpl in Hlen; try lia.
  inversion Hnd as [| ? ? Ha _]; subst.
  assert (Hab : a <> b). { intros ->. apply Ha. left. reflexivity. }
  destruct Hx as [<- | Hx].
  - exists b. split; [right; left; reflexivity | congruence].
  - exists a. split; [left; reflexivity |]. intros ->. apply Ha. exact Hx.
Qed.

Lemma existsb_None (u : list (option string)) :
  existsb (fun c => match c with None => true | Some _ => false end) u = true <-> In None u.
Proof.
  rewrite existsb_exists. split.
  - intros ([c |] & Hin & Hc); [discriminate | exact Hin].
  - intros Hin. exists None. auto.
Qed.

Lemma sorted_categories_raises (cats : list (option string)) :
  (exists e, Dashboard.sorted_categories cats = Raise e)
  <-> In None cats /\ exists c, In (Some c) cats.
Proof.
  unfold Dashboard.sorted_categories.
  set (u := Pandas.unique (option_eqb String.eqb) cats).
  assert (Hin : forall x, In x u <-> In x cats)
    by (intros x; apply (unique_In _ option_string_eqb_eq)).
  assert (Hnd : List.NoDup u) by apply (unique_NoDup _ option_string_eqb_eq).
  destruct (existsb _ u) eqn:Hnone; cbn [andb].
  - apply existsb_None in Hnone.
    destruct (1 <? length u)%nat eqn:Hlen.
    + split; [| intros _; eexists; reflexivity]. intros _.
      apply Nat.ltb_lt in Hlen.
      split; [apply Hin; exact Hnone |].
      destruct (two_elements u Hnd Hlen None Hnone) as ([c |] & Hy & Hne); [| congruence].
      exists c. apply Hin. exact Hy.
    + split; [intros [e He]; discriminate |]. intros (_ & c & Hc).
      apply Nat.ltb_ge in Hlen. apply Hin in Hc.
      pose proof (NoDup_two u None (Some c) Hnone Hc). 
      assert (2 <= length u)%nat by (apply H; discriminate). lia.
  - split; [intros [e He]; discriminate |]. intros (Hn & _).
    apply Hin, existsb_None in Hn. congruence.
Qed.

Lemma sorted_categories_error (cats : list (option string)) (e : Exception) :
  Dashboard.sorted_categories cats = Raise e -> exists msg, e = TypeError msg.
Proof.
  unfold Dashboard.sorted_categories. destruct (_ && _); [| discriminate].
  intros [= <-]. eexists. reflexivity.
Qed.

Lemma omap_id_Some {A : Type} (l : list A) : omap id (map Some l) = l.
Proof. induction l as [| x l IH]; simpl; [reflexivity | f_equal; exact IH]. Qed.

Lemma omap_id_None {A : Type} (l : list (option A)) :
  omap id (List.filter (fun c => match c with None => true | _ => false end) l) = [].
Proof.
  induction l as [| [x |] l IH]; simpl; auto.
Qed.

Lemma omap_id_NoDup {A : Type} (l : list (option A)) :
  List.NoDup l -> List.NoDup (omap id l).
Proof.
  induction 1 as [| [x |] l Hx _ IH]; simpl; [constructor | | exact IH].
  constructor; [| exact IH]. intros Hin. apply Hx.
  apply omap_In in Hin. destruct Hin as ([y |] & Hy & Hid); simpl in Hid; [| discriminate].
  injection Hid as ->. exact Hy.
Qed.

Lemma omap_id_In {A : Type} (l : list (option A)) (x : A) :
  In x (omap id l) <-> In (Some x) l.
Proof.
  rewrite omap_In. split.
  - intros ([y |] & Hy & Hid); simpl in Hid; [| discriminate].
    injection Hid as ->. exact Hy.
  - intros Hin. exists (Some x). auto.
Qed.

Lemma sorted_categories_names (cats sorted : list (option string)) :
  Dashboard.sorted_categories cats = Ok sorted ->
  List.NoDup (omap id sorted) /\ forall c, In c (omap id sorted) <-> In (Some c) cats.
Proof.
  unfold Dashboard.sorted_categories.
  set (u := Pandas.unique (option_eqb String.eqb) cats).
  destruct (_ && _); [discriminate |]. intros [= <-].
  rewrite omap_app, omap_id_Some, omap_id_None, app_nil_r.
  split.
  - apply (Permutation_NoDup (l := omap id u)).
    + symmetry. apply sort_by_Permutation.
    + apply omap_id_NoDup. apply (unique_NoDup _ option_string_eqb_eq).
  - intros c. rewrite sort_by_In, omap_id_In. apply (unique_In _ option_string_eqb_eq).
Qed.

(** *** One month *)

Lemma omap_cons {A B : Type} (f : A -> option B) (x : A) (l : list A) :
  omap f (x :: l) = match f x with Some y => y :: omap f l | None => omap f l end.
Proof. reflexivity. Qed.

Lemma categorised_group (c : string) (md : list (Txn * Q)) :
  omap categorised (group_of String.eqb (fun tq => Category (fst tq)) md c)
  = map (fun tq => (c, Dashboard.to_record tq))
        (group_of String.eqb (fun tq => Category (fst tq)) md c).
Proof.
  unfold group_of. induction md as [| tq md IH]; simpl; [reflexivity |].
  destruct (option_eqb String.eqb (Category (fst tq)) (Some c)) eqn:E; [| exact IH].
  apply option_string_eqb_eq in E. simpl. unfold categorised at 1. rewrite E.
  simpl. f_equal. exact IH.
Qed.

Lemma month_entry_listed (cats : list (option string)) (md : list (Txn * Q)) :
  listed_in (Dashboard.month_entry cats md)
  = flat_map (fun c => omap categorised
                         (group_of String.eqb (fun tq => Category (fst tq)) md c))
             (omap id cats).
Proof.
  unfold listed_in, Dashboard.month_entry. cbn [Dashboard.md_categories].
  induction cats as [| [c |] cats IH]; [reflexivity | | exact IH].
  rewrite !omap_cons. unfold id at 1. cbn [flat_map].
  rewrite categorised_group, <- IH. unfold group_of.
  destruct (List.filter _ md) as [| tq g] eqn:Hg; [reflexivity |].
  cbn [flat_map fst snd Dashboard.cd_transactions]. rewrite map_map. reflexivity.
Qed.

Lemma omap_concat {A B : Type} (f : A -> option B) (ls : list (list A)) :
  omap f (concat ls) = concat (map (omap f) ls).
Proof.
  induction ls as [| l ls IH]; [reflexivity |].
  cbn [concat map]. rewrite omap_app, IH. reflexivity.
Qed.

Lemma omap_filter_kept {A B : Type} (f : A -> option B) (p : A -> bool) (l : list A) :
  (forall x, In x l -> p x = false -> f x = None) ->
  omap f (List.filter p l) = omap f l.
Proof.
  induction l as [| x l IH]; intros Hp; [reflexivity |].
  assert (IH' := IH (fun y Hy => Hp y (or_intror Hy))).
  cbn [List.filter]. destruct (p x) eqn:E.
  - rewrite !omap_cons, IH'. reflexivity.
  - rewrite omap_cons, (Hp x (or_introl eq_refl) E). exact IH'.
Qed.

Lemma month_listed_Permutation (cats : list (option string)) (md : list (Txn * Q)) :
  List.NoDup (omap id cats) ->
  (forall tq c, In tq md -> Category (fst tq) = Some c -> In c (omap id cats)) ->
  Permutation (listed_in (Dashboard.month_entry cats md)) (omap categorised md).
Proof.
  intros Hnd Hall. rewrite month_entry_listed, flat_map_concat_map.
  rewrite <- (map_map (group_of String.eqb (fun tq : Txn * Q => Category (fst tq)) md)
                      (omap categorised)).
  rewrite <- omap_concat.
  rewrite (groups_Permutation String.eqb String.eqb_eq _ _ md Hnd).
  apply Permutation_refl'. apply omap_filter_kept.
  intros tq Hin Hk. unfold keyed_in in Hk. unfold categorised.
  destruct (Category (fst tq)) as [c |] eqn:Hc; [| reflexivity].
  exfalso. assert (Hex : existsb (String.eqb c) (omap id cats) = true).
  { apply existsb_exists. exists c. split; [| apply String.eqb_refl].
    exact (Hall tq c Hin Hc). }
  congruence.
Qed.

Lemma month_entry_counts (cats : list (option string)) (md : list (Txn * Q)) :
  Forall (fun entry : string * Dashboard.CategoryData =>
            Dashboard.cd_count (snd entry)
            = Z.of_nat (length (Dashboard.cd_transactions (snd entry)))
            /\ Dashboard.cd_transactions (snd entry) <> [])
         (Dashboard.md_categories (Dashboard.month_entry cats md)).
Proof.
  unfold Dashboard.month_entry. cbn [Dashboard.md_categories].
  induction cats as [| [c |] cats IH]; simpl; [constructor | | exact IH].
  destruct (List.filter _ md) as [| tq g]; [exact IH |].
  constructor; [| exact IH]. cbn [snd Dashboard.cd_count Dashboard.cd_transactions].
  rewrite length_map. split; [reflexivity | discriminate].
Qed.

Lemma listed_in_length (md : Dashboard.MonthData) :
  Forall (fun entry : string * Dashboard.CategoryData =>
            Dashboard.cd_count (snd entry)
            = Z.of_nat (length (Dashboard.cd_transactions (snd entry)))
            /\ Dashboard.cd_transactions (snd entry) <> [])
         (Dashboard.md_categories md) ->
  zsum (map (fun entry => Dashboard.cd_count (snd entry)) (Dashboard.md_categories md))
  = Z.of_nat (length (listed_in md)).
Proof.
  unfold listed_in. induction 1 as [| entry l [Hc _] _ IH]; [reflexivity |].
  cbn [map flat_map]. rewrite zsum_cons, length_app, length_map, IH, Hc. lia.
Qed.

(** *** All months *)

Lemma flat_map_Permutation {A B : Type} (f g : A -> list B) (l : list A) :
  (forall x, In x l -> Permutation (f x) (g x)) ->
  Permutation (flat_map f l) (flat_map g l).
Proof.
  induction l as [| x l IH]; intros Hfg; simpl; [reflexivity |].
  apply Permutation_app; [apply Hfg; left; reflexivity |].
  apply IH. intros y Hy. apply Hfg. right. exact Hy.
Qed.

Lemma process_data_Ok (df : DataFrame) (data : Dashboard.Data) :
  Dashboard.process_data df = Ok data ->
  exists cats,
    Dashboard.sorted_categories
      (map (fun tq : Txn * Q => Category (fst tq)) (Dashboard.spending_rows df)) = Ok cats
    /\ Dashboard.categories data = cats
    /\ Dashboard.byMonth data
       = map (fun ym =>
                (ym, Dashboard.month_entry cats
                       (List.filter (fun tq : Txn * Q => String.eqb (YearMonth (fst tq)) ym)
                                    (Dashboard.spending_rows df))))
             (Pandas.unique String.eqb
                (map (fun tq : Txn * Q => YearMonth (fst tq)) (Dashboard.spending_rows df))).
Proof.
  unfold Dashboard.process_data.
  destruct (Dashboard.sorted_categories _) as [cats | e]; cbn [mbind Result_bind];
    [| discriminate].
  intros [= <-]. exists cats. auto.
Qed.

Lemma month_rows_categories (df : DataFrame) (cats : list (option string)) (ym : string) :
  Dashboard.sorted_categories
    (map (fun tq : Txn * Q => Category (fst tq)) (Dashboard.spending_rows df)) = Ok cats ->
  List.NoDup (omap id cats)
  /\ forall tq c,
       In tq (List.filter (fun tq : Txn * Q => String.eqb (YearMonth (fst tq)) ym)
                          (Dashboard.spending_rows df)) ->
       Category (fst tq) = Some c -> In c (omap id cats).
Proof.
  intros Hcats. destruct (sorted_categories_names _ _ Hcats) as [Hnd Hin].
  split; [exact Hnd |]. intros tq c Htq Hc. apply Hin. rewrite <- Hc.
  apply List.filter_In in Htq. apply (in_map (fun tq : Txn * Q => Category (fst tq))).
  tauto.
Qed.

Lemma process_data_raises (df : DataFrame) :
  ((exists e, Dashboard.process_data df = Raise e)
   <-> (exists t, In t (purchases df) /\ Category t = None)
       /\ (exists t c, In t (purchases df) /\ Category t = Some c))
  /\ (forall e, Dashboard.process_data df = Raise e -> exists msg, e = TypeError msg).
Proof.
  assert (Hcat : forall c,
            In c (map (fun tq : Txn * Q => Category (fst tq)) (Dashboard.spending_rows df))
            <-> exists t, In t (purchases df) /\ Category t = c).
  { intros c. rewrite <- spending_rows_purchases, in_map_iff. split.
    - intros (tq & Hc & Hin). exists (fst tq). split; [apply in_map; exact Hin | exact Hc].
    - intros (t & Hin & Hc). apply in_map_iff in Hin. destruct Hin as (tq & <- & Hin).
      exists tq. auto. }
  split.
  - rewrite <- (Hcat None).
    assert (Hsome : (exists t c, In t (purchases df) /\ Category t = Some c)
                    <-> exists c, In (Some c)
                          (map (fun tq : Txn * Q => Category (fst tq))
                               (Dashboard.spending_rows df))).
    { split.
      - intros (t & c & Ht). exists c. apply Hcat. exists t. exact Ht.
      - intros (c & Hc). apply Hcat in Hc. destruct Hc as (t & Ht). exists t, c. exact Ht. }
    rewrite Hsome, <- sorted_categories_raises.
    unfold Dashboard.process_data.
    destruct (Dashboard.sorted_categories _) as [cats | e]; cbn [mbind Result_bind].
    + split; intros [e He]; discriminate.
    + split; intros _; eexists; reflexivity.
  - intros e. unfold Dashboard.process_data.
    destruct (Dashboard.sorted_categories _) as [cats | e'] eqn:Hs; cbn [mbind Result_bind];
      [discriminate |].
    intros [= <-]. exact (sorted_categories_error _ _ Hs).
Qed.


(** X12.  When [process_data] succeeds, the transactions that its
    dictionary lists under the months and categories are exactly the
    purchases that have a category, each one once, as records with the
    date as text and the amount rounded; every category entry has at
    least one transaction and its [count] is their number; no month
    appears twice. *)
Theorem every_categorised_purchase_is_listed_once (df : DataFrame) (data : Dashboard.Data) :
  Dashboard.process_data df = Ok data ->
  Permutation (listed data) (omap purchase_record df)
  /\ Forall (fun month : string * Dashboard.MonthData =>
               Forall (fun entry : string * Dashboard.CategoryData =>
                         Dashboard.cd_count (snd entry)
                         = Z.of_nat (length (Dashboard.cd_transactions (snd entry)))
                         /\ Dashboard.cd_transactions (snd entry) <> [])
                      (Dashboard.md_categories (snd month)))
            (Dashboard.byMonth data)
  /\ List.NoDup (map fst (Dashboard.byMonth data)).
Proof.
  intros Hok. destruct (process_data_Ok df data Hok) as (cats & Hcats & _ & Hmonths).
  set (spending := Dashboard.spending_rows df) in *.
  set (months := Pandas.unique String.eqb
                   (map (fun tq : Txn * Q => YearMonth (fst tq)) spending)) in *.
  split; [| split].
  - unfold listed. fold listed_in. rewrite Hmonths. rewrite flat_map_concat_map, map_map.
    cbn [snd]. rewrite <- flat_map_concat_map.
    rewrite (flat_map_Permutation _
               (fun ym => omap categorised
                            (group_of String.eqb
                                      (fun tq : Txn * Q => Some (YearMonth (fst tq)))
                                      spending ym))).
    2:{ intros ym _. destruct (month_rows_categories df cats ym Hcats) as [Hnd Hall].
        exact (month_listed_Permutation cats _ Hnd Hall). }
    rewrite flat_map_concat_map.
    rewrite <- (map_map (group_of String.eqb
                                  (fun tq : Txn * Q => Some (YearMonth (fst tq))) spending)
                        (omap categorised)).
    rewrite <- omap_concat.
    rewrite (groups_Permutation String.eqb String.eqb_eq _ months spending
               (unique_NoDup _ String.eqb_eq _)).
    rewrite <- categorised_purchase_record. fold spending.
    apply Permutation_refl'. f_equal.
    rewrite <- (filter_all spending) at 2. apply filter_ext_in.
    intros tq Hin. unfold keyed_in. apply existsb_exists.
    exists (YearMonth (fst tq)). split; [| apply String.eqb_refl].
    apply (unique_In _ String.eqb_eq).
    apply (in_map (fun tq : Txn * Q => YearMonth (fst tq))). exact Hin.
  - rewrite Hmonths. apply List.Forall_forall. intros month Hin.
    apply in_map_iff in Hin. destruct Hin as (ym & <- & _). cbn [snd].
    apply month_entry_counts.
  - rewrite Hmonths, map_map. cbn [fst]. rewrite map_id.
    apply (unique_NoDup _ String.eqb_eq).
Qed.

Lemma qsum_amounts (md : list (Txn * Q)) :
  Forall (fun tq : Txn * Q => Amount (fst tq) = Some (snd tq)) md ->
  Num.qsum (map snd md) = Num.sum (map Amount (map fst md)).
Proof.
  induction 1 as [| tq md Htq _ IH]; [reflexivity |].
  cbn [map Num.qsum Num.sum]. rewrite Htq, IH. reflexivity.
Qed.

Lemma categorised_length (md : list (Txn * Q)) :
  length (omap categorised md)
  = length (List.filter (fun t => match Category t with Some _ => true | None => false end)
                        (map fst md)).
Proof.
  induction md as [| tq md IH]; [reflexivity |].
  rewrite omap_cons. cbn [map List.filter]. unfold categorised at 1.
  destruct (Category (fst tq)); cbn [length]; rewrite IH; reflexivity.
Qed.

Lemma Forall_filter_kept {A : Type} (P : A -> Prop) (p : A -> bool) (l : list A) :
  Forall P l -> Forall P (List.filter p l).
Proof.
  intros Hall. apply List.Forall_forall. intros x Hx. apply List.filter_In in Hx.
  exact (proj1 (List.Forall_forall P l) Hall x (proj1 Hx)).
Qed.

(** X13.  In the dictionary of [process_data] every month in which a
    purchase falls has an entry, and only such months.  The [total] of a
    month is the rounded sum of all its purchases, with or without
    category, while the [count]s of its categories add up to the number
    of its purchases that have a category: purchases without category
    are in the total of the month and under no category. *)
Theorem month_totals_count_every_purchase (df : DataFrame) (data : Dashboard.Data) :
  Dashboard.process_data df = Ok data ->
  (forall t, In t (purchases df) -> exists md, In (YearMonth t, md) (Dashboard.byMonth data))
  /\ forall ym md, In (ym, md) (Dashboard.byMonth data) ->
       let month := List.filter (fun t => String.eqb (YearMonth t) ym) (purchases df) in
       month <> []
       /\ Dashboard.md_total md = Num.round_dp 2 (Num.sum (map Amount month))
       /\ zsum (map (fun entry => Dashboard.cd_count (snd entry)) (Dashboard.md_categories md))
          = Z.of_nat (length (List.filter
                                (fun t => match Category t with
                                          | Some _ => true
                                          | None => false
                                          end) month)).
Proof.
  intros Hok. destruct (process_data_Ok df data Hok) as (cats & Hcats & _ & Hmonths).
  assert (Hkeys : forall ym,
            In ym (Pandas.unique String.eqb
                     (map (fun tq : Txn * Q => YearMonth (fst tq))
                          (Dashboard.spending_rows df)))
            <-> exists t, In t (purchases df) /\ YearMonth t = ym).
  { intros ym. rewrite (unique_In _ String.eqb_eq), <- spending_rows_purchases, in_map_iff.
    split.
    - intros (tq & Hym & Hin). exists (fst tq). split; [apply in_map; exact Hin | exact Hym].
    - intros (t & Hin & Hym). apply in_map_iff in Hin. destruct Hin as (tq & <- & Hin).
      exists tq. auto. }
  split.
  - intros t Ht. eexists. rewrite Hmonths. apply in_map_iff.
    exists (YearMonth t). split; [reflexivity |]. apply Hkeys. exists t. auto.
  - intros ym md Hin month. rewrite Hmonths in Hin. apply in_map_iff in Hin.
    destruct Hin as (ym' & [= -> <-] & Hym).
    assert (Hmonth : map fst (List.filter (fun tq : Txn * Q => String.eqb (YearMonth (fst tq)) ym)
                                          (Dashboard.spending_rows df)) = month).
    { unfold month. rewrite <- spending_rows_purchases, filter_map_commute. reflexivity. }
    split; [| split].
    + apply Hkeys in Hym. destruct Hym as (t & Ht & Heq). intros Hempty.
      assert (Hin : In t month).
      { apply List.filter_In. split; [exact Ht | apply String.eqb_eq; exact Heq]. }
      rewrite Hempty in Hin. exact Hin.
    + cbn [Dashboard.month_entry Dashboard.md_total]. rewrite qsum_amounts, Hmonth;
        [reflexivity |].
      apply Forall_filter_kept. apply spending_rows_amounts.
    + rewrite listed_in_length by apply month_entry_counts.
      destruct (month_rows_categories df cats ym Hcats) as [Hnd Hall].
      rewrite (Permutation_length (month_listed_Permutation cats _ Hnd Hall)).
      rewrite categorised_length, Hmonth. reflexivity.
Qed.

(** ** The business expenses *)

Lemma collect_expenses (df : DataFrame) :
  Permutation (Expenses.collect (fun a => Expenses.le a 0) df)
              (omap Expenses.entry (above_zero df) ++ omap Expenses.entry (unreadable df)).
Proof.
  unfold Expenses.collect, above_zero, unreadable.
  induction df as [| t df IH]; [reflexivity |].
  rewrite omap_cons. cbn [List.filter]. unfold Expenses.le, Num.gt in *.
  destruct (Amount t) as [q |].
  - destruct (Num.Qleb q 0) eqn:Hle.
    + apply Qleb_true in Hle. assert (Hlt : Num.Qltb 0 q = false) by (apply Qltb_false; exact Hle).
      rewrite Hlt. exact IH.
    + apply Qleb_false in Hle. assert (Hlt : Num.Qltb 0 q = true) by (apply Qltb_true; exact Hle).
      rewrite Hlt, omap_cons. destruct (Expenses.entry t); [| exact IH].
      cbn [app]. apply perm_skip. exact IH.
  - rewrite omap_cons. destruct (Expenses.entry t); [| exact IH].
    rewrite IH. apply Permutation_middle.
Qed.

Lemma collect_refunds (df : DataFrame) :
  Permutation (Expenses.collect (fun a => Expenses.ge a 0) df)
              (omap Expenses.entry (below_zero df) ++ omap Expenses.entry (unreadable df)).
Proof.
  unfold Expenses.collect, below_zero, unreadable.
  induction df as [| t df IH]; [reflexivity |].
  rewrite omap_cons. cbn [List.filter]. unfold Expenses.ge, Num.lt in *.
  destruct (Amount t) as [q |].
  - destruct (Num.Qleb 0 q) eqn:Hle.
    + apply Qleb_true in Hle. assert (Hlt : Num.Qltb q 0 = false) by (apply Qltb_false; exact Hle).
      rewrite Hlt. exact IH.
    + apply Qleb_false in Hle. assert (Hlt : Num.Qltb q 0 = true) by (apply Qltb_true; exact Hle).
      rewrite Hlt, omap_cons. destruct (Expenses.entry t); [| exact IH].
      cbn [app]. apply perm_skip. exact IH.
  - rewrite omap_cons. destruct (Expenses.entry t); [| exact IH].
    rewrite IH. apply Permutation_middle.
Qed.


Lemma keyword_found (description keyword : string) :
  Str.toUpperCase keyword = keyword ->
  Str.includes (Str.toUpperCase description) keyword = true
  <-> contains_nocase description keyword.
Proof. intros Hk. rewrite <- includes_nocase, Hk. reflexivity. Qed.


(** ** The loader of the business dashboard *)

Section BusinessDirectory.
Context `{Externals}.

Lemma business_read_file_ok (f : CsvFile) :
  has_column f "Date" = true -> has_column f "Amount" = true ->
  dates_parse "%m/%d/%Y" c_Date f ->
  Business.read_file f
  = Ok (map (fun r =>
               {| Date := the_date "%m/%d/%Y" (c_Date r);
                  Amount := to_numeric (c_Amount r);
                  Description := c_Description r;
                  Category := category_cell r;
                  Debit := None;
                  Credit := None;
                  Source := None |}) (rows f)).
Proof.
  intros Hd Ha Hdates. unfold Business.read_file.
  rewrite (column_present _ _ _ Ha). cbn [mbind Result_bind].
  rewrite (column_present _ _ _ Hd). cbn [mbind Result_bind].
  apply mapM_total. eapply Forall_impl; [exact Hdates |]. intros r Hr. simpl in Hr.
  rewrite (parse_date_ok _ _ Hr). reflexivity.
Qed.

Lemma business_read_file_not_fatal (f : CsvFile) (e : Exception) :
  Business.read_file f = Raise e -> e <> no_valid_csv.
Proof.
  unfold Business.read_file.
  destruct (column f "Amount" c_Amount) as [? | e1] eqn:H1; cbn [mbind Result_bind].
  - destruct (column f "Date" c_Date) as [? | e2] eqn:H2; cbn [mbind Result_bind].
    + intros Hr. apply mapM_Raise_inv in Hr. destruct Hr as (r & _ & Hr).
      destruct (parse_date "%m/%d/%Y" (c_Date r)) as [d | e'] eqn:Hd;
        cbn [mbind Result_bind] in Hr; [discriminate |].
      injection Hr as <-. exact (parse_date_not_fatal _ _ _ Hd).
    + intros [= <-]. exact (column_not_fatal _ _ _ _ H2).
  - intros [= <-]. exact (column_not_fatal _ _ _ _ H1).
Qed.

Lemma business_read_file_unreadable (f : CsvFile) :
  has_column f "Date" = false \/ has_column f "Amount" = false
  \/ Exists (fun r => to_datetime "%m/%d/%Y" (c_Date r) = None) (rows f) ->
  exists e, Business.read_file f = Raise e.
Proof.
  intros Hbad. unfold Business.read_file, column.
  destruct (has_column f "Amount") eqn:Ha; cbn [mbind Result_bind];
    [| eexists; reflexivity].
  destruct (has_column f "Date") eqn:Hd; cbn [mbind Result_bind];
    [| eexists; reflexivity].
  destruct Hbad as [Hbad | [Hbad | Hex]]; try discriminate.
  destruct (dated_rows_raise "%m/%d/%Y" c_Date
              (fun r d => {| Date := d;
                             Amount := to_numeric (c_Amount r);
                             Description := c_Description r;
                             Category := category_cell r;
                             Debit := None;
                             Credit := None;
                             Source := None |}) (rows f) Hex) as [msg Hmsg].
  eexists. exact Hmsg.
Qed.

End BusinessDirectory.


(** ** Recurring payments *)

Lemma update_keys {V : Type} (key : string) (f : V -> V) (o : list (string * V)) :
  map fst (Js.update key f o) = map fst o.
Proof.
  induction o as [| [k v] o IH]; [reflexivity |].
  cbn [Js.update]. destruct (String.eqb k key); cbn [map fst]; [| rewrite IH]; reflexivity.
Qed.

Lemma own_Some {V : Type} (key : string) (o : list (string * V)) (v : V) :
  Js.own key o = Some v -> In (key, v) o.
Proof.
  induction o as [| [k w] o IH]; [discriminate |].
  cbn [Js.own]. destruct (String.eqb k key) eqn:E.
  - apply String.eqb_eq in E. intros [= ->]. left. congruence.
  - intros Hv. right. exact (IH Hv).
Qed.

Lemma own_None {V : Type} (key : string) (o : list (string * V)) :
  Js.own key o = None <-> ~ In key (map fst o).
Proof.
  induction o as [| [k w] o IH]; [simpl; tauto |].
  cbn [Js.own map fst In]. destruct (String.eqb k key) eqn:E.
  - apply String.eqb_eq in E. split; [discriminate | tauto].
  - apply String.eqb_neq in E. rewrite IH. tauto.
Qed.

Lemma update_absent {V : Type} (key : string) (f : V -> V) (o : list (string * V)) :
  ~ In key (map fst o) -> Js.update key f o = o.
Proof.
  induction o as [| [k v] o IH]; [reflexivity |].
  cbn [Js.update map fst In]. intros Hk. destruct (String.eqb k key) eqn:E.
  - apply String.eqb_eq in E. tauto.
  - rewrite IH by tauto. reflexivity.
Qed.

Lemma update_created {V : Type} (key : string) (f : V -> V) (o : list (string * V)) (v : V) :
  ~ In key (map fst o) -> Js.update key f (o ++ [(key, v)]) = (o ++ [(key, f v)])%list.
Proof.
  induction o as [| [k w] o IH]; cbn [app Js.update map fst In]; intros Hk.
  - rewrite String.eqb_refl. reflexivity.
  - destruct (String.eqb k key) eqn:E.
    + apply String.eqb_eq in E. tauto.
    + rewrite IH by tauto. reflexivity.
Qed.

Lemma update_In {V : Type} (key : string) (f : V -> V) (o : list (string * V))
    (k : string) (v : V) :
  List.NoDup (map fst o) ->
  In (k, v) (Js.update key f o)
  <-> (k <> key /\ In (k, v) o) \/ (k = key /\ exists w, In (key, w) o /\ v = f w).
Proof.
  induction o as [| [k' w'] o IH]; intros Hnd.
  - simpl. split; [tauto |]. intros [[_ []] | (_ & w & [] & _)].
  - inversion Hnd as [| ? ? Hk' Hnd']; subst. cbn [Js.update].
    destruct (String.eqb k' key) eqn:E.
    + apply String.eqb_eq in E. subst k'. cbn [In]. split.
      * intros [[= <- <-] | Hin].
        -- right. split; [reflexivity |]. exists w'. auto.
        -- left. split; [| right; exact Hin]. intros ->. apply Hk'.
           apply (in_map fst) in Hin. exact Hin.
      * intros [(Hne & [[= <- <-] | Hin]) | (-> & w & [[= <-] | Hin] & ->)].
        -- congruence.
        -- right. exact Hin.
        -- left. reflexivity.
        -- exfalso. apply Hk'. apply (in_map fst) in Hin. exact Hin.
    + apply String.eqb_neq in E. cbn [In]. rewrite (IH Hnd'). split.
      * intros [[= <- <-] | [(Hne & Hin) | (-> & w & Hin & ->)]].
        -- left. split; [exact E | left; reflexivity].
        -- left. split; [exact Hne | right; exact Hin].
        -- right. split; [reflexivity |]. exists w. split; [right; exact Hin | reflexivity].
      * intros [(Hne & [[= <- <-] | Hin]) | (-> & w & [[= <- <-] | Hin] & ->)].
        -- left. reflexivity.
        -- right. left. auto.
        -- congruence.
        -- right. right. split; [reflexivity |]. exists w. auto.
Qed.

Lemma charged_by_snoc (k : string) (seen : list Dashboard.JsTxn) (t : Dashboard.JsTxn) :
  charged_by k (seen ++ [t])
  = (charged_by k seen
     ++ (if String.eqb (Dashboard.js_Description t) k then [t] else []))%list.
Proof. unfold charged_by. rewrite List.filter_app. reflexivity. Qed.

Lemma added_up_snoc (txns : list Dashboard.JsTxn) (t : Dashboard.JsTxn) :
  added_up (txns ++ [t]) = (added_up txns + Dashboard.js_Amount t)%Q.
Proof. unfold added_up. rewrite fold_left_app. reflexivity. Qed.

Lemma grouped_nothing : grouped [] [].
Proof.
  split; [constructor |]. split; intros; contradiction.
Qed.

Lemma add_grouped (seen : list Dashboard.JsTxn) (o : list (string * Recurring.Merchant))
    (t : Dashboard.JsTxn) :
  grouped seen o ->
  Js.inherited (Dashboard.js_Description t) = false ->
  exists o', Recurring.add o t = Ok o' /\ grouped (seen ++ [t]) o'.
Proof.
  intros (Hnd & Hcover & Hentries) Hname. unfold Recurring.add.
  set (name := Dashboard.js_Description t) in *.
  set (f := fun m : Recurring.Merchant =>
              {| Recurring.m_name := Recurring.m_name m;
                 Recurring.m_category := Recurring.m_category m;
                 Recurring.m_transactions := (Recurring.m_transactions m ++ [t])%list;
                 Recurring.m_total := (Recurring.m_total m + Dashboard.js_Amount t)%Q |}).
  assert (Hother : forall k, k <> name -> charged_by k (seen ++ [t]) = charged_by k seen).
  { intros k Hk. rewrite charged_by_snoc. fold name.
    destruct (String.eqb name k) eqn:E; [| apply app_nil_r].
    apply String.eqb_eq in E. congruence. }
  assert (Hsame : charged_by name (seen ++ [t]) = (charged_by name seen ++ [t])%list).
  { rewrite charged_by_snoc. fold name. rewrite String.eqb_refl. reflexivity. }
  destruct (Js.own name o) as [m |] eqn:Hown.
  - eexists. split; [reflexivity |]. apply own_Some in Hown.
    split; [rewrite update_keys; exact Hnd |]. split.
    + intros t' Hin. rewrite update_keys. apply in_app_or in Hin.
      destruct Hin as [Hin | [<- | []]]; [exact (Hcover _ Hin) |].
      apply (in_map fst) in Hown. exact Hown.
    + intros k m' Hin. apply (update_In _ _ _ _ _ Hnd) in Hin.
      destruct Hin as [(Hne & Hin) | (-> & w & Hin & ->)].
      * rewrite (Hother k Hne). exact (Hentries k m' Hin).
      * destruct (Hentries name w Hin) as (Hi & Hn & Ht & Htot & first & rest & Hf & Hc).
        rewrite Hsame. cbn [f Recurring.m_name Recurring.m_category
                              Recurring.m_transactions Recurring.m_total].
        split; [exact Hi |]. split; [exact Hn |]. split; [rewrite Ht; reflexivity |].
        split; [rewrite Htot, added_up_snoc; reflexivity |].
        exists first, (rest ++ [t])%list. rewrite Hf. split; [reflexivity | exact Hc].
  - rewrite Hname. apply own_None in Hown.
    assert (Hnone : charged_by name seen = []).
    { destruct (charged_by name seen) as [| t' l] eqn:Hc; [reflexivity |]. exfalso.
      assert (Hin : In t' (charged_by name seen)) by (rewrite Hc; left; reflexivity).
      apply List.filter_In in Hin. destruct Hin as [Hin Heq].
      apply String.eqb_eq in Heq. apply Hown. rewrite <- Heq. exact (Hcover _ Hin). }
    eexists. split; [reflexivity |]. rewrite (update_created _ _ _ _ Hown).
    split; [| split].
    + rewrite map_app. cbn [map fst].
      apply (Permutation_NoDup (Permutation_cons_append (map fst o) name)).
      constructor; [exact Hown | exact Hnd].
    + intros t' Hin. rewrite map_app. apply in_or_app. apply in_app_or in Hin.
      destruct Hin as [Hin | [<- | []]]; [left; exact (Hcover _ Hin) |].
      right. left. reflexivity.
    + intros k m' Hin. apply in_app_or in Hin. destruct Hin as [Hin | [[= <- <-] | []]].
      * assert (Hne : k <> name).
        { intros ->. apply Hown. apply (in_map fst) in Hin. exact Hin. }
        rewrite (Hother k Hne). exact (Hentries k m' Hin).
      * rewrite Hsame, Hnone. cbn [f Recurring.m_name Recurring.m_category
                                     Recurring.m_transactions Recurring.m_total app].
        split; [exact Hname |]. split; [reflexivity |]. split; [reflexivity |].
        split; [reflexivity |]. exists t, []. split; reflexivity.
Qed.

Lemma group_grouped (txns seen : list Dashboard.JsTxn)
    (o : list (string * Recurring.Merchant)) :
  grouped seen o ->
  Forall (fun t => Js.inherited (Dashboard.js_Description t) = false) txns ->
  exists o', Recurring.group o txns = Ok o' /\ grouped (seen ++ txns) o'.
Proof.
  revert seen o. induction txns as [| t txns IH]; intros seen o Hg Hall.
  - exists o. rewrite app_nil_r. split; [reflexivity | exact Hg].
  - inversion Hall as [| ? ? Ht Hrest]; subst.
    destruct (add_grouped seen o t Hg Ht) as (o1 & Hadd & Hg1).
    destruct (IH (seen ++ [t])%list o1 Hg1 Hrest) as (o' & Hgroup & Hg').
    exists o'. cbn [Recurring.group]. rewrite Hadd. cbn [mbind Result_bind].
    split; [exact Hgroup |]. rewrite <- app_assoc in Hg'. exact Hg'.
Qed.

Lemma group_raises (txns seen : list Dashboard.JsTxn)
    (o : list (string * Recurring.Merchant)) :
  grouped seen o ->
  Exists (fun t => Js.inherited (Dashboard.js_Description t) = true) txns ->
  exists msg, Recurring.group o txns = Raise (TypeError msg).
Proof.
  revert seen o. induction txns as [| t txns IH]; intros seen o Hg Hex;
    [inversion Hex |].
  cbn [Recurring.group].
  destruct (Js.inherited (Dashboard.js_Description t)) eqn:Ht.
  - unfold Recurring.add.
    destruct (Js.own (Dashboard.js_Description t) o) as [m |] eqn:Hown.
    + exfalso. apply own_Some in Hown. destruct Hg as (_ & _ & Hentries).
      destruct (Hentries _ _ Hown) as (Hi & _). congruence.
    + rewrite Ht. eexists. reflexivity.
  - destruct (add_grouped seen o t Hg Ht) as (o1 & Hadd & Hg1).
    rewrite Hadd. cbn [mbind Result_bind]. apply (IH (seen ++ [t])%list o1 Hg1).
    inversion Hex as [? ? Hhead | ? ? Htail]; subst; [congruence | exact Htail].
Qed.

Lemma filter_split_Permutation {A : Type} (p : A -> bool) (l : list A) :
  Permutation (List.filter p l ++ List.filter (fun x => negb (p x)) l) l.
Proof.
  induction l as [| x l IH]; [reflexivity |].
  cbn [List.filter]. destruct (p x); cbn [negb app].
  - apply perm_skip. exact IH.
  - symmetry. apply Permutation_cons_app. symmetry. exact IH.
Qed.

Lemma own_properties_Permutation {V : Type} (o : list (string * V)) :
  Permutation (Js.own_properties o) o.
Proof.
  unfold Js.own_properties.
  rewrite (Permutation_map snd (sort_by_Permutation _ _)).
  rewrite <- (filter_split_Permutation
                (fun kv : string * V =>
                   match Js.array_index (fst kv) with Some _ => true | None => false end) o)
    at 3.
  apply Permutation_app.
  - apply Permutation_refl'. induction o as [| kv o IH]; [reflexivity |].
    rewrite omap_cons. cbn [List.filter].
    destruct (Js.array_index (fst kv)); cbn [map snd]; rewrite IH; reflexivity.
  - apply Permutation_refl'. apply filter_ext. intros kv.
    destruct (Js.array_index (fst kv)); reflexivity.
Qed.

Lemma js_round2_comp (p q : Q) : (p == q)%Q -> Num.js_round2 p = Num.js_round2 q.
Proof.
  intros Hpq. unfold Num.js_round2, Num.Math_round.
  assert (E : Qfloor (p * 100 + (1 # 2)) = Qfloor (q * 100 + (1 # 2)))
    by (apply Qfloor_comp; rewrite Hpq; reflexivity).
  rewrite E. reflexivity.
Qed.

Lemma added_up_qsum (txns : list Dashboard.JsTxn) :
  (added_up txns == Num.qsum (map Dashboard.js_Amount txns))%Q.
Proof. unfold added_up. rewrite fold_left_sum. ring. Qed.

Lemma NoDup_map_filter {A B : Type} (f : A -> B) (p : A -> bool) (l : list A) :
  List.NoDup (map f l) -> List.NoDup (map f (List.filter p l)).
Proof.
  induction l as [| x l IH]; [intros; constructor |].
  cbn [map List.filter]. intros Hnd. inversion Hnd as [| ? ? Hx Hl]; subst.
  destruct (p x); [| exact (IH Hl)].
  cbn [map]. constructor; [| exact (IH Hl)].
  intros Hin. apply Hx. apply in_map_iff in Hin. destruct Hin as (y & Hy & Hin).
  apply List.filter_In in Hin. apply in_map_iff. exists y. tauto.
Qed.

Lemma largest_first_total (a b : Recurring.Payment) :
  Recurring.largest_first a b = true \/ Recurring.largest_first b a = true.
Proof.
  unfold Recurring.largest_first. rewrite !Qleb_true.
  destruct (Qlt_le_dec (Recurring.p_total a) (Recurring.p_total b)); [right | left]; lra.
Qed.

Lemma largest_first_trans (a b c : Recurring.Payment) :
  Recurring.largest_first a b = true -> Recurring.largest_first b c = true ->
  Recurring.largest_first a c = true.
Proof. unfold Recurring.largest_first. rewrite !Qleb_true. lra. Qed.

Section Recurrence.
Context `{Externals}.

(** What [getRecurringPayments] returns when the grouping has gone
    through. *)
Lemma recurring_of_grouped (DATA : Dashboard.Data) (o : list (string * Recurring.Merchant)) :
  Recurring.group [] (Dashboard.allTransactions DATA) = Ok o ->
  Recurring.getRecurringPayments DATA
  = Ok (Num.sort_by Recurring.largest_first
          (map Recurring.payment
               (List.filter (fun m => (2 <=? length (Recurring.m_transactions m))%nat)
                            (map snd (Js.own_properties o))))).
Proof. intros Hg. unfold Recurring.getRecurringPayments. rewrite Hg. reflexivity. Qed.

Lemma recurring_entries (txns : list Dashboard.JsTxn)
    (o : list (string * Recurring.Merchant)) (p : Recurring.Payment) :
  grouped txns o ->
  In p (Num.sort_by Recurring.largest_first
          (map Recurring.payment
               (List.filter (fun m => (2 <=? length (Recurring.m_transactions m))%nat)
                            (map snd (Js.own_properties o)))))
  <-> exists m, In (Recurring.p_name p, m) o
                /\ (2 <= length (charged_by (Recurring.p_name p) txns))%nat
                /\ p = Recurring.payment m.
Proof.
  intros (Hnd & Hcover & Hentries). rewrite sort_by_In, in_map_iff. split.
  - intros (m & <- & Hin). apply List.filter_In in Hin. destruct Hin as [Hin Hbig].
    apply in_map_iff in Hin. destruct Hin as ([k m'] & Hm & Hin). cbn [snd] in Hm. subst m'.
    apply (Permutation_in _ (own_properties_Permutation o)) in Hin.
    destruct (Hentries k m Hin) as (_ & Hn & Ht & _).
    cbn [Recurring.payment Recurring.p_name]. rewrite Hn. exists m.
    split; [exact Hin |]. split; [| reflexivity].
    rewrite <- Ht. apply Nat.leb_le. exact Hbig.
  - intros (m & Hin & Hbig & ->). exists m. split; [reflexivity |].
    apply List.filter_In. cbn [Recurring.payment Recurring.p_name] in *.
    destruct (Hentries _ m Hin) as (_ & _ & Ht & _).
    split.
    + apply in_map_iff. exists (Recurring.m_name m, m). split; [reflexivity |].
      apply (Permutation_in _ (Permutation_sym (own_properties_Permutation o))).
      exact Hin.
    + apply Nat.leb_le. rewrite Ht. exact Hbig.
Qed.

End Recurrence.

(** X16.  When no description is a property name that every
    JavaScript object inherits, [getRecurringPayments] lists a merchant
    exactly when at least two transactions of the page carry its
    description, letter for letter, whatever their amounts and dates;
    each merchant is listed once, with the number of these transactions,
    the transactions themselves, and the category of the first of them
    in the order in which the page walks months and categories. *)
Theorem recurring_payments_are_repeated_descriptions `{Externals} (DATA : Dashboard.Data) :
  let txns := Dashboard.allTransactions DATA in
  Forall (fun t => Js.inherited (Dashboard.js_Description t) = false) txns ->
  exists recurring,
    Recurring.getRecurringPayments DATA = Ok recurring
    /\ List.NoDup (map Recurring.p_name recurring)
    /\ (forall name, In name (map Recurring.p_name recurring)
                     <-> (2 <= length (charged_by name txns))%nat)
    /\ Forall (fun p =>
                 let charges := charged_by (Recurring.p_name p) txns in
                 Recurring.p_count p = length charges
                 /\ Permutation (Recurring.p_transactions p) charges
                 /\ exists first rest,
                      charges = first :: rest
                      /\ Recurring.p_category p = Dashboard.js_category first)
              recurring.
Proof.
  intros txns Hall.
  destruct (group_grouped txns [] [] grouped_nothing Hall) as (o & Hgroup & Hg).
  cbn [app] in Hg. eexists. split; [exact (recurring_of_grouped DATA o Hgroup) |].
  pose proof Hg as (Hnd & Hcover & Hentries).
  split; [| split].
  - apply (Permutation_NoDup
             (Permutation_sym (Permutation_map Recurring.p_name (sort_by_Permutation _ _)))).
    rewrite map_map. cbn [Recurring.payment Recurring.p_name].
    apply NoDup_map_filter.
    assert (Hkeys : map Recurring.m_name (map snd (Js.own_properties o))
                    = map fst (Js.own_properties o)).
    { rewrite map_map. apply map_ext_in. intros [k m] Hin.
      apply (Permutation_in _ (own_properties_Permutation o)) in Hin.
      destruct (Hentries k m Hin) as (_ & Hn & _). exact Hn. }
    change (List.NoDup (map Recurring.m_name (map snd (Js.own_properties o)))).
    rewrite Hkeys.
    apply (Permutation_NoDup
             (Permutation_sym (Permutation_map fst (own_properties_Permutation o)))).
    exact Hnd.
  - intros name. rewrite in_map_iff. split.
    + intros (p & <- & Hp). apply (recurring_entries txns o p Hg) in Hp.
      destruct Hp as (m & _ & Hbig & _). exact Hbig.
    + intros Hbig.
      destruct (charged_by name txns) as [| t l] eqn:Hc; [simpl in Hbig; lia |].
      assert (Hin : In t (charged_by name txns)) by (rewrite Hc; left; reflexivity).
      apply List.filter_In in Hin. destruct Hin as [Hin Heq]. apply String.eqb_eq in Heq.
      pose proof (Hcover t Hin) as Hkey. rewrite Heq in Hkey.
      apply in_map_iff in Hkey. destruct Hkey as ([k m] & Hk & Hkm). cbn [fst] in Hk. subst k.
      destruct (Hentries name m Hkm) as (_ & Hn & _).
      exists (Recurring.payment m).
      split; [exact Hn |]. apply (recurring_entries txns o _ Hg).
      exists m. cbn [Recurring.payment Recurring.p_name]. rewrite Hn, Hc.
      split; [exact Hkm |]. split; [exact Hbig | reflexivity].
  - apply List.Forall_forall. intros p Hp. apply (recurring_entries txns o p Hg) in Hp.
    destruct Hp as (m & Hin & _ & ->).
    cbn [Recurring.payment Recurring.p_name Recurring.p_count Recurring.p_total
         Recurring.p_avg Recurring.p_transactions Recurring.p_category] in *.
    destruct (Hentries _ m Hin) as (_ & _ & Ht & Htot & first & rest & Hf & Hc).
    cbv zeta. rewrite Ht.
    split; [reflexivity |].
    split; [apply sort_by_Permutation |].
    exists first, rest. auto.
Qed.

(** X17.  A single transaction whose description is a property name
    that every JavaScript object inherits (such as [constructor] or
    [toString]) makes [getRecurringPayments] throw a [TypeError]: the
    lookup in [byMerchant] finds the inherited property, no entry is
    created, and [push] is called on [undefined]. *)
Theorem inherited_name_breaks_recurring_payments `{Externals} (DATA : Dashboard.Data) :
  Exists (fun t => Js.inherited (Dashboard.js_Description t) = true)
         (Dashboard.allTransactions DATA) ->
  exists msg, Recurring.getRecurringPayments DATA = Raise (TypeError msg).
Proof.
  intros Hex.
  destruct (group_raises (Dashboard.allTransactions DATA) [] [] grouped_nothing Hex)
    as [msg Hmsg].
  exists msg. unfold Recurring.getRecurringPayments. rewrite Hmsg. reflexivity.
Qed.

(** ** The category table: lines, order and counts *)

Lemma zsum_Permutation (l l' : list Z) : Permutation l l' -> zsum l = zsum l'.
Proof.
  induction 1 as [| x l l' _ IH | x y l | l l' l'' _ IH1 _ IH2];
    rewrite ?zsum_cons; lia.
Qed.

Lemma category_breakdown_lines (df : DataFrame) (purchases_only : bool) :
  Permutation
    (Analysis.category_breakdown df purchases_only)
    (map (table_row
            (Analysis.total_positive
               (map (fun b => fst (fst (snd b)))
                    (map Analysis.aggregate
                         (Pandas.groupby String.eqb Str.leb Category
                                         (selected df purchases_only))))))
         (map Analysis.aggregate
              (Pandas.groupby String.eqb Str.leb Category (selected df purchases_only)))).
Proof. unfold Analysis.category_breakdown. apply sort_by_Permutation. Qed.

Lemma no_positive_total (totals : list Q) :
  Forall (fun t => (t <= 0)%Q) totals -> Analysis.total_positive totals = 0%Q.
Proof.
  unfold Analysis.total_positive. induction 1 as [| t l Ht _ IH]; [reflexivity |].
  cbn [List.filter]. apply Qltb_false in Ht. rewrite Ht. exact IH.
Qed.


(** * The further properties at work on examples *)

Lemma days_covered_witness :
  exists first last,
    In first Examples.two_charges /\ In last Examples.two_charges
    /\ Analysis.days_covered Examples.two_charges
       = Analysis.PyInt (Dates.to_days (Date last) - Dates.to_days (Date first)).
Proof.
  destruct (proj2 (days_covered_is_the_span Examples.two_charges))
    as (first & last & H1 & H2 & H3 & _); [discriminate |].
  exists first, last. auto.
Defined.




Lemma every_categorised_purchase_witness :
  exists data,
    Dashboard.process_data Cases.card = Ok data
    /\ Permutation (listed data) (omap purchase_record Cases.card).
Proof.
  eexists. split; [vm_compute; reflexivity |].
  refine (proj1 (every_categorised_purchase_is_listed_once Cases.card _ _)).
  vm_compute. reflexivity.
Defined.

Lemma month_totals_witness :
  exists data,
    Dashboard.process_data Cases.card = Ok data
    /\ forall t, In t (purchases Cases.card) ->
                 exists md, In (YearMonth t, md) (Dashboard.byMonth data).
Proof.
  eexists. split; [vm_compute; reflexivity |].
  refine (proj1 (month_totals_count_every_purchase Cases.card _ _)).
  vm_compute. reflexivity.
Defined.

Lemma recurring_payments_witness :
  (exists recurring,
     Recurring.getRecurringPayments (H := Concrete.externals) Cases.gym_data = Ok recurring
     /\ In "GYM" (map Recurring.p_name recurring)
     /\ ~ In "CAFE" (map Recurring.p_name recurring))
  /\ (exists recurring,
       Recurring.getRecurringPayments (H := Concrete.externals) Cases.numbered_data
       = Ok recurring
       /\ Forall (fun p => Recurring.p_category p = "9") recurring).
Proof.
  split.
  - destruct (recurring_payments_are_repeated_descriptions (H := Concrete.externals)
                Cases.gym_data) as (recurring & Hget & _ & Hin & _).
    + repeat constructor.
    + exists recurring. split; [exact Hget |]. split.
      * apply Hin. vm_compute. lia.
      * intros Hcafe. apply Hin in Hcafe. vm_compute in Hcafe. lia.
  - destruct (recurring_payments_are_repeated_descriptions (H := Concrete.externals)
                Cases.numbered_data) as (recurring & Hget & _ & Hin & Hall).
    + repeat constructor.
    + exists recurring. split; [exact Hget |].
      apply List.Forall_forall. intros p Hp.
      pose proof (proj1 (List.Forall_forall _ _) Hall p Hp) as Hp'. cbv zeta in Hp'.
      destruct Hp' as (_ & _ & first & rest & Hcharges & ->).
      pose proof (proj1 (Hin (Recurring.p_name p)) (in_map _ _ _ Hp)) as Hbig.
      let page := eval vm_compute in (Dashboard.allTransactions Cases.numbered_data) in
      change (Dashboard.allTransactions Cases.numbered_data) with page in Hbig, Hcharges.
      unfold charged_by in Hbig, Hcharges.
      cbn [List.filter Dashboard.js_Description] in Hbig, Hcharges.
      rewrite (String.eqb_sym "GYM") in Hbig, Hcharges.
      destruct (String.eqb (Recurring.p_name p) "GYM").
      * injection Hcharges as <- _. reflexivity.
      * simpl in Hbig. lia.
Defined.


Lemma inherited_name_witness :
  exists msg,
    Recurring.getRecurringPayments (H := Concrete.externals) Cases.odd_data
    = Raise (TypeError msg).
Proof.
  apply (inherited_name_breaks_recurring_payments (H := Concrete.externals) Cases.odd_data).
  apply Exists_cons_tl. apply Exists_cons_hd. reflexivity.
Defined.


